(** * The bootstrap service of the Bootz server (server/service/service.go)

    A shallow embedding of package [service]: the [Service] ledger
    ([connectedChassis], [activeBoots], [failedRequest]) and its operations
    [GetBootstrapData], [ReportStatus], [IsChassisConnected], [ResetStatus]
    and [GetBootStatus], over an arbitrary implementation of the
    [EntityManager] interface.

    Conventions.
    - A Go pointer that may be nil is an [option]: the request of a call, a
      message inside a message, an element of a repeated field.  Reading a
      field through [None] panics, and a panic is an [outcome] of its own; the
      generated getters are nil-safe and give the zero value.
    - A service is one that [New] made: its three maps are there, and so is
      its entity manager.
    - Every method holds [s.mu] from its first statement to its return, so a
      method is one atomic step on the ledger.
    - The entity manager and the wall clock are the outside world: their
      operations transform a world [W] of which the service knows nothing,
      and they return. *)

From stdpp Require Import gmap strings list fin_maps.
From Stdlib Require Import ZArith Ascii.

Local Open Scope string_scope.
Local Open Scope list_scope.
Set Warnings "-register-all".

(** ** Protocol messages (package bpb), restricted to the fields read here *)

Module bpb.

Inductive BootMode :=
| BootMode_BOOT_MODE_UNSPECIFIED
| BootMode_BOOT_MODE_INSECURE
| BootMode_BOOT_MODE_SECURE.

#[global] Instance BootMode_eq_dec : EqDecision BootMode.
Proof. solve_decision. Defined.

Inductive ControlCardState_ControlCardStatus :=
| ControlCardState_CONTROL_CARD_STATUS_UNSPECIFIED
| ControlCardState_CONTROL_CARD_STATUS_NOT_INITIALIZED
| ControlCardState_CONTROL_CARD_STATUS_INITIALIZED.

#[global] Instance ControlCardStatus_eq_dec :
  EqDecision ControlCardState_ControlCardStatus.
Proof. solve_decision. Defined.

Module ControlCard.
Record t := mk { SerialNumber : string; PartNumber : string }.
(** The generated getter: nil-safe, the zero value on a nil card. *)
Definition GetSerialNumber (c : option t) : string :=
  match c with Some c => SerialNumber c | None => "" end.
End ControlCard.

(** The control cards are a [[]*ControlCard]: an element may be nil. *)
Module ChassisDescriptor.
Record t := mk {
  Manufacturer : string;
  SerialNumber : string;
  ControlCards : list (option ControlCard.t)
}.
Definition GetControlCards (d : option t) : list (option ControlCard.t) :=
  match d with Some d => ControlCards d | None => [] end.
End ChassisDescriptor.

Module ControlCardState.
Record t := mk {
  SerialNumber : string;
  Status : ControlCardState_ControlCardStatus
}.
(** Getters are nil-safe: on a nil receiver they give the zero value. *)
Definition GetStatus (c : option t) : ControlCardState_ControlCardStatus :=
  match c with
  | Some c => Status c
  | None => ControlCardState_CONTROL_CARD_STATUS_UNSPECIFIED
  end.
Definition GetSerialNumber (c : option t) : string :=
  match c with Some c => SerialNumber c | None => "" end.
End ControlCardState.

Module GetBootstrapDataRequest.
Record t := mk {
  ChassisDescriptor : option ChassisDescriptor.t;
  ControlCardState : option ControlCardState.t;
  Nonce : string
}.
Definition GetControlCardState (r : option t) : option ControlCardState.t :=
  match r with Some r => ControlCardState r | None => None end.
End GetBootstrapDataRequest.

Module SoftwareImage.
Record t := mk {
  Name : string; Version : string; Url : string;
  OsImageHash : string; HashAlgorithm : string
}.
End SoftwareImage.

Module BootConfig.
Record t := mk { VendorConfig : list Byte.byte; OcConfig : list Byte.byte }.
End BootConfig.

Module BootstrapDataResponse.
Record t := mk {
  SerialNum : string;
  IntendedImage : option SoftwareImage.t;
  BootPasswordHash : string;
  ServerTrustCert : string;
  BootConfig : option BootConfig.t
}.
End BootstrapDataResponse.

Module BootstrapDataSigned.
Record t := mk {
  Responses : list (option BootstrapDataResponse.t);
  Nonce : string
}.
Definition set_Nonce (n : string) (b : t) : t := mk (Responses b) n.
End BootstrapDataSigned.

Module GetBootstrapDataResponse.
Record t := mk {
  SignedResponse : option BootstrapDataSigned.t;
  OwnershipVoucher : list Byte.byte;
  OwnershipCertificate : list Byte.byte;
  ResponseSignature : string
}.
End GetBootstrapDataResponse.

(** The states are a [[]*ControlCardState]: an element may be nil. *)
Module ReportStatusRequest.
Record t := mk { States : list (option ControlCardState.t) }.
Definition GetStates (r : option t) : list (option ControlCardState.t) :=
  match r with Some r => States r | None => [] end.
End ReportStatusRequest.

Module EmptyResponse.
Record t := mk { }.
End EmptyResponse.

End bpb.

(** ** Errors: grpc status errors, fmt errors and errlist aggregates *)

Module codes.
Inductive Code := InvalidArgument | NotFound | Internal | Unimplemented | Unknown.
#[global] Instance Code_eq_dec : EqDecision Code.
Proof. solve_decision. Defined.
End codes.

(** A Go [error] value.  [StatusError] is what [status.Errorf] builds,
    [FmtError] what [fmt.Errorf] builds, and [ErrorList] an aggregate, an
    error that holds a list of errors; the list may be empty. *)
Inductive error :=
| StatusError (c : codes.Code) (msg : string)
| FmtError (msg : string)
| ErrorList (es : list error).

Module status.
Definition Errorf (c : codes.Code) (msg : string) : error := StatusError c msg.
(** [status.Code]: the code of a status error; any other error is Unknown. *)
Definition Code (e : error) : codes.Code :=
  match e with StatusError c _ => c | _ => codes.Unknown end.
End status.

Module errlist.
(** [errlist.List]: the errors added so far, oldest first. *)
Definition List := list error.
Definition zero : List := [].
(** [Add] appends an error; of an error that is itself an aggregate it
    appends the errors it holds, which may be none. *)
Definition Add (l : List) (e : error) : List :=
  match e with
  | ErrorList es => l ++ es
  | _ => l ++ [e]
  end.
(** [Err] is nil for the empty list and the aggregate otherwise. *)
Definition Err (l : List) : option error :=
  match l with
  | [] => None
  | _ :: _ => Some (ErrorList l)
  end.
End errlist.

(** [uint64(x)] of an int64 [x]: the conversion wraps. *)
Definition uint64 (x : Z) : Z := (x mod 2 ^ 64)%Z.

(** A non-nil [*T] the service is handed: map keys of pointer type compare
    the address, field reads go through to the pointee. *)
Record ptr (A : Type) := Ptr { addr : positive; pointee : A }.
Arguments Ptr {A} _ _.
Arguments addr {A} _.
Arguments pointee {A} _.

(** How a call ends: it returns, or it panics on a nil dereference or an
    index out of range. *)
Inductive outcome (A : Type) :=
| Return (a : A)
| Panic.
Arguments Return {A} _.
Arguments Panic {A}.

(** ** Package service: the data model *)

Module EntityLookup.
Record t := mk { Manufacturer : string; SerialNumber : string }.

#[global] Instance eq_dec : EqDecision t.
Proof. solve_decision. Defined.

(** A lookup is a map key: it is a plain pair of strings. *)
#[global] Instance countable : Countable t.
Proof.
  apply (inj_countable' (λ l, (Manufacturer l, SerialNumber l))
                        (λ p, mk (fst p) (snd p))).
  by intros [].
Defined.
End EntityLookup.

Module ChassisEntity.
Record t := mk { BootMode : bpb.BootMode }.
End ChassisEntity.

Module bootLog.
Record t := mk {
  BootMode : bpb.BootMode;
  StartTimeStamp : Z;
  EndTimeStamp : Z;
  Status : list bpb.ControlCardState_ControlCardStatus;
  LastStatus : bpb.ControlCardState_ControlCardStatus;
  BootResponse : option bpb.BootstrapDataResponse.t;
  BootRequest : option (ptr bpb.GetBootstrapDataRequest.t);
  Err : option error
}.

(** [bootLog{}] *)
Definition zero : t :=
  mk bpb.BootMode_BOOT_MODE_UNSPECIFIED 0 0 []
     bpb.ControlCardState_CONTROL_CARD_STATUS_UNSPECIFIED None None None.

(** Assignments to one field. *)
Definition set_EndTimeStamp (x : Z) (b : t) : t :=
  mk (BootMode b) (StartTimeStamp b) x (Status b) (LastStatus b)
     (BootResponse b) (BootRequest b) (Err b).
Definition set_Status (x : list bpb.ControlCardState_ControlCardStatus) (b : t) : t :=
  mk (BootMode b) (StartTimeStamp b) (EndTimeStamp b) x (LastStatus b)
     (BootResponse b) (BootRequest b) (Err b).
Definition set_LastStatus (x : bpb.ControlCardState_ControlCardStatus) (b : t) : t :=
  mk (BootMode b) (StartTimeStamp b) (EndTimeStamp b) (Status b) x
     (BootResponse b) (BootRequest b) (Err b).
Definition set_BootResponse (x : option bpb.BootstrapDataResponse.t) (b : t) : t :=
  mk (BootMode b) (StartTimeStamp b) (EndTimeStamp b) (Status b) (LastStatus b)
     x (BootRequest b) (Err b).
Definition set_Err (x : option error) (b : t) : t :=
  mk (BootMode b) (StartTimeStamp b) (EndTimeStamp b) (Status b) (LastStatus b)
     (BootResponse b) (BootRequest b) x.
End bootLog.

(** The [EntityManager] interface.  A method takes the world as it is and
    leaves it as it made it.  [ResolveChassis] and [GetBootstrapData] return a
    pointer and an error, both of which the service looks at; [Sign] writes
    into the response it is handed, so it returns that response as well.  The
    lookup, the card and the report a method is handed it only reads; the
    card and the report may be nil. *)
Module EntityManager.
Record t (W : Type) := mk {
  ResolveChassis :
    EntityLookup.t → string → W → (option ChassisEntity.t * option error) * W;
  GetBootstrapData :
    EntityLookup.t → option bpb.ControlCard.t → W →
    (option bpb.BootstrapDataResponse.t * option error) * W;
  SetStatus : option bpb.ReportStatusRequest.t → W → option error * W;
  Sign :
    bpb.GetBootstrapDataResponse.t → EntityLookup.t → string → W →
    (bpb.GetBootstrapDataResponse.t * option error) * W
}.
Arguments ResolveChassis {W} _ _ _ _.
Arguments GetBootstrapData {W} _ _ _ _.
Arguments SetStatus {W} _ _ _.
Arguments Sign {W} _ _ _ _ _.
End EntityManager.

(** What a [Service] runs against: its [em] field, the clock behind
    [time.Now().UnixMilli()], and fmt's rendering of the descriptor ("%+v")
    and the error ("%v") in the message of a failed resolution. *)
Record Env (W : Type) := mkEnv {
  em : EntityManager.t W;
  UnixMilli : W → Z * W;
  render : bpb.ChassisDescriptor.t → error → string
}.
Arguments em {W} _.
Arguments UnixMilli {W} _ _.
Arguments render {W} _ _ _.

(** ** The service and its methods *)

Module Service.

(** The ledger.  [failedRequest] is keyed by request pointer. *)
Record t := mk {
  connectedChassis : gmap EntityLookup.t bool;
  activeBoots : gmap string bootLog.t;
  failedRequest : gmap positive error
}.

Definition set_connectedChassis
    (f : gmap EntityLookup.t bool → gmap EntityLookup.t bool) (s : t) : t :=
  mk (f (connectedChassis s)) (activeBoots s) (failedRequest s).
Definition set_activeBoots
    (f : gmap string bootLog.t → gmap string bootLog.t) (s : t) : t :=
  mk (connectedChassis s) (f (activeBoots s)) (failedRequest s).
Definition set_failedRequest
    (f : gmap positive error → gmap positive error) (s : t) : t :=
  mk (connectedChassis s) (activeBoots s) (f (failedRequest s)).

(** [New] *)
Definition New : t := mk ∅ ∅ ∅.

Section Methods.
Context {W : Type}.

(** A method body: from a ledger and a world to an outcome, the ledger and
    the world it leaves.  A panic ends the body where it happens. *)
Definition M (A : Type) : Type := t → W → outcome A * t * W.

#[local] Instance M_ret : MRet M := λ A a s w, (Return a, s, w).
#[local] Instance M_bind : MBind M := λ A B f m s w,
  match m s w with
  | (Return a, s', w') => f a s' w'
  | (Panic, s', w') => (Panic, s', w')
  end.

Definition modify (f : t → t) : M unit := λ s w, (Return (), f s, w).

(** A call out of the service. *)
Definition call {A} (f : W → A * W) : M A :=
  λ s w, let '(a, w') := f w in (Return a, s, w').

(** [*p], and [p.F] for a field [F] *)
Definition deref {A} (p : option A) : M A :=
  λ s w, match p with Some a => (Return a, s, w) | None => (Panic, s, w) end.

(** [l[i]] *)
Definition index {A} (l : list A) (i : nat) : M A :=
  λ s w, match l !! i with Some a => (Return a, s, w) | None => (Panic, s, w) end.

(** [s.activeBoots[k].F = x]: the map gives the entry's pointer, nil when
    there is no entry, and the assignment goes through it. *)
Definition storeBoot (k : string) (f : bootLog.t → bootLog.t) : M unit :=
  λ s w, match activeBoots s !! k with
         | Some b => (Return (), set_activeBoots (<[k := f b]>) s, w)
         | None => (Panic, s, w)
         end.

Variable E : Env W.

(** The loop over the request's control cards (lines 144 to 159), from the
    errors and the responses collected so far.  A card gets a fresh boot log
    under what its getter gives as serial, stamped with the time; its
    bootstrap data are fetched, for the element as it is, nil or not; an
    error of the fetch goes into the boot log and into the list, and the log
    line of line 155 then reads [v.SerialNumber] through the card; what the
    fetch returned as data goes into the boot log and into the responses
    either way. *)
Fixpoint cardLoop (req : ptr bpb.GetBootstrapDataRequest.t)
    (lookup : EntityLookup.t) (chassis : ChassisEntity.t)
    (cards : list (option bpb.ControlCard.t))
    (errs : errlist.List) (responses : list (option bpb.BootstrapDataResponse.t))
    : M (errlist.List * list (option bpb.BootstrapDataResponse.t)) :=
  match cards with
  | [] => mret (errs, responses)
  | v :: cards =>
      now ← call (UnixMilli E);
      modify (set_activeBoots (<[bpb.ControlCard.GetSerialNumber v :=
        bootLog.mk (ChassisEntity.BootMode chassis) (uint64 now) 0 []
          bpb.ControlCardState_CONTROL_CARD_STATUS_UNSPECIFIED
          None (Some req) None]>));;
      '(bootdata, err) ← call (EntityManager.GetBootstrapData (em E) lookup v);
      errs ← match err with
             | Some e =>
                 storeBoot (bpb.ControlCard.GetSerialNumber v) (bootLog.set_Err (Some e));;
                 let errs := errlist.Add errs e in
                 _ ← deref v;
                 mret errs
             | None => mret errs
             end;
      storeBoot (bpb.ControlCard.GetSerialNumber v) (bootLog.set_BootResponse bootdata);;
      cardLoop req lookup chassis cards errs (responses ++ [bootdata])
  end.

(** [GetBootstrapData] (lines 102 to 195).  It returns a response and an
    error.  [req.ChassisDescriptor.ControlCards] is read through the request
    and through its descriptor without a nil check, as is the chassis that
    [ResolveChassis] returns. *)
Definition GetBootstrapData (req : option (ptr bpb.GetBootstrapDataRequest.t))
    : M (option bpb.GetBootstrapDataResponse.t * option error) :=
  let fixedChasis := true in
  let ccSerial := "" in
  (* lines 110 to 113 *)
  r ← deref req;
  cd ← deref (bpb.GetBootstrapDataRequest.ChassisDescriptor (pointee r));
  if decide (length (bpb.ChassisDescriptor.ControlCards cd) = 0) then
    modify (set_failedRequest (<[addr r :=
      status.Errorf codes.InvalidArgument "request must include at least one control card"]>));;
    mret (None, Some (status.Errorf codes.InvalidArgument
                        "request must include at least one control card"))
  else
    (* lines 114 to 117 *)
    '(fixedChasis, ccSerial) ←
      (if decide (1 ≤ length (bpb.ChassisDescriptor.ControlCards cd))%nat then
         c ← index (bpb.ChassisDescriptor.GetControlCards
                      (bpb.GetBootstrapDataRequest.ChassisDescriptor (pointee r))) 0;
         mret (false, bpb.ControlCard.GetSerialNumber c)
       else mret (fixedChasis, ccSerial));
    let lookup := EntityLookup.mk (bpb.ChassisDescriptor.Manufacturer cd)
                                  (bpb.ChassisDescriptor.SerialNumber cd) in
    (* lines 124 to 128 *)
    '(chassis, err) ← call (EntityManager.ResolveChassis (em E) lookup ccSerial);
    match err with
    | Some err =>
        modify (set_failedRequest (<[addr r :=
          status.Errorf codes.InvalidArgument
            (String.append "failed to resolve chassis to inventory " (render E cd err))]>));;
        mret (None, Some (status.Errorf codes.InvalidArgument
          (String.append "failed to resolve chassis to inventory " (render E cd err))))
    | None =>
        (* line 130 *)
        modify (set_connectedChassis (<[lookup := true]>));;
        (* lines 133 to 135 *)
        chassis ← deref chassis;
        if decide (ChassisEntity.BootMode chassis = bpb.BootMode_BOOT_MODE_SECURE
                   ∧ bpb.GetBootstrapDataRequest.Nonce (pointee r) = "") then
          mret (None, Some (status.Errorf codes.InvalidArgument
                              "chassis requires secure boot only"))
        else
          (* lines 144 to 159 *)
          '(errs, responses) ←
            cardLoop r lookup chassis (bpb.ChassisDescriptor.ControlCards cd)
                     errlist.zero [];
          (* lines 160 to 167 *)
          '(errs, responses) ←
            (if fixedChasis : bool then
               '(bootdata, err) ← call (EntityManager.GetBootstrapData (em E) lookup None);
               mret (match err with Some e => errlist.Add errs e | None => errs end,
                     responses ++ [bootdata])
             else mret (errs, responses));
          (* lines 169 to 171 *)
          match errlist.Err errs with
          | Some e => mret (None, Some e)
          | None =>
              (* lines 175 to 194 *)
              let resp :=
                bpb.GetBootstrapDataResponse.mk
                  (Some (bpb.BootstrapDataSigned.mk responses "")) [] [] "" in
              if decide (bpb.GetBootstrapDataRequest.Nonce (pointee r) ≠ "") then
                let resp :=
                  bpb.GetBootstrapDataResponse.mk
                    (bpb.BootstrapDataSigned.set_Nonce
                       (bpb.GetBootstrapDataRequest.Nonce (pointee r))
                     <$> bpb.GetBootstrapDataResponse.SignedResponse resp)
                    [] [] "" in
                '(resp, err) ← call (EntityManager.Sign (em E) resp lookup
                   (bpb.ControlCardState.GetSerialNumber
                      (bpb.GetBootstrapDataRequest.GetControlCardState
                         (Some (pointee r)))));
                match err with
                | Some _ =>
                    mret (None, Some (status.Errorf codes.Internal
                                        "failed to sign bootz response"))
                | None => mret (Some resp, None)
                end
              else mret (Some resp, None)
          end
    end.

(** The loop over the reported states (lines 205 to 211).  The first write
    goes through [s.activeBoots[stat.GetSerialNumber()]], with the nil-safe
    getter; the second and the third, the third for the terminal status
    only, go through [s.activeBoots[stat.SerialNumber]], which reads the
    field through the state. *)
Fixpoint reportLoop (states : list (option bpb.ControlCardState.t)) : M unit :=
  match states with
  | [] => mret ()
  | stat :: states =>
      storeBoot (bpb.ControlCardState.GetSerialNumber stat)
                (bootLog.set_LastStatus (bpb.ControlCardState.GetStatus stat));;
      st ← deref stat;
      storeBoot (bpb.ControlCardState.SerialNumber st)
                (λ b, bootLog.set_Status
                        (bootLog.Status b ++ [bpb.ControlCardState.GetStatus stat]) b);;
      (if decide (bpb.ControlCardState.GetStatus stat
                  = bpb.ControlCardState_CONTROL_CARD_STATUS_INITIALIZED) then
         now ← call (UnixMilli E);
         storeBoot (bpb.ControlCardState.SerialNumber st)
                   (bootLog.set_EndTimeStamp (uint64 now))
       else mret ());;
      reportLoop states
  end.

(** [ReportStatus] (lines 197 to 216): the loop runs when [SetStatus]
    returned an error; otherwise what [SetStatus] returned is returned.  The
    report is handed on as it is, and its states are read with the nil-safe
    getter. *)
Definition ReportStatus (req : option bpb.ReportStatusRequest.t)
    : M (option bpb.EmptyResponse.t * option error) :=
  err ← call (EntityManager.SetStatus (em E) req);
  if err is Some _ then
    reportLoop (bpb.ReportStatusRequest.GetStates req);;
    mret (Some bpb.EmptyResponse.mk, None)
  else mret (None, err).

End Methods.

(** [IsChassisConnected]: a map read, [false] for a key that is not there. *)
Definition IsChassisConnected (s : t) (chassis : EntityLookup.t) : bool :=
  default false (connectedChassis s !! chassis).

(** [ResetStatus]: three fresh maps; the argument is not looked at. *)
Definition ResetStatus (s : t) (chassis : EntityLookup.t) : t :=
  mk ∅ ∅ ∅.

(** [GetBootStatus]: the boot log of the serial, by value, or the zero boot
    log and an error made by [fmt.Errorf]. *)
Definition GetBootStatus (s : t) (serial : string) : bootLog.t * option error :=
  match activeBoots s !! serial with
  | None =>
      (bootLog.zero,
       Some (FmtError (String.append "no boot log found for controller card " serial)))
  | Some b => (b, None)
  end.

End Service.

(** ** Observing the calls made on the entity manager *)

Inductive Call :=
| CallResolveChassis (lookup : EntityLookup.t) (ccSerial : string)
| CallGetBootstrapData (lookup : EntityLookup.t) (card : option bpb.ControlCard.t)
| CallSetStatus (req : option bpb.ReportStatusRequest.t)
| CallSign (resp : bpb.GetBootstrapDataResponse.t) (lookup : EntityLookup.t)
           (serial : string).

(** An entity manager that does what [m] does and writes every call it
    receives at the end of a log kept next to the world. *)
Definition traced_em {W} (m : EntityManager.t W) : EntityManager.t (W * list Call) :=
  EntityManager.mk (W * list Call)
    (λ lookup cc '(w, tr),
       let '(r, w') := EntityManager.ResolveChassis m lookup cc w in
       (r, (w', tr ++ [CallResolveChassis lookup cc])))
    (λ lookup card '(w, tr),
       let '(r, w') := EntityManager.GetBootstrapData m lookup card w in
       (r, (w', tr ++ [CallGetBootstrapData lookup card])))
    (λ req '(w, tr),
       let '(r, w') := EntityManager.SetStatus m req w in
       (r, (w', tr ++ [CallSetStatus req])))
    (λ resp lookup serial '(w, tr),
       let '(r, w') := EntityManager.Sign m resp lookup serial w in
       (r, (w', tr ++ [CallSign resp lookup serial]))).

Definition traced {W} (E : Env W) : Env (W * list Call) :=
  mkEnv (W * list Call) (traced_em (em E))
    (λ '(w, tr), let '(now, w') := UnixMilli E w in (now, (w', tr)))
    (render E).

(** The calls a run has made, the outcome of a run, the ledger it leaves. *)
Definition calls {W A} (r : outcome A * Service.t * (W * list Call)) : list Call :=
  snd (snd r).
Definition result {W A} (r : outcome A * Service.t * W) : outcome A := fst (fst r).
Definition ledger {W A} (r : outcome A * Service.t * W) : Service.t := snd (fst r).

(** What [GetBootstrapData] computes from the descriptor before it resolves
    the chassis: the lookup and the serial of the first control card. *)
Definition lookup_of (cd : bpb.ChassisDescriptor.t) : EntityLookup.t :=
  EntityLookup.mk (bpb.ChassisDescriptor.Manufacturer cd)
                  (bpb.ChassisDescriptor.SerialNumber cd).
Definition ccSerial_of (cd : bpb.ChassisDescriptor.t) : string :=
  match bpb.ChassisDescriptor.ControlCards cd with
  | Some c :: _ => bpb.ControlCard.SerialNumber c
  | _ => ""
  end.

(** The serial under which the service files an element of the control
    cards, and a state of a report: its serial, and the empty one when the
    element is nil.  The states of a report: a nil report has none.  The
    serial of the control-card state of a request: the empty one when the
    request has no such state. *)
Definition cardSerial (c : option bpb.ControlCard.t) : string :=
  match c with Some c => bpb.ControlCard.SerialNumber c | None => "" end.
Definition names (stat : option bpb.ControlCardState.t) : string :=
  match stat with Some st => bpb.ControlCardState.SerialNumber st | None => "" end.
Definition statesOf (req : option bpb.ReportStatusRequest.t)
    : list (option bpb.ControlCardState.t) :=
  match req with Some r => bpb.ReportStatusRequest.States r | None => [] end.
Definition stateSerial (req : ptr bpb.GetBootstrapDataRequest.t) : string :=
  match bpb.GetBootstrapDataRequest.ControlCardState (pointee req) with
  | Some st => bpb.ControlCardState.SerialNumber st
  | None => ""
  end.

(** ** Entity managers to run the service on

    Implementations of the interface, with the answers the tests of the
    in-memory entity manager expect.  The inventory has one chassis, Cisco
    123, in boot mode [mode], and the control cards in [cards]; asked for the
    data of no card it gives those of the chassis.  [SetStatus] refuses a
    report without states or with a serial that is not in the inventory;
    [Sign] works when [signs] is set.  The world is the clock, which advances
    by one at each reading. *)
Module Lab.

Definition chassis123 : EntityLookup.t := EntityLookup.mk "Cisco" "123".

Definition bootdata (serial : string) : bpb.BootstrapDataResponse.t :=
  bpb.BootstrapDataResponse.mk serial
    (Some (bpb.SoftwareImage.mk "Default Image" "1.0" "https://path/to/image"
             "ABCDEF" "SHA256"))
    "ABCD123" "FakeTLSCert" (Some (bpb.BootConfig.mk [] [])).

Definition known (cards : list string) (serial : string) : bool :=
  bool_decide (serial ∈ cards).

Definition notInInventory : error :=
  StatusError codes.NotFound "control card not in inventory".

Definition inventory (mode : bpb.BootMode) (cards : list string) (signs : bool)
    : EntityManager.t Z :=
  EntityManager.mk Z
    (λ lookup _ w,
       if decide (lookup = chassis123)
       then ((Some (ChassisEntity.mk mode), None), w)
       else ((None, Some (StatusError codes.NotFound "chassis not in inventory")), w))
    (λ lookup card w,
       match card with
       | Some c =>
           if known cards (bpb.ControlCard.SerialNumber c)
           then ((Some (bootdata (bpb.ControlCard.SerialNumber c)), None), w)
           else ((None, Some notInInventory), w)
       | None =>
           ((Some (bootdata (EntityLookup.SerialNumber lookup)), None), w)
       end)
    (λ req w,
       match bpb.ReportStatusRequest.GetStates req with
       | [] => (Some (StatusError codes.InvalidArgument "no control card states provided"), w)
       | sts =>
           if forallb (λ st, known cards (bpb.ControlCardState.GetSerialNumber st)) sts
           then (None, w)
           else (Some notInInventory, w)
       end)
    (λ resp lookup serial w,
       if signs
       then ((bpb.GetBootstrapDataResponse.mk
                (bpb.GetBootstrapDataResponse.SignedResponse resp)
                [] [] "c2lnbmF0dXJl", None), w)
       else ((resp, Some (StatusError codes.NotFound "no ownership voucher")), w)).

Definition env (mode : bpb.BootMode) (cards : list string) (signs : bool) : Env Z :=
  mkEnv Z (inventory mode cards signs) (λ w, (w, (w + 1)%Z)) (λ _ _, "").

(** An inventory that goes by the part number of a card, and has no data
    for a card that is not there; and one whose fetches all come with an
    error that is an aggregate of no error. *)
Definition byPart (parts : list string) : EntityManager.t Z :=
  EntityManager.mk Z
    (EntityManager.ResolveChassis (inventory bpb.BootMode_BOOT_MODE_INSECURE [] true))
    (λ lookup card w,
       match card with
       | Some c =>
           if known parts (bpb.ControlCard.PartNumber c)
           then ((Some (bootdata (bpb.ControlCard.SerialNumber c)), None), w)
           else ((None, Some notInInventory), w)
       | None => ((None, Some notInInventory), w)
       end)
    (EntityManager.SetStatus (inventory bpb.BootMode_BOOT_MODE_INSECURE [] true))
    (EntityManager.Sign (inventory bpb.BootMode_BOOT_MODE_INSECURE [] true)).

Definition hollow : EntityManager.t Z :=
  EntityManager.mk Z
    (EntityManager.ResolveChassis (inventory bpb.BootMode_BOOT_MODE_INSECURE [] true))
    (λ lookup card w,
       ((Some (bootdata (bpb.ControlCard.GetSerialNumber card)), Some (ErrorList [])), w))
    (EntityManager.SetStatus (inventory bpb.BootMode_BOOT_MODE_INSECURE [] true))
    (EntityManager.Sign (inventory bpb.BootMode_BOOT_MODE_INSECURE [] true)).

Definition envOf (m : EntityManager.t Z) : Env Z :=
  mkEnv Z m (λ w, (w, (w + 1)%Z)) (λ _ _, "").

Definition card (serial : string) : bpb.ControlCard.t :=
  bpb.ControlCard.mk serial serial.

Definition cards (serials : list string) : list (option bpb.ControlCard.t) :=
  map (λ serial, Some (card serial)) serials.

(** A request for chassis Cisco 123 at address 1, and one for the control
    cards as given. *)
Definition requestFor (cs : list (option bpb.ControlCard.t)) (nonce : string)
    : ptr bpb.GetBootstrapDataRequest.t :=
  Ptr 1%positive
    (bpb.GetBootstrapDataRequest.mk
       (Some (bpb.ChassisDescriptor.mk "Cisco" "123" cs))
       (Some (bpb.ControlCardState.mk
                (default "" (bpb.ControlCard.GetSerialNumber <$> head cs))
                bpb.ControlCardState_CONTROL_CARD_STATUS_NOT_INITIALIZED))
       nonce).

Definition request (serials : list string) (nonce : string)
    : ptr bpb.GetBootstrapDataRequest.t :=
  requestFor (cards serials) nonce.

Definition report (serial : string) (st : bpb.ControlCardState_ControlCardStatus)
    : option bpb.ReportStatusRequest.t :=
  Some (bpb.ReportStatusRequest.mk [Some (bpb.ControlCardState.mk serial st)]).

End Lab.

(** ** The stages of GetBootstrapData *)

(** The error values the service builds. *)
Definition errNoControlCard : error :=
  StatusError codes.InvalidArgument "request must include at least one control card".
Definition errUnresolved {W} (E : Env W) (cd : bpb.ChassisDescriptor.t) (err : error)
    : error :=
  StatusError codes.InvalidArgument
    (String.append "failed to resolve chassis to inventory " (render E cd err)).
Definition errSecureOnly : error :=
  StatusError codes.InvalidArgument "chassis requires secure boot only".
Definition errSign : error :=
  StatusError codes.Internal "failed to sign bootz response".

(** The ledger once the chassis of [cd] is marked connected. *)
Definition connect (cd : bpb.ChassisDescriptor.t) (s : Service.t) : Service.t :=
  Service.set_connectedChassis (<[lookup_of cd := true]>) s.

(** The envelope built from the collected responses, before signing. *)
Definition envelope (responses : list (option bpb.BootstrapDataResponse.t))
    (nonce : string) : bpb.GetBootstrapDataResponse.t :=
  bpb.GetBootstrapDataResponse.mk
    (Some (bpb.BootstrapDataSigned.mk responses nonce)) [] [] "".

(** The last stage (lines 169 to 194), from what the loop collected. *)
Definition respond {W} (E : Env W) (req : ptr bpb.GetBootstrapDataRequest.t)
    (cd : bpb.ChassisDescriptor.t) (errs : errlist.List)
    (responses : list (option bpb.BootstrapDataResponse.t)) (s : Service.t) (w : W)
    : outcome (option bpb.GetBootstrapDataResponse.t * option error) * Service.t * W :=
  match errlist.Err errs with
  | Some e => (Return (None, Some e), s, w)
  | None =>
      if decide (bpb.GetBootstrapDataRequest.Nonce (pointee req) = "")
      then (Return (Some (envelope responses ""), None), s, w)
      else
        let '((resp, err), w') :=
          EntityManager.Sign (em E)
            (envelope responses (bpb.GetBootstrapDataRequest.Nonce (pointee req)))
            (lookup_of cd) (stateSerial req) w in
        match err with
        | Some _ => (Return (None, Some errSign), s, w')
        | None => (Return (Some resp, None), s, w')
        end
  end.

(** The fetches for a list of cards, in their order. *)
Definition fetches (lookup : EntityLookup.t) (cards : list (option bpb.ControlCard.t))
    : list Call :=
  map (CallGetBootstrapData lookup) cards.

(** The call to [Sign] the last stage makes, if it makes one. *)
Definition signing (req : ptr bpb.GetBootstrapDataRequest.t)
    (cd : bpb.ChassisDescriptor.t) (errs : errlist.List)
    (responses : list (option bpb.BootstrapDataResponse.t)) : list Call :=
  match errlist.Err errs with
  | Some _ => []
  | None =>
      if decide (bpb.GetBootstrapDataRequest.Nonce (pointee req) = "") then []
      else [CallSign
              (envelope responses (bpb.GetBootstrapDataRequest.Nonce (pointee req)))
              (lookup_of cd) (stateSerial req)]
  end.

(** ** The loop over the control cards, card by card *)

(** What the loop does with one card: it reads the clock, fetches the
    bootstrap data of the card, and has what the fetch returned. *)
Module Fetch.
Record t := mk {
  card : option bpb.ControlCard.t;
  time : Z;
  data : option bpb.BootstrapDataResponse.t;
  failure : option error
}.
Definition serial (f : t) : string := cardSerial (card f).
(** The fetch at which the loop panics: one for a nil card that returned an
    error, of which line 155 reads the serial. *)
Definition stuck (f : t) : bool :=
  match card f, failure f with
  | None, Some _ => true
  | _, _ => false
  end.
End Fetch.

(** The fetches the loop makes for a list of cards, in order, and the world
    they leave: one per card, up to the fetch at which the loop panics. *)
Fixpoint fetchEach {W} (E : Env W) (lookup : EntityLookup.t)
    (cards : list (option bpb.ControlCard.t)) (w : W) : list Fetch.t * W :=
  match cards with
  | [] => ([], w)
  | v :: cards =>
      let '(now, w1) := UnixMilli E w in
      let '((bootdata, err), w2) :=
        EntityManager.GetBootstrapData (em E) lookup v w1 in
      if Fetch.stuck (Fetch.mk v now bootdata err) then
        ([Fetch.mk v now bootdata err], w2)
      else
        let '(fs, w3) := fetchEach E lookup cards w2 in
        (Fetch.mk v now bootdata err :: fs, w3)
  end.

(** The boot log a card has when the loop is done with it; the data of a
    fetch at which the loop panics are not stored. *)
Definition bootOf (req : ptr bpb.GetBootstrapDataRequest.t)
    (chassis : ChassisEntity.t) (f : Fetch.t) : bootLog.t :=
  bootLog.mk (ChassisEntity.BootMode chassis) (uint64 (Fetch.time f)) 0 []
    bpb.ControlCardState_CONTROL_CARD_STATUS_UNSPECIFIED
    (if Fetch.stuck f then None else Fetch.data f) (Some req) (Fetch.failure f).

(** The boot logs after the fetches: each card's boot log is stored under its
    serial, a later card replacing an earlier one of the same serial. *)
Definition logFetches (req : ptr bpb.GetBootstrapDataRequest.t)
    (chassis : ChassisEntity.t) (fs : list Fetch.t)
    (boots : gmap string bootLog.t) : gmap string bootLog.t :=
  foldl (λ m f, <[Fetch.serial f := bootOf req chassis f]> m) boots fs.

(** The errors of the fetches, added in order to those collected before. *)
Definition collectErrors (errs : errlist.List) (fs : list Fetch.t) : errlist.List :=
  foldl (λ l f, match Fetch.failure f with
                | Some e => errlist.Add l e
                | None => l
                end) errs fs.

(** A fetch that leaves the call on its way to a response: it returned no
    error, or it returned, for a card that is there, an aggregate that holds
    no error. *)
Definition clean (f : Fetch.t) : Prop :=
  Fetch.failure f = None
  ∨ (Fetch.card f ≠ None ∧ Fetch.failure f = Some (ErrorList [])).

(** Every call with a request takes exactly one of seven paths: it panics on
    a request without descriptor; refuses a descriptor without control cards;
    refuses a chassis that does not resolve; panics on a nil chassis that
    comes without an error; refuses a secure chassis without nonce; panics in
    the loop over the cards, at a fetch that is stuck; or runs the loop to
    its end and responds. *)
Inductive path {W} (E : Env W) (req : ptr bpb.GetBootstrapDataRequest.t)
    (s : Service.t) (w : W)
  : outcome (option bpb.GetBootstrapDataResponse.t * option error) * Service.t * W → Prop :=
| path_nil_descriptor :
    bpb.GetBootstrapDataRequest.ChassisDescriptor (pointee req) = None →
    path E req s w (Panic, s, w)
| path_no_cards cd :
    bpb.GetBootstrapDataRequest.ChassisDescriptor (pointee req) = Some cd →
    bpb.ChassisDescriptor.ControlCards cd = [] →
    path E req s w
      (Return (None, Some errNoControlCard),
       Service.set_failedRequest (<[addr req := errNoControlCard]>) s, w)
| path_unresolved cd ch err w1 :
    bpb.GetBootstrapDataRequest.ChassisDescriptor (pointee req) = Some cd →
    bpb.ChassisDescriptor.ControlCards cd ≠ [] →
    EntityManager.ResolveChassis (em E) (lookup_of cd) (ccSerial_of cd) w
    = ((ch, Some err), w1) →
    path E req s w
      (Return (None, Some (errUnresolved E cd err)),
       Service.set_failedRequest (<[addr req := errUnresolved E cd err]>) s, w1)
| path_nil_chassis cd w1 :
    bpb.GetBootstrapDataRequest.ChassisDescriptor (pointee req) = Some cd →
    bpb.ChassisDescriptor.ControlCards cd ≠ [] →
    EntityManager.ResolveChassis (em E) (lookup_of cd) (ccSerial_of cd) w
    = ((None, None), w1) →
    path E req s w (Panic, connect cd s, w1)
| path_secure_only cd ch w1 :
    bpb.GetBootstrapDataRequest.ChassisDescriptor (pointee req) = Some cd →
    bpb.ChassisDescriptor.ControlCards cd ≠ [] →
    EntityManager.ResolveChassis (em E) (lookup_of cd) (ccSerial_of cd) w
    = ((Some ch, None), w1) →
    ChassisEntity.BootMode ch = bpb.BootMode_BOOT_MODE_SECURE →
    bpb.GetBootstrapDataRequest.Nonce (pointee req) = "" →
    path E req s w (Return (None, Some errSecureOnly), connect cd s, w1)
| path_stuck cd ch w1 fs w2 :
    bpb.GetBootstrapDataRequest.ChassisDescriptor (pointee req) = Some cd →
    bpb.ChassisDescriptor.ControlCards cd ≠ [] →
    EntityManager.ResolveChassis (em E) (lookup_of cd) (ccSerial_of cd) w
    = ((Some ch, None), w1) →
    ¬ (ChassisEntity.BootMode ch = bpb.BootMode_BOOT_MODE_SECURE
       ∧ bpb.GetBootstrapDataRequest.Nonce (pointee req) = "") →
    fetchEach E (lookup_of cd) (bpb.ChassisDescriptor.ControlCards cd) w1 = (fs, w2) →
    existsb Fetch.stuck fs = true →
    path E req s w
      (Panic, Service.set_activeBoots (logFetches req ch fs) (connect cd s), w2)
| path_cards cd ch w1 fs w2 :
    bpb.GetBootstrapDataRequest.ChassisDescriptor (pointee req) = Some cd →
    bpb.ChassisDescriptor.ControlCards cd ≠ [] →
    EntityManager.ResolveChassis (em E) (lookup_of cd) (ccSerial_of cd) w
    = ((Some ch, None), w1) →
    ¬ (ChassisEntity.BootMode ch = bpb.BootMode_BOOT_MODE_SECURE
       ∧ bpb.GetBootstrapDataRequest.Nonce (pointee req) = "") →
    fetchEach E (lookup_of cd) (bpb.ChassisDescriptor.ControlCards cd) w1 = (fs, w2) →
    existsb Fetch.stuck fs = false →
    path E req s w
      (respond E req cd (collectErrors errlist.zero fs) (map Fetch.data fs)
         (Service.set_activeBoots (logFetches req ch fs) (connect cd s)) w2).

(** The errors an error stands for in an aggregate: those it holds if it is
    an aggregate itself, and itself if not. *)
Definition held (e : error) : list error :=
  match e with
  | ErrorList es => es
  | _ => [e]
  end.

(** ** What a status report does *)

(** What the specification says a report does to the boot log of a card: the
    status joins the history, becomes the last status, and the end timestamp
    is set when, and only when, the status is the terminal one. *)
Definition applyState (stat : bpb.ControlCardState.t) (endTime : Z) (b : bootLog.t)
    : bootLog.t :=
  bootLog.mk (bootLog.BootMode b) (bootLog.StartTimeStamp b)
    (if decide (bpb.ControlCardState.Status stat
                = bpb.ControlCardState_CONTROL_CARD_STATUS_INITIALIZED)
     then endTime else bootLog.EndTimeStamp b)
    (bootLog.Status b ++ [bpb.ControlCardState.Status stat])
    (bpb.ControlCardState.Status stat)
    (bootLog.BootResponse b) (bootLog.BootRequest b) (bootLog.Err b).

(** The same for a list of states, in their order; the clock is read once
    for every terminal status. *)
Fixpoint applyStates {W} (E : Env W) (states : list bpb.ControlCardState.t)
    (boots : gmap string bootLog.t) (w : W) : gmap string bootLog.t * W :=
  match states with
  | [] => (boots, w)
  | stat :: states =>
      let '(now, w') :=
        if decide (bpb.ControlCardState.Status stat
                   = bpb.ControlCardState_CONTROL_CARD_STATUS_INITIALIZED)
        then UnixMilli E w else (0%Z, w) in
      applyStates E states
        (alter (applyState stat (uint64 now)) (bpb.ControlCardState.SerialNumber stat) boots)
        w'
  end.

(** The reported card has a boot log. *)
Definition logged (boots : gmap string bootLog.t) (stat : bpb.ControlCardState.t)
    : Prop :=
  is_Some (boots !! bpb.ControlCardState.SerialNumber stat).

#[global] Instance logged_dec boots stat : Decision (logged boots stat).
Proof. unfold logged. apply _. Defined.

(** The statuses a list of states carries for the card of serial [k], in
    order. *)
Definition reported (k : string) (states : list bpb.ControlCardState.t)
    : list bpb.ControlCardState_ControlCardStatus :=
  map bpb.ControlCardState.Status
      (filter (λ stat, bpb.ControlCardState.SerialNumber stat = k) states).

(** Two boot logs that differ at most in what a status report writes. *)
Definition same_boot (b b' : bootLog.t) : Prop :=
  bootLog.BootMode b' = bootLog.BootMode b
  ∧ bootLog.StartTimeStamp b' = bootLog.StartTimeStamp b
  ∧ bootLog.BootResponse b' = bootLog.BootResponse b
  ∧ bootLog.BootRequest b' = bootLog.BootRequest b
  ∧ bootLog.Err b' = bootLog.Err b.

(** ** Ledgers and runs of the lab *)

(** The run behind the witness: chassis Cisco 123 with cards 123A and 123B,
    asked without a nonce at time 1000. *)
Definition connected_run :=
  Service.GetBootstrapData
    (Lab.env bpb.BootMode_BOOT_MODE_INSECURE ["123A"; "123B"] true)
    (Some (Lab.request ["123A"; "123B"] "")) Service.New 1000%Z.

(** The ledger of the witness: chassis Cisco 123 was asked for cards 123A
    and 123C, of which the inventory has the first only; both have a boot log. *)
Definition ledger_123A_123C : Service.t :=
  ledger (Service.GetBootstrapData
            (Lab.env bpb.BootMode_BOOT_MODE_INSECURE ["123A"] true)
            (Some (Lab.request ["123A"; "123C"] "")) Service.New 1000%Z).

(** Two control cards of one serial, of which the inventory by part number
    has the second only. *)
Definition twins : ptr bpb.GetBootstrapDataRequest.t :=
  Lab.requestFor [Some (bpb.ControlCard.mk "123A" "P1");
                  Some (bpb.ControlCard.mk "123A" "P2")] "".

(** ** The server program (package main): addresses and artifacts *)

(** Package strings, for the calls made here.  A Go string is a sequence of
    bytes, as a [string] is a sequence of [ascii]; [s[i:j]] is [substring]. *)
Module Strings.

(** [strings.Split(s, sep)] for a separator [sep] of one byte: the pieces of
    [s] between the occurrences of [sep]. *)
Fixpoint Split (s : string) (sep : Ascii.ascii) : list string :=
  match s with
  | EmptyString => [EmptyString]
  | String c s' =>
      if Ascii.eqb c sep then EmptyString :: Split s' sep
      else match Split s' sep with
           | piece :: pieces => String c piece :: pieces
           | [] => [String c EmptyString]
           end
  end.

(** [len(s) >= len(prefix) && s[0:len(prefix)] == prefix] *)
Definition HasPrefix (s prefix : string) : bool :=
  (String.length prefix <=? String.length s)%nat
  && String.eqb (String.substring 0 (String.length prefix) s) prefix.

(** [len(s) >= len(suffix) && s[len(s)-len(suffix):] == suffix] *)
Definition HasSuffix (s suffix : string) : bool :=
  (String.length suffix <=? String.length s)%nat
  && String.eqb (String.substring (String.length s - String.length suffix)
                           (String.length suffix) s) suffix.

(** [strings.TrimPrefix]: [s[len(prefix):]] when [s] has the prefix. *)
Definition TrimPrefix (s prefix : string) : string :=
  if HasPrefix s prefix
  then String.substring (String.length prefix) (String.length s - String.length prefix) s
  else s.

(** [strings.TrimSuffix]: [s[:len(s)-len(suffix)]] when [s] has the suffix. *)
Definition TrimSuffix (s suffix : string) : string :=
  if HasSuffix s suffix
  then String.substring 0 (String.length s - String.length suffix) s
  else s.

End Strings.

(** The byte [':']. *)
Definition colon : Ascii.ascii := ":"%char.

(** The bytes of a string. *)
Fixpoint bytes (s : string) : list Ascii.ascii :=
  match s with
  | EmptyString => []
  | String c s' => c :: bytes s'
  end.

(** [service.KeyPair] and [service.SecurityArtifacts] (service.go, lines 33
    to 57), over the type of [tls.Certificate]. *)
Module KeyPair.
Record t := mk { Cert : string; Key : string }.
End KeyPair.

Module SecurityArtifacts.
Record t (Certificate : Type) := mk {
  OC : option KeyPair.t;
  PDC : option KeyPair.t;
  VendorCA : option KeyPair.t;
  OV : gmap string string;
  TLSKeypair : option Certificate
}.
Arguments mk {Certificate} _ _ _ _ _.
Arguments OC {Certificate} _.
Arguments PDC {Certificate} _.
Arguments VendorCA {Certificate} _.
Arguments OV {Certificate} _.
Arguments TLSKeypair {Certificate} _.
End SecurityArtifacts.

(** What the program reads its artifacts from: the directory listing behind
    [os.ReadDir], which gives the names of the entries sorted by name, the
    files behind [os.ReadFile], [filepath.Join], the text of an error
    ([err.Error()], what the verb v prints) and [tls.X509KeyPair]. *)
Record Disk (Certificate : Type) := mkDisk {
  ReadDir : string → list string + error;
  ReadFile : string → string + error;
  Join : string → string → string;
  ErrorString : error → string;
  X509KeyPair : string → string → Certificate + error
}.
Arguments ReadDir {Certificate} _ _.
Arguments ReadFile {Certificate} _ _.
Arguments Join {Certificate} _ _ _.
Arguments ErrorString {Certificate} _ _.
Arguments X509KeyPair {Certificate} _ _ _.

Module Main.

(** [convertAddress] (lines 69 to 77): the address to listen on, localhost
    when no ip is given. *)
Definition convertAddress (addr : string) : string :=
  let items := Strings.Split addr colon in
  let listenAddr := addr in
  if decide (length items = 1) then String.append "localhost:" addr
  else listenAddr.

Section Artifacts.
Context {Certificate : Type}.
Variable D : Disk Certificate.
(** The flag [artifact_dir]. *)
Variable artifactDirectory : string.

(** [readKeypair] (lines 80 to 93) *)
Definition readKeypair (name : string) : option KeyPair.t * option error :=
  match ReadFile D (Join D artifactDirectory (String.append name "_pub.pem")) with
  | inr err =>
      (None, Some (FmtError (String.append "unable to read "
                    (String.append name (String.append " cert: " (ErrorString D err))))))
  | inl cert =>
      match ReadFile D (Join D artifactDirectory (String.append name "_priv.pem")) with
      | inr err =>
          (None, Some (FmtError (String.append "unable to read "
                        (String.append name (String.append " key: " (ErrorString D err))))))
      | inl key => (Some (KeyPair.mk cert key), None)
      end
  end.

(** The key under which the voucher of a file goes (lines 107 and 108). *)
Definition ovKey (name : string) : string :=
  Strings.TrimSuffix (Strings.TrimPrefix name "ov_") ".txt".

(** The loop of [readOVs] over the entries of the directory (lines 102 to
    111): it ends at the first file that cannot be read. *)
Fixpoint readOVFiles (files : list string) (ovs : gmap string string)
    : gmap string string + error :=
  match files with
  | [] => inl ovs
  | f :: files =>
      if Strings.HasPrefix f "ov" then
        match ReadFile D (Join D artifactDirectory f) with
        | inr err => inr err
        | inl content => readOVFiles files (<[ovKey f := content]> ovs)
        end
      else readOVFiles files ovs
  end.

(** [readOVs] (lines 96 to 117) *)
Definition readOVs : option (gmap string string) * option error :=
  match ReadDir D artifactDirectory with
  | inr err =>
      (None, Some (FmtError (String.append "unable to list files in artifact directory: "
                                           (ErrorString D err))))
  | inl files =>
      match readOVFiles files ∅ with
      | inr err => (None, Some err)
      | inl ovs =>
          if decide (size ovs = 0)
          then (None, Some (FmtError "found no OVs in artifacts directory"))
          else (Some ovs, None)
      end
  end.

(** [generateServerTLSCert] (lines 120 to 126); it reads through [pdc]. *)
Definition generateServerTLSCert (pdc : option KeyPair.t)
    : outcome (option Certificate * option error) :=
  match pdc with
  | None => Panic
  | Some pdc =>
      match X509KeyPair D (KeyPair.Cert pdc) (KeyPair.Key pdc) with
      | inr err =>
          Return (None, Some (FmtError
            (String.append "unable to generate Server TLS Certificate from PDC "
                           (ErrorString D err))))
      | inl tlsCert => Return (Some tlsCert, None)
      end
  end.

(** [parseSecurityArtifacts] (lines 129 to 157) *)
Definition parseSecurityArtifacts
    : outcome (option (SecurityArtifacts.t Certificate) * option error) :=
  match readKeypair "oc" with
  | (_, Some err) => Return (None, Some err)
  | (oc, None) =>
      match readKeypair "pdc" with
      | (_, Some err) => Return (None, Some err)
      | (pdc, None) =>
          match readKeypair "vendorca" with
          | (_, Some err) => Return (None, Some err)
          | (vendorCA, None) =>
              match readOVs with
              | (_, Some err) => Return (None, Some err)
              | (ovs, None) =>
                  match generateServerTLSCert pdc with
                  | Panic => Panic
                  | Return (_, Some err) => Return (None, Some err)
                  | Return (tlsCert, None) =>
                      Return (Some (SecurityArtifacts.mk oc pdc vendorCA
                                      (default ∅ ovs) tlsCert), None)
                  end
              end
          end
      end
  end.

End Artifacts.

(** [ServerConfig] and [server] (lines 51 to 65).  [G] is the type of a grpc
    server and [L] that of a listener; the lock is held by [Start] and by
    [Stop] from their first statement to their return. *)
Module ServerConfig.
Record t := mk {
  DhcpIntf : string;
  ArtifactDirectory : string;
  InventoryConfig : string
}.
Definition zero : t := mk "" "" "".
End ServerConfig.

Module server.
Record t (G L : Type) := mk {
  serv : option G;
  lis : option L;
  status : string;
  config : ServerConfig.t
}.
Arguments mk {G L} _ _ _ _.
Arguments serv {G L} _.
Arguments lis {G L} _.
Arguments status {G L} _.
Arguments config {G L} _.
Definition set_status {G L} (x : string) (s : t G L) : t G L :=
  mk (serv s) (lis s) x (config s).
(** [server{}] *)
Definition zero {G L} : t G L := mk None None "" ServerConfig.zero.
End server.

(** What the server runs on: the disk and the flag [artifact_dir];
    [entitymanager.New], of which the error is looked at;
    [AppendCertsFromPEM]; [grpc.NewServer] with the credentials of the
    certificate, the service registered; [net.Listen] on tcp;
    [GracefulStop]; and the text of the address of a listener. *)
Record Host (W G L Certificate : Type) := mkHost {
  disk : Disk Certificate;
  artifactDirectory : string;
  newEntityManager : string → W → option error * W;
  AppendCertsFromPEM : string → bool;
  NewServer : Certificate → W → G * W;
  Listen : string → W → (L + error) * W;
  GracefulStop : G → W → W;
  Addr : L → string
}.
Arguments disk {W G L Certificate} _.
Arguments artifactDirectory {W G L Certificate} _.
Arguments newEntityManager {W G L Certificate} _ _ _.
Arguments AppendCertsFromPEM {W G L Certificate} _ _.
Arguments NewServer {W G L Certificate} _ _ _.
Arguments Listen {W G L Certificate} _ _ _.
Arguments GracefulStop {W G L Certificate} _ _ _.
Arguments Addr {W G L Certificate} _ _.

(** How a method of the server ends: it returns, it panics, or the process
    exits in it ([log.Exitf]). *)
Inductive ending (A : Type) :=
| Returned (a : A)
| Panicked
| Exited.
Arguments Returned {A} _.
Arguments Panicked {A}.
Arguments Exited {A}.

Section Server.
Context {W G L Certificate : Type}.
Variable H : Host W G L Certificate.

Definition errNoArtifactDirectory : error :=
  FmtError "no artifact directory selected. specify with the --artifact_dir flag".

(** [Start] (lines 159 to 212) *)
Definition Start (bootzAddress : string) (config : ServerConfig.t)
    (s : server.t G L) (w : W)
    : ending (string * option error) * server.t G L * W :=
  let s := server.set_status "Failure" s in
  if decide (ServerConfig.ArtifactDirectory config = "") then
    (Returned (server.status s, Some errNoArtifactDirectory), s, w)
  else if decide (bootzAddress = "") then (Exited, s, w)
  else
    match parseSecurityArtifacts (disk H) (artifactDirectory H) with
    | Panic => (Panicked, s, w)
    | Return (_, Some err) => (Returned (server.status s, Some err), s, w)
    | Return (sa, None) =>
        match newEntityManager H (ServerConfig.InventoryConfig config) w with
        | (Some err, w) =>
            (Returned (server.status s,
                       Some (FmtError (String.append "unable to initiate inventory manager "
                                                     (ErrorString (disk H) err)))), s, w)
        | (None, w) =>
            match sa with
            | None => (Panicked, s, w)
            | Some sa =>
                match SecurityArtifacts.PDC sa with
                | None => (Panicked, s, w)
                | Some pdc =>
                    if negb (AppendCertsFromPEM H (KeyPair.Cert pdc)) then
                      (Returned (server.status s,
                                 Some (FmtError "unable to add PDC cert to trust pool")), s, w)
                    else
                      match SecurityArtifacts.TLSKeypair sa with
                      | None => (Panicked, s, w)
                      | Some cert =>
                          let '(newServer, w) := NewServer H cert w in
                          match Listen H (convertAddress bootzAddress) w with
                          | (inr err, w) =>
                              (Returned (server.status s,
                                         Some (FmtError (String.append "error listening on port: "
                                                 (ErrorString (disk H) err)))), s, w)
                          | (inl lis, w) =>
                              let s := server.mk (Some newServer) (Some lis) "Running"
                                                 (server.config s) in
                              (Returned (server.status s, None), s, w)
                          end
                      end
                end
            end
        end
    end.

(** [Stop] (lines 214 to 220); it calls [GracefulStop] through [s.serv]. *)
Definition Stop (s : server.t G L) (w : W)
    : ending (string * option error) * server.t G L * W :=
  match server.serv s with
  | None => (Panicked, s, w)
  | Some g =>
      let w := GracefulStop H g w in
      let s := server.set_status "Exited" s in
      (Returned (server.status s, None), s, w)
  end.

(** [Reload] (lines 222 to 227); it reads the address through [s.lis], and
    what [Stop] returns it does not look at. *)
Definition Reload (s : server.t G L) (w : W)
    : ending (string * option error) * server.t G L * W :=
  match server.lis s with
  | None => (Panicked, s, w)
  | Some l =>
      let addr := Addr H l in
      match Stop s w with
      | (Returned _, s, w) =>
          match Start addr (server.config s) s w with
          | (Returned (_, err), s, w) => (Returned (server.status s, err), s, w)
          | (Panicked, s, w) => (Panicked, s, w)
          | (Exited, s, w) => (Exited, s, w)
          end
      | (Panicked, s, w) => (Panicked, s, w)
      | (Exited, s, w) => (Exited, s, w)
      end
  end.

(** [Status] (lines 229 to 231) *)
Definition Status (s : server.t G L) : string * option error :=
  (server.status s, None).

End Server.

(** How a run of a method ended, and the server it left. *)
Definition ended {A S W} (r : ending A * S * W) : ending A := fst (fst r).
Definition serverAfter {A S W} (r : ending A * S * W) : S := snd (fst r).

End Main.

(** ** A directory of artifacts to run the program on

    The files of the test data: the three key pairs and the vouchers of the
    cards 123A and 123B, beside the inventory.  A certificate is the text of
    its certificate followed by that of its key. *)
Module LabDisk.

Definition files : list (string * string) :=
  [("inventory.prototxt", "chassis");
   ("oc_priv.pem", "OC KEY"); ("oc_pub.pem", "OC CERT");
   ("ov_123A.txt", "VOUCHER A"); ("ov_123B.txt", "VOUCHER B");
   ("pdc_priv.pem", "PDC KEY"); ("pdc_pub.pem", "PDC CERT");
   ("vendorca_priv.pem", "VENDOR KEY"); ("vendorca_pub.pem", "VENDOR CERT")].

Definition noSuchFile : error := FmtError "no such file or directory".

Definition disk : Disk string :=
  mkDisk string
    (λ dir, if decide (dir = "../testdata/") then inl (map fst files)
            else inr noSuchFile)
    (λ path, match list_find (λ f, String.append "../testdata/" (fst f) = path) files with
             | Some (_, f) => inl (snd f)
             | None => inr noSuchFile
             end)
    (λ dir name, String.append dir name)
    (λ err, match err with FmtError msg => msg | _ => "" end)
    (λ cert key, inl (String.append cert key)).

(** A host on that disk.  The world is the list of what was done to it; the
    inventory loads, the certificate of the PDC parses, and every address can
    be listened on.  A listener is its address. *)
Definition host : Main.Host (list string) string string string :=
  Main.mkHost (list string) string string string
    disk "../testdata/"
    (λ inv w, (None, w ++ [String.append "inventory " inv]))
    (λ _, true)
    (λ cert w, (cert, w))
    (λ addr w, (inl addr, w ++ [String.append "listen " addr]))
    (λ g w, w ++ ["stop"])
    (λ l, l).

(** The configuration that [main] starts the server with (lines 296 to
    300). *)
Definition mainConfig : Main.ServerConfig.t :=
  Main.ServerConfig.mk "" "../testdata/" "../testdata/inventory_local.prototxt".

End LabDisk.

(** ** Running a method body *)

Ltac unfold_M :=
  unfold mbind, mret, Service.M_bind, Service.M_ret, Service.deref,
    Service.modify, Service.call, Service.index.

(** Into the body of [GetBootstrapData] for a request with a descriptor
    [Hcd] that lists at least one card [Hcards]. *)
Ltac enter Hcd Hcards :=
  unfold Service.GetBootstrapData; unfold_M; cbv beta iota; rewrite Hcd;
  unfold bpb.ChassisDescriptor.GetControlCards, bpb.ControlCard.GetSerialNumber;
  rewrite Hcards; cbn [length];
  destruct (decide (S _ = 0)) as [?|_]; [discriminate|];
  destruct (decide (1 ≤ S _)%nat) as [_|?]; [|lia]; cbn -[Service.cardLoop].

(** * Lemmas and theorems *)

(** The scenario of the inventory test: an insecure chassis with cards 123A
    and 123B, asked without a nonce, answers with one response per card and
    an empty signature. *)
Example two_cards_no_nonce :
  result (Service.GetBootstrapData
            (Lab.env bpb.BootMode_BOOT_MODE_INSECURE ["123A"; "123B"] true)
            (Some (Lab.request ["123A"; "123B"] "")) Service.New 1000%Z)
  = Return (Some (bpb.GetBootstrapDataResponse.mk
                    (Some (bpb.BootstrapDataSigned.mk
                             [Some (Lab.bootdata "123A"); Some (Lab.bootdata "123B")] ""))
                    [] [] ""), None).
Proof. vm_compute. reflexivity. Qed.

(** ** The loop over the control cards *)

Section Loop.
Context {W : Type} (E : Env W).
Implicit Types (req : ptr bpb.GetBootstrapDataRequest.t) (s : Service.t) (w : W).

(** The loop in terms of its fetches: it panics when a fetch is stuck, and
    otherwise returns the errors and the data of the fetches; either way the
    boot logs of the fetches are stored. *)
Lemma cardLoop_fetchEach req lookup ch cards errs responses s w :
  Service.cardLoop E req lookup ch cards errs responses s w
  = (if existsb Fetch.stuck (fst (fetchEach E lookup cards w)) then Panic
     else Return (collectErrors errs (fst (fetchEach E lookup cards w)),
                  responses ++ map Fetch.data (fst (fetchEach E lookup cards w))),
     Service.set_activeBoots (logFetches req ch (fst (fetchEach E lookup cards w))) s,
     snd (fetchEach E lookup cards w)).
Proof.
  revert errs responses s w.
  induction cards as [|v cards IH]; intros errs responses s w.
  - cbn. rewrite app_nil_r. by destruct s.
  - cbn [Service.cardLoop fetchEach]. unfold_M. cbn.
    destruct (UnixMilli E w) as [now w1].
    destruct (EntityManager.GetBootstrapData _ _ _ _) as [[bootdata err] w2].
    destruct err as [e|], v as [v|]; unfold Service.storeBoot, Fetch.stuck; cbn;
      rewrite ?lookup_insert_eq; cbn; rewrite ?lookup_insert_eq; cbn.
    4:{ rewrite IH. destruct (fetchEach E lookup cards w2) as [fs w3]. cbn.
        rewrite <- app_assoc. cbn.
        unfold Service.set_activeBoots, logFetches, bootOf, Fetch.serial, Fetch.stuck; cbn.
        by rewrite !insert_insert_eq. }
    3:{ rewrite IH. destruct (fetchEach E lookup cards w2) as [fs w3]. cbn.
        rewrite <- app_assoc. cbn.
        unfold Service.set_activeBoots, logFetches, bootOf, Fetch.serial, Fetch.stuck; cbn.
        by rewrite !insert_insert_eq. }
    2:{ unfold Service.set_activeBoots, logFetches, bootOf, Fetch.serial, Fetch.stuck; cbn.
        by rewrite !insert_insert_eq. }
    rewrite IH. destruct (fetchEach E lookup cards w2) as [fs w3]. cbn.
    rewrite <- app_assoc. cbn.
    unfold Service.set_activeBoots, logFetches, bootOf, Fetch.serial, Fetch.stuck; cbn.
    by rewrite !insert_insert_eq.
Qed.

(** A traced loop is the loop with its fetches logged. *)
Lemma cardLoop_traced req lookup ch cards errs responses s w tr :
  Service.cardLoop (traced E) req lookup ch cards errs responses s (w, tr)
  = let '(o, s', w') := Service.cardLoop E req lookup ch cards errs responses s w in
    (o, s', (w', tr ++ fetches lookup (map Fetch.card (fst (fetchEach E lookup cards w))))).
Proof.
  revert errs responses s w tr.
  induction cards as [|v cards IH]; intros errs responses s w tr.
  - cbn. by rewrite app_nil_r.
  - cbn [Service.cardLoop fetchEach]. unfold_M. cbn.
    destruct (UnixMilli E w) as [now w1].
    destruct (EntityManager.GetBootstrapData _ _ _ _) as [[bootdata err] w2].
    destruct err as [e|], v as [v|]; unfold Service.storeBoot, Fetch.stuck; cbn;
      rewrite ?lookup_insert_eq; cbn; rewrite ?lookup_insert_eq; cbn.
    2:{ reflexivity. }
    all: rewrite IH.
    all: destruct (Service.cardLoop E _ _ _ _ _ _ _ _) as [[o s'] w'].
    all: destruct (fetchEach E lookup cards w2) as [fs w3]; cbn.
    all: by rewrite <- app_assoc.
Qed.

(** The cards of the fetches are the first cards of the list: all of them
    unless the last fetch is stuck. *)
Lemma fetchEach_cards lookup cards w :
  map Fetch.card (fst (fetchEach E lookup cards w)) `prefix_of` cards
  ∧ (existsb Fetch.stuck (fst (fetchEach E lookup cards w)) = false →
     map Fetch.card (fst (fetchEach E lookup cards w)) = cards).
Proof.
  revert w. induction cards as [|v cards IH]; intros w; [done|].
  cbn [fetchEach]. destruct (UnixMilli E w) as [now w1].
  destruct (EntityManager.GetBootstrapData _ _ _ _) as [[bootdata err] w2].
  destruct (Fetch.stuck _) eqn:Hstuck.
  - cbn. rewrite Hstuck. cbn. split; [|done]. by apply prefix_cons, prefix_nil.
  - destruct (IH w2) as [Hpre Hall]. destruct (fetchEach E lookup cards w2) as [fs w3].
    cbn in *. rewrite Hstuck. cbn. split.
    + by apply prefix_cons.
    + intros Hno. by rewrite Hall.
Qed.

(** Only the last fetch can be stuck. *)
Lemma fetchEach_stuck_last lookup cards w pre f post :
  fst (fetchEach E lookup cards w) = pre ++ f :: post →
  Fetch.stuck f = true → post = [].
Proof.
  revert w pre. induction cards as [|v cards IH]; intros w pre.
  { cbn. by destruct pre. }
  cbn [fetchEach]. destruct (UnixMilli E w) as [now w1].
  destruct (EntityManager.GetBootstrapData _ _ _ _) as [[bootdata err] w2].
  destruct (Fetch.stuck (Fetch.mk v now bootdata err)) eqn:Hstuck.
  - cbn. destruct pre as [|g pre]; cbn.
    + by intros [= <- <-].
    + intros [= <- Hnil]. by destruct pre.
  - specialize (IH w2). destruct (fetchEach E lookup cards w2) as [fs w3]. cbn in *.
    destruct pre as [|g pre]; cbn.
    + intros [= <- <-] Hf. congruence.
    + intros [= <- Hfs]. exact (IH pre Hfs).
Qed.

(** A fetch is stuck exactly when it is for no card and failed. *)
Lemma stuck_iff (f : Fetch.t) :
  Fetch.stuck f = true ↔ Fetch.card f = None ∧ is_Some (Fetch.failure f).
Proof.
  unfold Fetch.stuck. destruct (Fetch.card f), (Fetch.failure f); split;
    try done; intros [? [? ?]]; done.
Qed.

End Loop.

(** ** GetBootstrapData, stage by stage *)

Section Stages.
Context {W : Type} (E : Env W).
Implicit Types (req : ptr bpb.GetBootstrapDataRequest.t) (s : Service.t) (w : W).
Implicit Types (cd : bpb.ChassisDescriptor.t).

Lemma GetBootstrapData_nil_request s w :
  Service.GetBootstrapData E None s w = (Panic, s, w).
Proof. reflexivity. Qed.

Lemma GetBootstrapData_nil_descriptor req s w :
  bpb.GetBootstrapDataRequest.ChassisDescriptor (pointee req) = None →
  Service.GetBootstrapData E (Some req) s w = (Panic, s, w).
Proof.
  intros H. unfold Service.GetBootstrapData. unfold_M. cbv beta iota.
  rewrite H. reflexivity.
Qed.

Lemma GetBootstrapData_no_cards req cd s w :
  bpb.GetBootstrapDataRequest.ChassisDescriptor (pointee req) = Some cd →
  bpb.ChassisDescriptor.ControlCards cd = [] →
  Service.GetBootstrapData E (Some req) s w
  = (Return (None, Some errNoControlCard),
     Service.set_failedRequest (<[addr req := errNoControlCard]>) s, w).
Proof.
  intros Hcd Hcards. unfold Service.GetBootstrapData. unfold_M. cbv beta iota.
  rewrite Hcd, Hcards. reflexivity.
Qed.

Lemma GetBootstrapData_unresolved req cd ch err s w w1 :
  bpb.GetBootstrapDataRequest.ChassisDescriptor (pointee req) = Some cd →
  bpb.ChassisDescriptor.ControlCards cd ≠ [] →
  EntityManager.ResolveChassis (em E) (lookup_of cd) (ccSerial_of cd) w
  = ((ch, Some err), w1) →
  Service.GetBootstrapData E (Some req) s w
  = (Return (None, Some (errUnresolved E cd err)),
     Service.set_failedRequest (<[addr req := errUnresolved E cd err]>) s, w1).
Proof.
  intros Hcd Hcards Hres. unfold ccSerial_of, lookup_of in Hres.
  destruct (bpb.ChassisDescriptor.ControlCards cd) as [|c cs] eqn:Hcs; [done|].
  enter Hcd Hcs. rewrite Hres. reflexivity.
Qed.

Lemma GetBootstrapData_nil_chassis req cd s w w1 :
  bpb.GetBootstrapDataRequest.ChassisDescriptor (pointee req) = Some cd →
  bpb.ChassisDescriptor.ControlCards cd ≠ [] →
  EntityManager.ResolveChassis (em E) (lookup_of cd) (ccSerial_of cd) w
  = ((None, None), w1) →
  Service.GetBootstrapData E (Some req) s w = (Panic, connect cd s, w1).
Proof.
  intros Hcd Hcards Hres. unfold ccSerial_of, lookup_of in Hres.
  destruct (bpb.ChassisDescriptor.ControlCards cd) as [|c cs] eqn:Hcs; [done|].
  enter Hcd Hcs. rewrite Hres. reflexivity.
Qed.

Lemma GetBootstrapData_secure_no_nonce req cd ch s w w1 :
  bpb.GetBootstrapDataRequest.ChassisDescriptor (pointee req) = Some cd →
  bpb.ChassisDescriptor.ControlCards cd ≠ [] →
  EntityManager.ResolveChassis (em E) (lookup_of cd) (ccSerial_of cd) w
  = ((Some ch, None), w1) →
  ChassisEntity.BootMode ch = bpb.BootMode_BOOT_MODE_SECURE →
  bpb.GetBootstrapDataRequest.Nonce (pointee req) = "" →
  Service.GetBootstrapData E (Some req) s w
  = (Return (None, Some errSecureOnly), connect cd s, w1).
Proof.
  intros Hcd Hcards Hres Hmode Hnonce. unfold ccSerial_of, lookup_of in Hres.
  destruct (bpb.ChassisDescriptor.ControlCards cd) as [|c cs] eqn:Hcs; [done|].
  enter Hcd Hcs. rewrite Hres.
  destruct (decide _) as [_|Hn]; [reflexivity|].
  exfalso. apply Hn. split; assumption.
Qed.

(** The run of a request whose chassis resolves and passes the boot-mode
    check, in terms of the fetches of the loop. *)
Lemma GetBootstrapData_fetches req cd ch s w w1 fs w2 :
  bpb.GetBootstrapDataRequest.ChassisDescriptor (pointee req) = Some cd →
  bpb.ChassisDescriptor.ControlCards cd ≠ [] →
  EntityManager.ResolveChassis (em E) (lookup_of cd) (ccSerial_of cd) w
  = ((Some ch, None), w1) →
  ¬ (ChassisEntity.BootMode ch = bpb.BootMode_BOOT_MODE_SECURE
     ∧ bpb.GetBootstrapDataRequest.Nonce (pointee req) = "") →
  fetchEach E (lookup_of cd) (bpb.ChassisDescriptor.ControlCards cd) w1 = (fs, w2) →
  Service.GetBootstrapData E (Some req) s w
  = if existsb Fetch.stuck fs
    then (Panic, Service.set_activeBoots (logFetches req ch fs) (connect cd s), w2)
    else respond E req cd (collectErrors errlist.zero fs) (map Fetch.data fs)
           (Service.set_activeBoots (logFetches req ch fs) (connect cd s)) w2.
Proof.
  intros Hcd Hcards Hres Hpolicy Hfs. unfold ccSerial_of, lookup_of in Hres.
  destruct (bpb.ChassisDescriptor.ControlCards cd) as [|c cs] eqn:Hcs; [done|].
  enter Hcd Hcs. rewrite Hres.
  destruct (decide _) as [Hg|_]; [contradiction|].
  rewrite cardLoop_fetchEach. unfold lookup_of in Hfs. rewrite Hfs. cbn [fst snd].
  destruct (existsb Fetch.stuck fs); [reflexivity|].
  unfold respond, envelope, errSign, lookup_of, connect. cbn.
  destruct (errlist.Err _); [reflexivity|].
  destruct (decide (_ ≠ _)) as [Hn|Hn], (decide (_ = _)) as [Hz|Hz];
    try contradiction; [|reflexivity].
  destruct (EntityManager.Sign _ _ _ _ _) as [[resp [e|]] w3]; reflexivity.
Qed.

Lemma GetBootstrapData_path req s w :
  path E req s w (Service.GetBootstrapData E (Some req) s w).
Proof.
  destruct (bpb.GetBootstrapDataRequest.ChassisDescriptor (pointee req))
    as [cd|] eqn:Hcd.
  2:{ rewrite GetBootstrapData_nil_descriptor by done. by constructor. }
  destruct (decide (bpb.ChassisDescriptor.ControlCards cd = [])) as [Hcards|Hcards].
  { rewrite (GetBootstrapData_no_cards req cd) by done. by econstructor. }
  destruct (EntityManager.ResolveChassis (em E) (lookup_of cd) (ccSerial_of cd) w)
    as [[ch err] w1] eqn:Hres.
  destruct err as [err|].
  { erewrite GetBootstrapData_unresolved by done. by econstructor. }
  destruct ch as [ch|].
  2:{ erewrite GetBootstrapData_nil_chassis by done. by econstructor. }
  destruct (decide (ChassisEntity.BootMode ch = bpb.BootMode_BOOT_MODE_SECURE
                    ∧ bpb.GetBootstrapDataRequest.Nonce (pointee req) = ""))
    as [[Hmode Hnonce]|Hpolicy].
  { erewrite GetBootstrapData_secure_no_nonce by done. by econstructor. }
  destruct (fetchEach E (lookup_of cd) (bpb.ChassisDescriptor.ControlCards cd) w1)
    as [fs w2] eqn:Hfs.
  erewrite GetBootstrapData_fetches by done.
  destruct (existsb Fetch.stuck fs) eqn:Hstuck.
  - by eapply path_stuck.
  - by eapply path_cards.
Qed.

End Stages.

(** ** ReportStatus *)

Lemma alter_present {A} (f : A → A) (k : string) (m : gmap string A) (a : A) :
  m !! k = Some a → alter f k m = <[k := f a]> m.
Proof.
  intros Hk. apply map_eq. intros j. destruct (decide (k = j)) as [->|Hne].
  - by rewrite lookup_alter_eq, lookup_insert_eq, Hk.
  - by rewrite lookup_alter_ne, lookup_insert_ne.
Qed.

Lemma logged_alter boots f k stat :
  logged (alter f k boots) stat ↔ logged boots stat.
Proof. unfold logged. apply lookup_alter_is_Some. Qed.

Section Report.
Context {W : Type} (E : Env W).
Implicit Types (s : Service.t) (w : W) (stat : bpb.ControlCardState.t).

(** One turn of the loop on a state whose card has a boot log. *)
Lemma reportLoop_logged stat states s w :
  logged (Service.activeBoots s) stat →
  Service.reportLoop E (Some stat :: states) s w
  = let '(boots, w') := applyStates E [stat] (Service.activeBoots s) w in
    Service.reportLoop E states (Service.set_activeBoots (λ _, boots) s) w'.
Proof.
  intros [b Hb]. cbn [Service.reportLoop applyStates].
  unfold_M. unfold Service.storeBoot. cbn. rewrite Hb. cbn.
  rewrite lookup_insert_eq. cbn.
  destruct (decide _) as [Hi|Hi]; cbn.
  - destruct (UnixMilli E w) as [now w']. cbn. rewrite lookup_insert_eq.
    rewrite (alter_present _ _ _ b Hb).
    unfold Service.set_activeBoots. cbn. rewrite !insert_insert_eq.
    unfold applyState. destruct (decide _); [reflexivity|contradiction].
  - rewrite (alter_present _ _ _ b Hb).
    unfold Service.set_activeBoots. cbn. rewrite !insert_insert_eq.
    unfold applyState. destruct (decide _); [contradiction|reflexivity].
Qed.

(** One turn of the loop on a state, nil or not, under whose serial there is
    no boot log: the first assignment goes through a nil pointer. *)
Lemma reportLoop_not_logged (stat : option bpb.ControlCardState.t) states s w :
  Service.activeBoots s !! names stat = None →
  Service.reportLoop E (stat :: states) s w = (Panic, s, w).
Proof.
  intros Hb. cbn [Service.reportLoop]. unfold_M. unfold Service.storeBoot.
  change (bpb.ControlCardState.GetSerialNumber stat) with (names stat).
  by rewrite Hb.
Qed.

(** One turn of the loop on a nil state when the empty serial has a boot
    log: the first assignment writes the unspecified status into it, and the
    second reads the serial through the nil state. *)
Lemma reportLoop_nil states s w :
  is_Some (Service.activeBoots s !! "") →
  Service.reportLoop E (None :: states) s w
  = (Panic,
     Service.set_activeBoots
       (alter (bootLog.set_LastStatus
                 bpb.ControlCardState_CONTROL_CARD_STATUS_UNSPECIFIED) "") s,
     w).
Proof.
  intros [b Hb]. unfold Service.set_activeBoots.
  rewrite (alter_present _ _ _ b Hb).
  cbn [Service.reportLoop]. unfold_M. unfold Service.storeBoot.
  cbn. by rewrite Hb.
Qed.

Lemma applyStates_logged states boots w stat :
  logged (fst (applyStates E states boots w)) stat ↔ logged boots stat.
Proof.
  revert boots w. induction states as [|st states IH]; intros boots w; [done|].
  cbn [applyStates]. destruct (decide _); [destruct (UnixMilli E w)|];
    rewrite IH; apply logged_alter.
Qed.

Lemma applyStates_app pre post boots w :
  applyStates E (pre ++ post) boots w
  = let '(boots', w') := applyStates E pre boots w in applyStates E post boots' w'.
Proof.
  revert boots w. induction pre as [|st pre IH]; intros boots w; [done|].
  cbn [applyStates app]. destruct (decide _); [destruct (UnixMilli E w)|]; apply IH.
Qed.

Lemma applyStates_is_Some states boots w k :
  is_Some (fst (applyStates E states boots w) !! k) ↔ is_Some (boots !! k).
Proof.
  revert boots w. induction states as [|st states IH]; intros boots w; [done|].
  cbn [applyStates]. destruct (decide _); [destruct (UnixMilli E w)|];
    rewrite IH; apply lookup_alter_is_Some.
Qed.

(** The loop through states that are there and whose cards have a boot log:
    it gets through them and leaves the boot logs as [applyStates] does. *)
Lemma reportLoop_prefix pre (rest : list (option bpb.ControlCardState.t)) s w :
  Forall (logged (Service.activeBoots s)) pre →
  Service.reportLoop E (map Some pre ++ rest) s w
  = Service.reportLoop E rest
      (Service.set_activeBoots (λ _, fst (applyStates E pre (Service.activeBoots s) w)) s)
      (snd (applyStates E pre (Service.activeBoots s) w)).
Proof.
  revert s w. induction pre as [|st pre IH]; intros s w Hpre.
  - cbn. by destruct s.
  - inversion Hpre as [|? ? Hst Hrest]; subst. cbn [map app].
    rewrite (reportLoop_logged _ _ _ _ Hst).
    change (applyStates E (st :: pre) (Service.activeBoots s) w)
      with (applyStates E ([st] ++ pre) (Service.activeBoots s) w).
    rewrite applyStates_app.
    destruct (applyStates E [st] (Service.activeBoots s) w) as [boots w'] eqn:Hone.
    assert (Hb : boots = fst (applyStates E [st] (Service.activeBoots s) w))
      by (by rewrite Hone).
    rewrite IH; [reflexivity|].
    cbn. eapply Forall_impl; [exact Hrest|]. intros x Hx.
    rewrite Hb. by apply applyStates_logged.
Qed.

(** When every reported state is there and its card has a boot log, the loop
    runs to its end and leaves the boot logs as the specification describes. *)
Lemma reportLoop_all_logged sts s w :
  Forall (logged (Service.activeBoots s)) sts →
  Service.reportLoop E (map Some sts) s w
  = (Return (),
     Service.set_activeBoots (λ _, fst (applyStates E sts (Service.activeBoots s) w)) s,
     snd (applyStates E sts (Service.activeBoots s) w)).
Proof.
  intros Hall. rewrite <- (app_nil_r (map Some sts)).
  by rewrite reportLoop_prefix.
Qed.

(** The loop panics at the first state under whose serial there is no boot
    log, having applied the states before it. *)
Lemma reportLoop_first_missing pre (stat : option bpb.ControlCardState.t) post s w :
  Forall (logged (Service.activeBoots s)) pre →
  Service.activeBoots s !! names stat = None →
  Service.reportLoop E (map Some pre ++ stat :: post) s w
  = (Panic,
     Service.set_activeBoots (λ _, fst (applyStates E pre (Service.activeBoots s) w)) s,
     snd (applyStates E pre (Service.activeBoots s) w)).
Proof.
  intros Hpre Hstat. rewrite reportLoop_prefix by done.
  apply reportLoop_not_logged. cbn. apply eq_None_not_Some.
  rewrite applyStates_is_Some. by rewrite Hstat.
Qed.

(** The loop panics at the first nil state as well when the empty serial has
    a boot log: that boot log then has the unspecified last status. *)
Lemma reportLoop_first_nil pre post s w :
  Forall (logged (Service.activeBoots s)) pre →
  is_Some (Service.activeBoots s !! "") →
  Service.reportLoop E (map Some pre ++ None :: post) s w
  = (Panic,
     Service.set_activeBoots
       (λ _, alter (bootLog.set_LastStatus
                      bpb.ControlCardState_CONTROL_CARD_STATUS_UNSPECIFIED) ""
                   (fst (applyStates E pre (Service.activeBoots s) w))) s,
     snd (applyStates E pre (Service.activeBoots s) w)).
Proof.
  intros Hpre Hempty. rewrite reportLoop_prefix by done.
  rewrite reportLoop_nil; [done|]. cbn. by apply applyStates_is_Some.
Qed.

(** The states of a report are all there with a boot log for their cards, or
    there is a first one that is nil or has no boot log under its serial. *)
Lemma states_split (boots : gmap string bootLog.t)
    (states : list (option bpb.ControlCardState.t)) :
  (∃ sts, states = map Some sts ∧ Forall (logged boots) sts)
  ∨ ∃ pre bad post,
      states = map Some pre ++ bad :: post
      ∧ Forall (logged boots) pre
      ∧ (bad = None ∨ boots !! names bad = None).
Proof.
  induction states as [|[st|] states IH].
  - left. by exists [].
  - destruct (decide (logged boots st)) as [Hl|Hl].
    + destruct IH as [(sts & -> & Hall)|(pre & bad & post & -> & Hpre & Hbad)].
      * left. exists (st :: sts). split; [done|]. by constructor.
      * right. exists (st :: pre), bad, post. split_and!; [done| |done].
        by constructor.
    + right. exists [], (Some st), states. split_and!; [done|constructor|].
      right. by apply eq_None_not_Some.
  - right. exists [], None, states. split_and!; [done|constructor|by left].
Qed.

(** The report loop panics exactly when a reported state is nil or has no
    boot log under its serial. *)
Lemma reportLoop_panics_iff states s w :
  result (Service.reportLoop E states s w) = Panic
  ↔ Exists (λ x, x = None ∨ Service.activeBoots s !! names x = None) states.
Proof.
  destruct (states_split (Service.activeBoots s) states)
    as [(sts & -> & Hall)|(pre & bad & post & -> & Hpre & Hbad)].
  - rewrite reportLoop_all_logged by done. cbn. split; [done|].
    rewrite Exists_exists. intros (x & Hx & Hbad).
    apply list_elem_of_fmap in Hx as (st & -> & Hst).
    rewrite Forall_forall in Hall. specialize (Hall st Hst).
    destruct Hbad as [?|Hnone]; [done|]. destruct Hall as [b Hb]. cbn in Hnone.
    congruence.
  - split.
    + intros _. apply Exists_app. right. by apply Exists_cons_hd.
    + intros _.
      destruct (Service.activeBoots s !! names bad)
        as [b|] eqn:Hk.
      * destruct Hbad as [->|Hbad]; [|done].
        rewrite reportLoop_first_nil; [done|done|]. cbn in Hk. by rewrite Hk.
      * by rewrite reportLoop_first_missing.
Qed.

(** The report loop makes no call on the entity manager. *)
Lemma reportLoop_traced states s w tr :
  Service.reportLoop (traced E) states s (w, tr)
  = let '(o, s', w') := Service.reportLoop E states s w in (o, s', (w', tr)).
Proof.
  revert s w. induction states as [|stat states IH]; intros s w; [done|].
  cbn [Service.reportLoop]. unfold_M. unfold Service.storeBoot. cbn.
  destruct (Service.activeBoots s !! _) as [b|]; [|done]. cbn.
  destruct stat as [st|]; [|done]. cbn.
  rewrite lookup_insert_eq. cbn.
  destruct (decide _); cbn.
  - destruct (UnixMilli E w) as [now w1]. cbn. rewrite lookup_insert_eq. apply IH.
  - apply IH.
Qed.

Lemma ReportStatus_ledger req s w :
  ledger (Service.ReportStatus E req s w)
  = match EntityManager.SetStatus (em E) req w with
    | (Some _, w1) =>
        ledger (Service.reportLoop E (statesOf req) s w1)
    | (None, _) => s
    end.
Proof.
  unfold Service.ReportStatus. unfold_M.
  destruct (EntityManager.SetStatus (em E) req w) as [[e|] w1]; [|done].
  by destruct (Service.reportLoop E _ s w1) as [[[[]|] s'] w2].
Qed.

End Report.

Lemma last_cons_default {A} (x d : A) (l : list A) :
  List.last (x :: l) d = List.last l x.
Proof.
  revert x d. induction l as [|y l IH]; intros x d; [done|].
  change (List.last (x :: y :: l) d) with (List.last (y :: l) d).
  by rewrite !IH.
Qed.

(** What a list of states does to the boot log of one card. *)
Lemma applyStates_lookup {W} (E : Env W) states boots w k b :
  boots !! k = Some b →
  ∃ b',
    fst (applyStates E states boots w) !! k = Some b'
    ∧ bootLog.Status b' = bootLog.Status b ++ reported k states
    ∧ bootLog.LastStatus b' = List.last (reported k states) (bootLog.LastStatus b)
    ∧ (bpb.ControlCardState_CONTROL_CARD_STATUS_INITIALIZED ∉ reported k states →
       bootLog.EndTimeStamp b' = bootLog.EndTimeStamp b)
    ∧ (bpb.ControlCardState_CONTROL_CARD_STATUS_INITIALIZED ∈ reported k states →
       ∃ w0, bootLog.EndTimeStamp b' = uint64 (fst (UnixMilli E w0)))
    ∧ same_boot b b'.
Proof.
  revert boots w b. induction states as [|stat states IH]; intros boots w b Hb.
  - exists b. unfold reported, same_boot. cbn. rewrite app_nil_r.
    split_and!; try done. by intros ?%elem_of_nil.
  - assert (Hstep : ∃ now w',
      applyStates E (stat :: states) boots w
      = applyStates E states
          (alter (applyState stat (uint64 now))
                 (bpb.ControlCardState.SerialNumber stat) boots) w'
      ∧ (bpb.ControlCardState.Status stat
         = bpb.ControlCardState_CONTROL_CARD_STATUS_INITIALIZED →
         ∃ w0, uint64 now = uint64 (fst (UnixMilli E w0)))).
    { cbn [applyStates]. destruct (decide _) as [Hi|Hi].
      - destruct (UnixMilli E w) as [now w'] eqn:Hnow.
        exists now, w'. split; [done|]. intros _. exists w. by rewrite Hnow.
      - exists 0%Z, w. by split. }
    destruct Hstep as (now & w' & -> & Hclock).
    destruct (decide (bpb.ControlCardState.SerialNumber stat = k)) as [Hk|Hk].
    + destruct (IH (alter (applyState stat (uint64 now))
                          (bpb.ControlCardState.SerialNumber stat) boots) w'
                   (applyState stat (uint64 now) b))
        as (b' & Hb' & Hhist & Hlast & Hkeep & Hset & Hsame).
      { subst k. by rewrite lookup_alter_eq, Hb. }
      exists b'. unfold reported in *. rewrite filter_cons_True by done.
      cbn [map]. split_and!.
      * done.
      * rewrite Hhist. cbn. by rewrite <- app_assoc.
      * rewrite Hlast. cbn [applyState bootLog.LastStatus].
        by rewrite last_cons_default.
      * intros Hnot. rewrite Hkeep.
        -- unfold applyState. cbn. destruct (decide _) as [Hi|]; [|done].
           exfalso. apply Hnot. rewrite Hi. apply elem_of_cons. by left.
        -- intros Hin. apply Hnot. apply elem_of_cons. by right.
      * intros Hin.
        destruct (decide (bpb.ControlCardState_CONTROL_CARD_STATUS_INITIALIZED
                          ∈ map bpb.ControlCardState.Status
                              (filter (λ st, bpb.ControlCardState.SerialNumber st = k)
                                      states))) as [Hrest|Hrest].
        { by apply Hset. }
        apply elem_of_cons in Hin as [Hi|Hin]; [|contradiction].
        rewrite (Hkeep Hrest). unfold applyState. cbn.
        destruct (decide _) as [Hi'|]; [|congruence].
        by apply Hclock.
      * unfold same_boot in *. cbn in Hsame. done.
    + destruct (IH (alter (applyState stat (uint64 now))
                          (bpb.ControlCardState.SerialNumber stat) boots) w' b)
        as (b' & Hb' & Hrest).
      { by rewrite lookup_alter_ne. }
      exists b'. unfold reported in *. rewrite filter_cons_False by done.
      by split.
Qed.

Lemma applyStates_lookup_other {W} (E : Env W) states boots w k :
  k ∉ map bpb.ControlCardState.SerialNumber states →
  fst (applyStates E states boots w) !! k = boots !! k.
Proof.
  revert boots w. induction states as [|st states IH]; intros boots w Hk; [done|].
  cbn in Hk. apply not_elem_of_cons in Hk as [Hne Hk].
  cbn [applyStates]. destruct (decide _); [destruct (UnixMilli E w)|];
    rewrite IH by done; by apply lookup_alter_ne.
Qed.

(** ** The calls GetBootstrapData makes *)

Section Calls.
Context {W : Type} (E : Env W).
Implicit Types (req : ptr bpb.GetBootstrapDataRequest.t) (s : Service.t) (w : W).
Implicit Types (tr : list Call).

Lemma traced_ResolveChassis_inv lookup cc w tr r (x : W * list Call) :
  EntityManager.ResolveChassis (em (traced E)) lookup cc (w, tr) = (r, x) →
  ∃ w1, EntityManager.ResolveChassis (em E) lookup cc w = (r, w1)
        ∧ x = (w1, tr ++ [CallResolveChassis lookup cc]).
Proof.
  cbn. destruct (EntityManager.ResolveChassis (em E) lookup cc w) as [r' w1'].
  intros [= <- <-]. eauto.
Qed.

Lemma traced_ResolveChassis lookup cc w tr r w1 :
  EntityManager.ResolveChassis (em E) lookup cc w = (r, w1) →
  EntityManager.ResolveChassis (em (traced E)) lookup cc (w, tr)
  = (r, (w1, tr ++ [CallResolveChassis lookup cc])).
Proof. intros H. cbn. by rewrite H. Qed.

(** The fetches of a traced loop are the fetches of the loop, logged. *)
Lemma fetchEach_traced lookup cards w tr :
  fetchEach (traced E) lookup cards (w, tr)
  = let '(fs, w') := fetchEach E lookup cards w in
    (fs, (w', tr ++ fetches lookup (map Fetch.card fs))).
Proof.
  revert w tr. induction cards as [|v cards IH]; intros w tr.
  - cbn. by rewrite app_nil_r.
  - cbn [fetchEach]. cbn. destruct (UnixMilli E w) as [now w1].
    destruct (EntityManager.GetBootstrapData _ _ _ _) as [[bootdata err] w2].
    destruct (Fetch.stuck _); [done|].
    rewrite IH. destruct (fetchEach E lookup cards w2) as [fs w3]. cbn.
    by rewrite <- app_assoc.
Qed.

Lemma respond_traced req cd errs responses s w tr :
  respond (traced E) req cd errs responses s (w, tr)
  = let '(o, s', w') := respond E req cd errs responses s w in
    (o, s', (w', tr ++ signing req cd errs responses)).
Proof.
  unfold respond, signing. destruct (errlist.Err errs).
  { by rewrite app_nil_r. }
  destruct (decide _).
  { by rewrite app_nil_r. }
  cbn. destruct (EntityManager.Sign _ _ _ _ _) as [[resp [e|]] w3]; reflexivity.
Qed.

(** The calls of a run whose chassis resolves and passes the boot-mode
    check: the resolution, the fetches of the loop and, if the loop got to its
    end, the signing. *)
Lemma GetBootstrapData_fetches_calls req cd ch s w w1 fs w2 :
  bpb.GetBootstrapDataRequest.ChassisDescriptor (pointee req) = Some cd →
  bpb.ChassisDescriptor.ControlCards cd ≠ [] →
  EntityManager.ResolveChassis (em E) (lookup_of cd) (ccSerial_of cd) w
  = ((Some ch, None), w1) →
  ¬ (ChassisEntity.BootMode ch = bpb.BootMode_BOOT_MODE_SECURE
     ∧ bpb.GetBootstrapDataRequest.Nonce (pointee req) = "") →
  fetchEach E (lookup_of cd) (bpb.ChassisDescriptor.ControlCards cd) w1 = (fs, w2) →
  calls (Service.GetBootstrapData (traced E) (Some req) s (w, []))
  = CallResolveChassis (lookup_of cd) (ccSerial_of cd)
    :: fetches (lookup_of cd) (map Fetch.card fs)
    ++ (if existsb Fetch.stuck fs then []
        else signing req cd (collectErrors errlist.zero fs) (map Fetch.data fs)).
Proof.
  intros Hcd Hcards Hres Hpolicy Hfs.
  rewrite (GetBootstrapData_fetches (traced E) req cd ch s (w, [])
             (w1, [] ++ [CallResolveChassis (lookup_of cd) (ccSerial_of cd)])
             fs
             (w2, ([] ++ [CallResolveChassis (lookup_of cd) (ccSerial_of cd)])
                  ++ fetches (lookup_of cd) (map Fetch.card fs))
             Hcd Hcards (traced_ResolveChassis _ _ _ _ _ _ Hres) Hpolicy).
  - destruct (existsb Fetch.stuck fs).
    + unfold calls. cbn. by rewrite app_nil_r.
    + rewrite respond_traced.
      by destruct (respond E req cd _ _ _ _) as [[o s'] w3].
  - rewrite fetchEach_traced. by rewrite Hfs.
Qed.

(** The calls of a run: none; or the resolution alone; or the resolution,
    the fetches of the loop, and the signing. *)
Lemma GetBootstrapData_calls req s w :
  calls (Service.GetBootstrapData (traced E) (Some req) s (w, [])) = []
  ∨ ∃ cd,
      bpb.GetBootstrapDataRequest.ChassisDescriptor (pointee req) = Some cd
      ∧ bpb.ChassisDescriptor.ControlCards cd ≠ []
      ∧ (calls (Service.GetBootstrapData (traced E) (Some req) s (w, []))
         = [CallResolveChassis (lookup_of cd) (ccSerial_of cd)]
         ∨ ∃ ch w1 fs w2,
             EntityManager.ResolveChassis (em E) (lookup_of cd) (ccSerial_of cd) w
             = ((Some ch, None), w1)
             ∧ fetchEach E (lookup_of cd) (bpb.ChassisDescriptor.ControlCards cd) w1
               = (fs, w2)
             ∧ calls (Service.GetBootstrapData (traced E) (Some req) s (w, []))
               = CallResolveChassis (lookup_of cd) (ccSerial_of cd)
                 :: fetches (lookup_of cd) (map Fetch.card fs)
                 ++ (if existsb Fetch.stuck fs then []
                     else signing req cd (collectErrors errlist.zero fs)
                            (map Fetch.data fs))).
Proof.
  destruct (bpb.GetBootstrapDataRequest.ChassisDescriptor (pointee req))
    as [cd|] eqn:Hcd.
  2:{ left. by rewrite GetBootstrapData_nil_descriptor. }
  destruct (decide (bpb.ChassisDescriptor.ControlCards cd = [])) as [Hcards|Hcards].
  { left. by rewrite (GetBootstrapData_no_cards (traced E) req cd). }
  right. exists cd. split_and!; [done..|].
  destruct (EntityManager.ResolveChassis (em E) (lookup_of cd) (ccSerial_of cd) w)
    as [[ch err] w1] eqn:Hres.
  destruct err as [err|].
  { left. by rewrite (GetBootstrapData_unresolved (traced E) req cd ch err s _ _
                        Hcd Hcards (traced_ResolveChassis _ _ _ [] _ _ Hres)). }
  destruct ch as [ch|].
  2:{ left. by rewrite (GetBootstrapData_nil_chassis (traced E) req cd s _ _
                          Hcd Hcards (traced_ResolveChassis _ _ _ [] _ _ Hres)). }
  destruct (decide (ChassisEntity.BootMode ch = bpb.BootMode_BOOT_MODE_SECURE
                    ∧ bpb.GetBootstrapDataRequest.Nonce (pointee req) = ""))
    as [[Hmode Hnonce]|Hpolicy].
  { left. by rewrite (GetBootstrapData_secure_no_nonce (traced E) req cd ch s _ _
                        Hcd Hcards (traced_ResolveChassis _ _ _ [] _ _ Hres)
                        Hmode Hnonce). }
  destruct (fetchEach E (lookup_of cd) (bpb.ChassisDescriptor.ControlCards cd) w1)
    as [fs w2] eqn:Hfs.
  right. exists ch, w1, fs, w2. split_and!; [done..|].
  by apply (GetBootstrapData_fetches_calls req cd ch s w w1 fs w2).
Qed.

Lemma elem_of_fetches (call : Call) lookup cards :
  call ∈ fetches lookup cards →
  ∃ v, call = CallGetBootstrapData lookup v ∧ v ∈ cards.
Proof.
  unfold fetches. intros (v & -> & Hv)%list_elem_of_fmap. eauto.
Qed.

Lemma elem_of_signing (call : Call) req cd errs responses :
  call ∈ signing req cd errs responses →
  bpb.GetBootstrapDataRequest.Nonce (pointee req) ≠ ""
  ∧ call = CallSign
             (envelope responses (bpb.GetBootstrapDataRequest.Nonce (pointee req)))
             (lookup_of cd) (stateSerial req).
Proof.
  unfold signing. destruct (errlist.Err errs).
  { by intros ?%elem_of_nil. }
  destruct (decide _) as [|Hn].
  { by intros ?%elem_of_nil. }
  intros ->%list_elem_of_singleton. done.
Qed.

End Calls.

(** The last stage leaves the ledger alone. *)
Lemma respond_ledger {W} (E : Env W) req cd errs responses s w :
  ledger (respond E req cd errs responses s w) = s.
Proof.
  unfold respond. destruct (errlist.Err errs); [done|].
  destruct (decide _); [done|].
  by destruct (EntityManager.Sign _ _ _ _ _) as [[resp [e|]] w3].
Qed.

(** The last stage does not panic. *)
Lemma respond_returns {W} (E : Env W) req cd errs responses s w :
  result (respond E req cd errs responses s w) ≠ Panic.
Proof.
  unfold respond. destruct (errlist.Err errs); [done|].
  destruct (decide _); [done|].
  by destruct (EntityManager.Sign _ _ _ _ _) as [[resp [e|]] w3].
Qed.

(** ** Properties of the service *)

(** C4. A request whose chassis descriptor lists no control card fails with
    InvalidArgument; the error is recorded for the request in the
    failed-request ledger, the connected chassis and the active boots are
    what they were, and the world has not been touched. *)
Theorem GetBootstrapData_no_control_cards {W} (E : Env W)
    (req : ptr bpb.GetBootstrapDataRequest.t) (cd : bpb.ChassisDescriptor.t)
    (s : Service.t) (w : W) :
  bpb.GetBootstrapDataRequest.ChassisDescriptor (pointee req) = Some cd →
  bpb.ChassisDescriptor.ControlCards cd = [] →
  ∃ e s',
    Service.GetBootstrapData E (Some req) s w = (Return (None, Some e), s', w)
    ∧ status.Code e = codes.InvalidArgument
    ∧ Service.failedRequest s' = <[addr req := e]> (Service.failedRequest s)
    ∧ Service.connectedChassis s' = Service.connectedChassis s
    ∧ Service.activeBoots s' = Service.activeBoots s.
Proof.
  intros Hcd Hcards. eexists _, _. split.
  - by apply GetBootstrapData_no_cards with cd.
  - done.
Qed.

Lemma GetBootstrapData_no_control_cards_witness :
  ∃ e s',
    Service.GetBootstrapData
      (Lab.env bpb.BootMode_BOOT_MODE_INSECURE ["123A"; "123B"] true)
      (Some (Lab.request [] "")) Service.New 1000%Z
    = (Return (None, Some e), s', 1000%Z)
    ∧ status.Code e = codes.InvalidArgument
    ∧ Service.failedRequest s'
      = <[addr (Lab.request [] "") := e]> (Service.failedRequest Service.New)
    ∧ Service.connectedChassis s' = Service.connectedChassis Service.New
    ∧ Service.activeBoots s' = Service.activeBoots Service.New.
Proof.
  apply (GetBootstrapData_no_control_cards _ _
           (bpb.ChassisDescriptor.mk "Cisco" "123" [])); reflexivity.
Defined.

(** The error [GetBootStatus] gives for a serial without boot log is not a
    status error: its code is Unknown, not NotFound. *)
Lemma GetBootStatus_error_is_not_NotFound :
  ∃ e, Service.GetBootStatus Service.New "123A" = (bootLog.zero, Some e)
       ∧ status.Code e = codes.Unknown
       ∧ status.Code e ≠ codes.NotFound.
Proof. eexists. split_and!; [reflexivity|reflexivity|discriminate]. Qed.

(** C8, amended. [GetBootStatus] of a serial without boot log gives the zero
    boot log and an error, the plain error that [fmt.Errorf] makes of the
    message "no boot log found for controller card" and the serial: it is not
    a status error, and its code is Unknown.  Of a serial with a boot log
    [GetBootStatus] gives that boot log, by value, and no error. *)
Theorem GetBootStatus_found_or_not (s : Service.t) (serial : string) :
  (Service.activeBoots s !! serial = None →
   ∃ e,
     Service.GetBootStatus s serial = (bootLog.zero, Some e)
     ∧ e = FmtError (String.append "no boot log found for controller card " serial)
     ∧ (∀ c msg, e ≠ StatusError c msg)
     ∧ status.Code e = codes.Unknown)
  ∧ (∀ b, Service.activeBoots s !! serial = Some b →
          Service.GetBootStatus s serial = (b, None)).
Proof.
  unfold Service.GetBootStatus. split.
  - intros ->. eexists. by split_and!.
  - by intros b ->.
Qed.

Lemma GetBootStatus_found_or_not_witness :
  (∃ e,
     Service.GetBootStatus Service.New "123A" = (bootLog.zero, Some e)
     ∧ e = FmtError "no boot log found for controller card 123A"
     ∧ (∀ c msg, e ≠ StatusError c msg)
     ∧ status.Code e = codes.Unknown)
  ∧ Service.GetBootStatus
      (Service.mk ∅ {["123A" := bootLog.zero]} ∅) "123A" = (bootLog.zero, None).
Proof.
  split.
  - apply (GetBootStatus_found_or_not Service.New "123A"). reflexivity.
  - apply (GetBootStatus_found_or_not (Service.mk ∅ {["123A" := bootLog.zero]} ∅) "123A").
    reflexivity.
Defined.

(** C3. When the chassis of the request resolves to one in secure boot mode
    and the request has no nonce, the call fails with InvalidArgument, whatever
    control cards the descriptor lists: the active boots are what they were,
    and the entity manager has not been asked for the bootstrap data of any
    card. *)
Theorem GetBootstrapData_secure_needs_nonce {W} (E : Env W)
    (req : ptr bpb.GetBootstrapDataRequest.t) (cd : bpb.ChassisDescriptor.t)
    (ch : ChassisEntity.t) (s : Service.t) (w w1 : W) :
  bpb.GetBootstrapDataRequest.ChassisDescriptor (pointee req) = Some cd →
  EntityManager.ResolveChassis (em E) (lookup_of cd) (ccSerial_of cd) w
  = ((Some ch, None), w1) →
  ChassisEntity.BootMode ch = bpb.BootMode_BOOT_MODE_SECURE →
  bpb.GetBootstrapDataRequest.Nonce (pointee req) = "" →
  (∃ e s' w',
     Service.GetBootstrapData E (Some req) s w = (Return (None, Some e), s', w')
     ∧ status.Code e = codes.InvalidArgument
     ∧ Service.activeBoots s' = Service.activeBoots s)
  ∧ ∀ lookup card,
      CallGetBootstrapData lookup card
      ∉ calls (Service.GetBootstrapData (traced E) (Some req) s (w, [])).
Proof.
  intros Hcd Hres Hmode Hnonce.
  destruct (decide (bpb.ChassisDescriptor.ControlCards cd = [])) as [Hcards|Hcards].
  - split.
    + eexists _, _, _. split; [by apply GetBootstrapData_no_cards with cd|done].
    + intros lookup card.
      rewrite (GetBootstrapData_no_cards (traced E) req cd) by done.
      apply not_elem_of_nil.
  - split.
    + eexists _, _, _.
      split; [by eapply GetBootstrapData_secure_no_nonce|done].
    + intros lookup card.
      rewrite (GetBootstrapData_secure_no_nonce (traced E) req cd ch s _ _
                 Hcd Hcards (traced_ResolveChassis E _ _ _ [] _ _ Hres) Hmode Hnonce).
      unfold calls. cbn. intros Hin%list_elem_of_singleton. discriminate.
Qed.

Lemma GetBootstrapData_secure_needs_nonce_witness :
  (∃ e s' w',
     Service.GetBootstrapData
       (Lab.env bpb.BootMode_BOOT_MODE_SECURE ["123A"] true)
       (Some (Lab.request ["123A"; "456Z"] "")) Service.New 1000%Z
     = (Return (None, Some e), s', w')
     ∧ status.Code e = codes.InvalidArgument
     ∧ Service.activeBoots s' = Service.activeBoots Service.New)
  ∧ ∀ lookup card,
      CallGetBootstrapData lookup card
      ∉ calls (Service.GetBootstrapData
                 (traced (Lab.env bpb.BootMode_BOOT_MODE_SECURE ["123A"] true))
                 (Some (Lab.request ["123A"; "456Z"] "")) Service.New (1000%Z, [])).
Proof.
  apply (GetBootstrapData_secure_needs_nonce _ _
           (bpb.ChassisDescriptor.mk "Cisco" "123" (Lab.cards ["123A"; "456Z"]))
           (ChassisEntity.mk bpb.BootMode_BOOT_MODE_SECURE) _ _ 1000%Z); reflexivity.
Defined.

(** C9. A request that lists a control card, resolves to a chassis in secure
    boot mode and has no nonce is refused after the chassis has been marked
    connected and before any work on the cards: the ledger it leaves is the
    one it found with the chassis connected, so the failed requests and the
    active boots are what they were, and the resolution is the only call the
    entity manager has received. *)
Theorem GetBootstrapData_secure_refusal_frame {W} (E : Env W)
    (req : ptr bpb.GetBootstrapDataRequest.t) (cd : bpb.ChassisDescriptor.t)
    (ch : ChassisEntity.t) (s : Service.t) (w w1 : W) :
  bpb.GetBootstrapDataRequest.ChassisDescriptor (pointee req) = Some cd →
  bpb.ChassisDescriptor.ControlCards cd ≠ [] →
  EntityManager.ResolveChassis (em E) (lookup_of cd) (ccSerial_of cd) w
  = ((Some ch, None), w1) →
  ChassisEntity.BootMode ch = bpb.BootMode_BOOT_MODE_SECURE →
  bpb.GetBootstrapDataRequest.Nonce (pointee req) = "" →
  ∃ s',
    Service.GetBootstrapData E (Some req) s w
    = (Return (None, Some (StatusError codes.InvalidArgument
                             "chassis requires secure boot only")), s', w1)
    ∧ Service.IsChassisConnected s' (lookup_of cd) = true
    ∧ (∀ lookup, Service.IsChassisConnected s lookup = true →
                 Service.IsChassisConnected s' lookup = true)
    ∧ Service.failedRequest s' = Service.failedRequest s
    ∧ Service.activeBoots s' = Service.activeBoots s
    ∧ calls (Service.GetBootstrapData (traced E) (Some req) s (w, []))
      = [CallResolveChassis (lookup_of cd) (ccSerial_of cd)].
Proof.
  intros Hcd Hcards Hres Hmode Hnonce.
  exists (connect cd s). split_and!.
  - by eapply GetBootstrapData_secure_no_nonce.
  - unfold Service.IsChassisConnected, connect. cbn. by rewrite lookup_insert_eq.
  - intros lookup. unfold Service.IsChassisConnected, connect. cbn.
    destruct (decide (lookup_of cd = lookup)) as [->|Hne].
    + by rewrite lookup_insert_eq.
    + by rewrite lookup_insert_ne.
  - done.
  - done.
  - rewrite (GetBootstrapData_secure_no_nonce (traced E) req cd ch s _ _
               Hcd Hcards (traced_ResolveChassis E _ _ _ [] _ _ Hres) Hmode Hnonce).
    reflexivity.
Qed.

Lemma GetBootstrapData_secure_refusal_frame_witness :
  ∃ s',
    Service.GetBootstrapData
      (Lab.env bpb.BootMode_BOOT_MODE_SECURE ["123A"] true)
      (Some (Lab.request ["123A"] "")) Service.New 1000%Z
    = (Return (None, Some (StatusError codes.InvalidArgument
                             "chassis requires secure boot only")), s', 1000%Z)
    ∧ Service.IsChassisConnected s' Lab.chassis123 = true
    ∧ (∀ lookup, Service.IsChassisConnected Service.New lookup = true →
                 Service.IsChassisConnected s' lookup = true)
    ∧ Service.failedRequest s' = Service.failedRequest Service.New
    ∧ Service.activeBoots s' = Service.activeBoots Service.New
    ∧ calls (Service.GetBootstrapData
               (traced (Lab.env bpb.BootMode_BOOT_MODE_SECURE ["123A"] true))
               (Some (Lab.request ["123A"] "")) Service.New (1000%Z, []))
      = [CallResolveChassis Lab.chassis123 "123A"].
Proof.
  apply (GetBootstrapData_secure_refusal_frame
           (Lab.env bpb.BootMode_BOOT_MODE_SECURE ["123A"] true)
           (Lab.request ["123A"] "")
           (bpb.ChassisDescriptor.mk "Cisco" "123" (Lab.cards ["123A"]))
           (ChassisEntity.mk bpb.BootMode_BOOT_MODE_SECURE)
           Service.New 1000%Z 1000%Z); try reflexivity.
  discriminate.
Defined.

(** A call that returns a response has resolved the chassis of the
    descriptor and leaves it connected. *)
Lemma GetBootstrapData_success_connects {W} (E : Env W) req resp s w s' w' :
  Service.GetBootstrapData E (Some req) s w = (Return (Some resp, None), s', w') →
  ∃ cd, bpb.GetBootstrapDataRequest.ChassisDescriptor (pointee req) = Some cd
        ∧ Service.connectedChassis s' !! lookup_of cd = Some true.
Proof.
  intros Hrun. pose proof (GetBootstrapData_path E req s w) as P.
  rewrite Hrun in P.
  inversion P as [ | | | | | | cd ch w1 fs w2 Hcd Hcards Hres Hpolicy Hfs Hstuck Hresp ].
  exists cd. split; [done|].
  pose proof (respond_ledger E req cd (collectErrors errlist.zero fs)
                (map Fetch.data fs)
                (Service.set_activeBoots (logFetches req ch fs) (connect cd s)) w2) as Hl.
  rewrite Hresp in Hl. cbn in Hl. subst s'. cbn. apply lookup_insert_eq.
Qed.

(** C10. After a call of [GetBootstrapData] that returned a response, the
    chassis of the request is connected; after [ResetStatus], whatever the
    ledger was, no chassis is connected and the three maps are empty. *)
Theorem connected_after_bootstrap_until_reset {W} (E : Env W)
    (req : ptr bpb.GetBootstrapDataRequest.t)
    (resp : bpb.GetBootstrapDataResponse.t) (s s' : Service.t) (w w' : W) :
  Service.GetBootstrapData E (Some req) s w = (Return (Some resp, None), s', w') →
  (∃ cd, bpb.GetBootstrapDataRequest.ChassisDescriptor (pointee req) = Some cd
         ∧ Service.IsChassisConnected s' (lookup_of cd) = true)
  ∧ ∀ arg lookup,
      Service.IsChassisConnected (Service.ResetStatus s' arg) lookup = false
      ∧ Service.connectedChassis (Service.ResetStatus s' arg) = ∅
      ∧ Service.activeBoots (Service.ResetStatus s' arg) = ∅
      ∧ Service.failedRequest (Service.ResetStatus s' arg) = ∅.
Proof.
  intros Hrun. split.
  - destruct (GetBootstrapData_success_connects E req resp s w s' w' Hrun)
      as (cd & Hcd & Hconn).
    exists cd. split; [done|]. unfold Service.IsChassisConnected. by rewrite Hconn.
  - intros arg lookup. unfold Service.IsChassisConnected, Service.ResetStatus. cbn.
    by rewrite lookup_empty.
Qed.

Lemma connected_after_bootstrap_until_reset_witness :
  (∃ cd, bpb.GetBootstrapDataRequest.ChassisDescriptor
           (pointee (Lab.request ["123A"; "123B"] "")) = Some cd
         ∧ Service.IsChassisConnected (ledger connected_run) (lookup_of cd) = true)
  ∧ ∀ arg lookup,
      Service.IsChassisConnected (Service.ResetStatus (ledger connected_run) arg) lookup
      = false
      ∧ Service.connectedChassis (Service.ResetStatus (ledger connected_run) arg) = ∅
      ∧ Service.activeBoots (Service.ResetStatus (ledger connected_run) arg) = ∅
      ∧ Service.failedRequest (Service.ResetStatus (ledger connected_run) arg) = ∅.
Proof.
  apply (connected_after_bootstrap_until_reset
           (Lab.env bpb.BootMode_BOOT_MODE_INSECURE ["123A"; "123B"] true)
           (Lab.request ["123A"; "123B"] "")
           (envelope [Some (Lab.bootdata "123A"); Some (Lab.bootdata "123B")] "")
           Service.New (ledger connected_run) 1000%Z 1002%Z).
  vm_compute. reflexivity.
Defined.

(** The errors collected: those an error stands for are added. *)
Lemma errlist_Add_held (l : errlist.List) (e : error) :
  errlist.Add l e = l ++ held e.
Proof. by destruct e. Qed.

Lemma errlist_Err_None (l : errlist.List) : errlist.Err l = None ↔ l = [].
Proof. by destruct l. Qed.

Lemma errlist_Err_Some (l : errlist.List) :
  l ≠ [] → errlist.Err l = Some (ErrorList l).
Proof. by destruct l. Qed.

(** The errors of the fetches, each for what it holds, in order. *)
Lemma collectErrors_held errs fs :
  collectErrors errs fs = errs ++ concat (map held (omap Fetch.failure fs)).
Proof.
  revert errs. induction fs as [|f fs IH]; intros errs.
  - cbn. by rewrite app_nil_r.
  - change (collectErrors errs (f :: fs))
      with (collectErrors (match Fetch.failure f with
                           | Some e => errlist.Add errs e
                           | None => errs
                           end) fs).
    rewrite IH. cbn. destruct (Fetch.failure f) as [e|]; [|done].
    cbn. by rewrite errlist_Add_held, <- app_assoc.
Qed.

(** No error has been collected exactly when there was none before and every
    fetch returned no error or an aggregate that holds none. *)
Lemma collectErrors_nil errs fs :
  collectErrors errs fs = []
  ↔ errs = [] ∧ Forall (λ f, Fetch.failure f = None
                             ∨ Fetch.failure f = Some (ErrorList [])) fs.
Proof.
  revert errs. induction fs as [|f fs IH]; intros errs.
  - cbn. split; [by intros ->|by intros [-> _]].
  - change (collectErrors errs (f :: fs))
      with (collectErrors (match Fetch.failure f with
                           | Some e => errlist.Add errs e
                           | None => errs
                           end) fs).
    rewrite IH, Forall_cons. destruct (Fetch.failure f) as [e|].
    + rewrite errlist_Add_held. split.
      * intros [Hnil Hall]. apply app_eq_nil in Hnil as [-> Hheld].
        split_and!; [done| |done]. right. destruct e as [| |es]; try done.
        cbn in Hheld. by subst.
      * intros [-> [[Hf|Hf] Hall]]; [done|]. injection Hf as ->. by split.
    + split.
      * intros [-> Hall]. split_and!; [done|by left|done].
      * intros [-> [_ Hall]]. by split.
Qed.

(** The fetches are clean exactly when none is stuck and no error has been
    collected. *)
Lemma clean_iff (fs : list Fetch.t) :
  Forall clean fs
  ↔ existsb Fetch.stuck fs = false ∧ collectErrors errlist.zero fs = [].
Proof.
  rewrite collectErrors_nil. split.
  - intros Hall. split_and!; [|done|].
    + apply not_true_iff_false. intros (f & Hf & Hstuck)%existsb_exists.
      rewrite Forall_forall in Hall. apply list_elem_of_In in Hf.
      apply stuck_iff in Hstuck as [Hcard [e He]].
      destruct (Hall f Hf) as [Hnone|[Hsome _]]; congruence.
    + eapply Forall_impl; [exact Hall|]. intros f [?|[_ ?]]; eauto.
  - intros (Hstuck & _ & Hall). rewrite Forall_forall in *. intros f Hf.
    destruct (Hall f Hf) as [Hnone|Hempty]; [by left|]. right. split; [|done].
    intros Hcard. apply not_true_iff_false in Hstuck. apply Hstuck.
    apply existsb_exists. exists f. split; [by apply list_elem_of_In|].
    apply stuck_iff. split; [done|]. rewrite Hempty. eauto.
Qed.

(** A request for a fixed chassis, one whose descriptor lists no control
    card: it is refused, and the entity manager is not asked for the
    chassis-level bootstrap data, nor for anything else. *)
Lemma fixed_chassis_is_refused_not_fetched :
  let run :=
    Service.GetBootstrapData
      (traced (Lab.env bpb.BootMode_BOOT_MODE_INSECURE ["123A"; "123B"] true))
      (Some (Lab.request [] "")) Service.New (1000%Z, []) in
  result run = Return (None, Some errNoControlCard)
  ∧ calls run = []
  ∧ ¬ (CallGetBootstrapData Lab.chassis123 None ∈ calls run).
Proof.
  split_and!; [reflexivity..|].
  intros Hin. vm_compute in Hin. by apply elem_of_nil in Hin.
Qed.

(** C5, amended. [GetBootstrapData] never makes the additional fetch of
    chassis-level bootstrap data.  A request whose descriptor lists no control
    card is refused with InvalidArgument before any call to the entity
    manager.  In every run, the fetches are for elements of the control cards
    of the request, each handed on as it is; they come after the resolution,
    in the order of the list, one for each of its first elements, and no other
    fetch is made.  The envelope returned for a request without nonce holds
    one response for each element of the list. *)
Theorem GetBootstrapData_never_fetches_for_chassis {W} (E : Env W)
    (req : ptr bpb.GetBootstrapDataRequest.t) (s : Service.t) (w : W) :
  (∀ cd,
     bpb.GetBootstrapDataRequest.ChassisDescriptor (pointee req) = Some cd →
     bpb.ChassisDescriptor.ControlCards cd = [] →
     result (Service.GetBootstrapData (traced E) (Some req) s (w, []))
     = Return (None, Some (StatusError codes.InvalidArgument
                             "request must include at least one control card"))
     ∧ calls (Service.GetBootstrapData (traced E) (Some req) s (w, [])) = [])
  ∧ (∀ lookup card,
       CallGetBootstrapData lookup card
       ∈ calls (Service.GetBootstrapData (traced E) (Some req) s (w, [])) →
       ∃ cd,
         bpb.GetBootstrapDataRequest.ChassisDescriptor (pointee req) = Some cd
         ∧ lookup = lookup_of cd
         ∧ card ∈ bpb.ChassisDescriptor.ControlCards cd)
  ∧ (calls (Service.GetBootstrapData (traced E) (Some req) s (w, [])) = []
     ∨ ∃ cd pre after,
         bpb.GetBootstrapDataRequest.ChassisDescriptor (pointee req) = Some cd
         ∧ pre `prefix_of` bpb.ChassisDescriptor.ControlCards cd
         ∧ (∀ lookup card, CallGetBootstrapData lookup card ∉ after)
         ∧ calls (Service.GetBootstrapData (traced E) (Some req) s (w, []))
           = CallResolveChassis (lookup_of cd) (ccSerial_of cd)
             :: fetches (lookup_of cd) pre ++ after)
  ∧ (∀ resp s' w',
       Service.GetBootstrapData E (Some req) s w = (Return (Some resp, None), s', w') →
       bpb.GetBootstrapDataRequest.Nonce (pointee req) = "" →
       ∃ cd responses,
         bpb.GetBootstrapDataRequest.ChassisDescriptor (pointee req) = Some cd
         ∧ resp = bpb.GetBootstrapDataResponse.mk
                    (Some (bpb.BootstrapDataSigned.mk responses "")) [] [] ""
         ∧ length responses = length (bpb.ChassisDescriptor.ControlCards cd)).
Proof.
  assert (Hshape :
    calls (Service.GetBootstrapData (traced E) (Some req) s (w, [])) = []
    ∨ ∃ cd pre after,
        bpb.GetBootstrapDataRequest.ChassisDescriptor (pointee req) = Some cd
        ∧ pre `prefix_of` bpb.ChassisDescriptor.ControlCards cd
        ∧ (∀ lookup card, CallGetBootstrapData lookup card ∉ after)
        ∧ calls (Service.GetBootstrapData (traced E) (Some req) s (w, []))
          = CallResolveChassis (lookup_of cd) (ccSerial_of cd)
            :: fetches (lookup_of cd) pre ++ after).
  { destruct (GetBootstrapData_calls E req s w)
      as [Hnone|(cd & Hcd & Hcards & [Hone|(ch & w1 & fs & w2 & Hres & Hfs & Hall)])].
    - by left.
    - right. exists cd, [], []. split_and!; [done|apply prefix_nil| |done].
      intros lookup card. apply not_elem_of_nil.
    - right. exists cd, (map Fetch.card fs),
        (if existsb Fetch.stuck fs then []
         else signing req cd (collectErrors errlist.zero fs) (map Fetch.data fs)).
      split_and!; [done| | |done].
      + pose proof (fetchEach_cards E (lookup_of cd)
                      (bpb.ChassisDescriptor.ControlCards cd) w1) as [Hpre _].
        by rewrite Hfs in Hpre.
      + intros lookup card Hin. destruct (existsb Fetch.stuck fs).
        * by apply elem_of_nil in Hin.
        * apply elem_of_signing in Hin as [_ Hin]. discriminate. }
  split_and!.
  - intros cd Hcd Hcards.
    by rewrite (GetBootstrapData_no_cards (traced E) req cd).
  - intros lookup card Hin.
    destruct Hshape as [Hnone|(cd & pre & after & Hcd & Hpre & Hafter & Hall)].
    { rewrite Hnone in Hin. by apply elem_of_nil in Hin. }
    rewrite Hall in Hin. apply elem_of_cons in Hin as [Hin|Hin]; [discriminate|].
    apply elem_of_app in Hin as [Hin|Hin]; [|by apply Hafter in Hin].
    apply elem_of_fetches in Hin as (v & [= -> ->] & Hv).
    exists cd. split_and!; [done..|].
    destruct Hpre as [post ->]. apply elem_of_app. by left.
  - exact Hshape.
  - intros resp s' w' Hrun Hnonce.
    pose proof (GetBootstrapData_path E req s w) as P. rewrite Hrun in P.
    inversion P as [ | | | | | | cd ch w1 fs w2 Hcd Hcards Hres Hpolicy Hfs Hstuck Hresp ].
    exists cd, (map Fetch.data fs). split; [done|].
    unfold respond in Hresp. destruct (errlist.Err _); [discriminate|].
    destruct (decide _); [|contradiction]. injection Hresp as <- _ _.
    split; [done|].
    pose proof (fetchEach_cards E (lookup_of cd)
                  (bpb.ChassisDescriptor.ControlCards cd) w1) as [_ Hall].
    rewrite Hfs in Hall. cbn in Hall. rewrite <- (Hall Hstuck).
    by rewrite !length_map.
Qed.

Lemma GetBootstrapData_never_fetches_for_chassis_witness :
  let E := Lab.env bpb.BootMode_BOOT_MODE_INSECURE ["123A"; "123B"] true in
  result (Service.GetBootstrapData (traced E) (Some (Lab.request [] "")) Service.New
            (1000%Z, []))
  = Return (None, Some (StatusError codes.InvalidArgument
                          "request must include at least one control card"))
  ∧ calls (Service.GetBootstrapData (traced E) (Some (Lab.request [] "")) Service.New
             (1000%Z, [])) = [].
Proof.
  intros E.
  apply (proj1 (GetBootstrapData_never_fetches_for_chassis E (Lab.request [] "")
                  Service.New 1000%Z) (bpb.ChassisDescriptor.mk "Cisco" "123" []));
    reflexivity.
Defined.

(** A request with a nonce for cards 123A and 123C, of which the inventory
    has the first only: the fetch of the second fails, the call returns the
    aggregate of that error, and [Sign] is not called. *)
Lemma nonce_without_signing :
  let run :=
    Service.GetBootstrapData
      (traced (Lab.env bpb.BootMode_BOOT_MODE_INSECURE ["123A"] true))
      (Some (Lab.request ["123A"; "123C"] "N1")) Service.New (1000%Z, []) in
  bpb.GetBootstrapDataRequest.Nonce (pointee (Lab.request ["123A"; "123C"] "N1")) ≠ ""
  ∧ result run = Return (None, Some (ErrorList [Lab.notInInventory]))
  ∧ calls run
    = [CallResolveChassis Lab.chassis123 "123A";
       CallGetBootstrapData Lab.chassis123 (Some (Lab.card "123A"));
       CallGetBootstrapData Lab.chassis123 (Some (Lab.card "123C"))]
  ∧ ∀ resp lookup serial, CallSign resp lookup serial ∉ calls run.
Proof.
  split_and!; [discriminate|reflexivity|reflexivity|].
  intros resp lookup serial Hin. vm_compute in Hin.
  repeat (apply elem_of_cons in Hin as [Hin|Hin]; [discriminate|]).
  by apply elem_of_nil in Hin.
Qed.

(** C6, amended. Signing needs the nonce, and more than the nonce.  Without
    a nonce [Sign] is never called, and the envelope the call returns has an
    empty signature.  [Sign] is called exactly when the request has a nonce,
    its chassis resolves, and every fetch of the loop over its control cards
    is clean.  It is then called once and last, on the envelope that carries
    the data of the fetches and the nonce of the request, for the chassis of
    the descriptor and the serial of the control-card state of the request,
    the empty serial if the request has no such state; when [Sign] returns an
    error the call fails with the Internal status error, otherwise it returns
    the envelope as [Sign] left it. *)
Theorem GetBootstrapData_signs_iff_nonce {W} (E : Env W)
    (req : ptr bpb.GetBootstrapDataRequest.t) (s : Service.t) (w : W) :
  (bpb.GetBootstrapDataRequest.Nonce (pointee req) = "" →
   (∀ resp lookup serial,
      CallSign resp lookup serial
      ∉ calls (Service.GetBootstrapData (traced E) (Some req) s (w, [])))
   ∧ (∀ resp s' w',
        Service.GetBootstrapData E (Some req) s w = (Return (Some resp, None), s', w') →
        bpb.GetBootstrapDataResponse.ResponseSignature resp = ""))
  ∧ ((∃ resp lookup serial,
        CallSign resp lookup serial
        ∈ calls (Service.GetBootstrapData (traced E) (Some req) s (w, [])))
     ↔ bpb.GetBootstrapDataRequest.Nonce (pointee req) ≠ ""
       ∧ ∃ cd ch w1,
           bpb.GetBootstrapDataRequest.ChassisDescriptor (pointee req) = Some cd
           ∧ bpb.ChassisDescriptor.ControlCards cd ≠ []
           ∧ EntityManager.ResolveChassis (em E) (lookup_of cd) (ccSerial_of cd) w
             = ((Some ch, None), w1)
           ∧ Forall clean
               (fst (fetchEach E (lookup_of cd)
                       (bpb.ChassisDescriptor.ControlCards cd) w1)))
  ∧ (bpb.GetBootstrapDataRequest.Nonce (pointee req) ≠ "" →
     ∀ cd ch w1 fs w2 signed serr w3,
       bpb.GetBootstrapDataRequest.ChassisDescriptor (pointee req) = Some cd →
       bpb.ChassisDescriptor.ControlCards cd ≠ [] →
       EntityManager.ResolveChassis (em E) (lookup_of cd) (ccSerial_of cd) w
       = ((Some ch, None), w1) →
       fetchEach E (lookup_of cd) (bpb.ChassisDescriptor.ControlCards cd) w1
       = (fs, w2) →
       Forall clean fs →
       EntityManager.Sign (em E)
         (bpb.GetBootstrapDataResponse.mk
            (Some (bpb.BootstrapDataSigned.mk (map Fetch.data fs)
                     (bpb.GetBootstrapDataRequest.Nonce (pointee req)))) [] [] "")
         (lookup_of cd)
         (match bpb.GetBootstrapDataRequest.ControlCardState (pointee req) with
          | Some st => bpb.ControlCardState.SerialNumber st
          | None => ""
          end) w2
       = ((signed, serr), w3) →
       result (Service.GetBootstrapData E (Some req) s w)
       = Return (match serr with
                 | Some _ => (None, Some (StatusError codes.Internal
                                            "failed to sign bootz response"))
                 | None => (Some signed, None)
                 end)
       ∧ calls (Service.GetBootstrapData (traced E) (Some req) s (w, []))
         = CallResolveChassis (lookup_of cd) (ccSerial_of cd)
           :: fetches (lookup_of cd) (bpb.ChassisDescriptor.ControlCards cd)
           ++ [CallSign
                 (bpb.GetBootstrapDataResponse.mk
                    (Some (bpb.BootstrapDataSigned.mk (map Fetch.data fs)
                             (bpb.GetBootstrapDataRequest.Nonce (pointee req))))
                    [] [] "")
                 (lookup_of cd)
                 (match bpb.GetBootstrapDataRequest.ControlCardState (pointee req) with
                  | Some st => bpb.ControlCardState.SerialNumber st
                  | None => ""
                  end)]).
Proof.
  assert (Hsigned : ∀ resp lookup serial,
    CallSign resp lookup serial
    ∈ calls (Service.GetBootstrapData (traced E) (Some req) s (w, [])) →
    bpb.GetBootstrapDataRequest.Nonce (pointee req) ≠ ""
    ∧ ∃ cd ch w1,
        bpb.GetBootstrapDataRequest.ChassisDescriptor (pointee req) = Some cd
        ∧ bpb.ChassisDescriptor.ControlCards cd ≠ []
        ∧ EntityManager.ResolveChassis (em E) (lookup_of cd) (ccSerial_of cd) w
          = ((Some ch, None), w1)
        ∧ Forall clean
            (fst (fetchEach E (lookup_of cd)
                    (bpb.ChassisDescriptor.ControlCards cd) w1))).
  { intros resp lookup serial Hin.
    destruct (GetBootstrapData_calls E req s w)
      as [Hnone|(cd & Hcd & Hcards & [Hone|(ch & w1 & fs & w2 & Hres & Hfs & Hall)])].
    - rewrite Hnone in Hin. by apply elem_of_nil in Hin.
    - rewrite Hone in Hin. apply list_elem_of_singleton in Hin. discriminate.
    - rewrite Hall in Hin. apply elem_of_cons in Hin as [Hin|Hin]; [discriminate|].
      apply elem_of_app in Hin as [Hin|Hin].
      { apply elem_of_fetches in Hin as (v & Hv & _). discriminate. }
      destruct (existsb Fetch.stuck fs) eqn:Hstuck.
      { by apply elem_of_nil in Hin. }
      pose proof Hin as [Hnonce _]%elem_of_signing. split; [done|].
      exists cd, ch, w1. split_and!; [done..|].
      rewrite Hfs. cbn. apply clean_iff. split; [done|].
      apply errlist_Err_None. unfold signing in Hin.
      destruct (errlist.Err _); [by apply elem_of_nil in Hin|done]. }
  assert (Hrun : ∀ cd ch w1 fs w2,
    bpb.GetBootstrapDataRequest.Nonce (pointee req) ≠ "" →
    bpb.GetBootstrapDataRequest.ChassisDescriptor (pointee req) = Some cd →
    bpb.ChassisDescriptor.ControlCards cd ≠ [] →
    EntityManager.ResolveChassis (em E) (lookup_of cd) (ccSerial_of cd) w
    = ((Some ch, None), w1) →
    fetchEach E (lookup_of cd) (bpb.ChassisDescriptor.ControlCards cd) w1 = (fs, w2) →
    Forall clean fs →
    Service.GetBootstrapData E (Some req) s w
    = respond E req cd [] (map Fetch.data fs)
        (Service.set_activeBoots (logFetches req ch fs) (connect cd s)) w2
    ∧ calls (Service.GetBootstrapData (traced E) (Some req) s (w, []))
      = CallResolveChassis (lookup_of cd) (ccSerial_of cd)
        :: fetches (lookup_of cd) (bpb.ChassisDescriptor.ControlCards cd)
        ++ [CallSign
              (envelope (map Fetch.data fs)
                 (bpb.GetBootstrapDataRequest.Nonce (pointee req)))
              (lookup_of cd) (stateSerial req)]).
  { intros cd ch w1 fs w2 Hnonce Hcd Hcards Hres Hfs [Hstuck Herrs]%clean_iff.
    assert (Hpolicy : ¬ (ChassisEntity.BootMode ch = bpb.BootMode_BOOT_MODE_SECURE
                         ∧ bpb.GetBootstrapDataRequest.Nonce (pointee req) = ""))
      by (by intros [_ ?]).
    split.
    - rewrite (GetBootstrapData_fetches E req cd ch s w w1 fs w2) by done.
      by rewrite Hstuck, Herrs.
    - rewrite (GetBootstrapData_fetches_calls E req cd ch s w w1 fs w2) by done.
      rewrite Hstuck, Herrs. unfold signing. cbn.
      destruct (decide _); [contradiction|].
      pose proof (fetchEach_cards E (lookup_of cd)
                    (bpb.ChassisDescriptor.ControlCards cd) w1) as [_ Hall].
      rewrite Hfs in Hall. cbn in Hall. by rewrite (Hall Hstuck). }
  split_and!.
  - intros Hnonce. split.
    + intros resp lookup serial Hin. by apply Hsigned in Hin as [? _].
    + intros resp s' w' Hret. pose proof (GetBootstrapData_path E req s w) as P.
      rewrite Hret in P.
      inversion P as [ | | | | | | cd ch w1 fs w2 Hcd Hcards Hres Hpolicy Hfs Hstuck Hresp ].
      unfold respond in Hresp. destruct (errlist.Err _); [discriminate|].
      destruct (decide _); [|contradiction].
      by injection Hresp as <- _ _.
  - split.
    + intros (resp & lookup & serial & Hin). by eapply Hsigned.
    + intros (Hnonce & cd & ch & w1 & Hcd & Hcards & Hres & Hclean).
      destruct (fetchEach E (lookup_of cd) (bpb.ChassisDescriptor.ControlCards cd) w1)
        as [fs w2] eqn:Hfs.
      destruct (Hrun cd ch w1 fs w2) as [_ ->]; try done.
      eexists _, _, _. apply elem_of_cons. right. apply elem_of_app. right.
      by apply list_elem_of_singleton.
  - intros Hnonce cd ch w1 fs w2 signed serr w3 Hcd Hcards Hres Hfs Hclean Hsign.
    destruct (Hrun cd ch w1 fs w2) as [-> ->]; try done. split; [|done].
    unfold respond. cbn. destruct (decide _); [contradiction|].
    unfold envelope, stateSerial. rewrite Hsign. by destruct serr.
Qed.

Lemma GetBootstrapData_signs_iff_nonce_witness :
  let responses := [Some (Lab.bootdata "123A"); Some (Lab.bootdata "123B")] in
  let signed := bpb.GetBootstrapDataResponse.mk
                  (Some (bpb.BootstrapDataSigned.mk responses "N1"))
                  [] [] "c2lnbmF0dXJl" in
  (∀ resp lookup serial,
     CallSign resp lookup serial
     ∉ calls (Service.GetBootstrapData
                (traced (Lab.env bpb.BootMode_BOOT_MODE_INSECURE ["123A"; "123B"] true))
                (Some (Lab.request ["123A"; "123B"] "")) Service.New (1000%Z, [])))
  ∧ (result (Service.GetBootstrapData
               (Lab.env bpb.BootMode_BOOT_MODE_INSECURE ["123A"; "123B"] true)
               (Some (Lab.request ["123A"; "123B"] "N1")) Service.New 1000%Z)
     = Return (Some signed, None)
     ∧ calls (Service.GetBootstrapData
                (traced (Lab.env bpb.BootMode_BOOT_MODE_INSECURE ["123A"; "123B"] true))
                (Some (Lab.request ["123A"; "123B"] "N1")) Service.New (1000%Z, []))
       = [CallResolveChassis Lab.chassis123 "123A";
          CallGetBootstrapData Lab.chassis123 (Some (Lab.card "123A"));
          CallGetBootstrapData Lab.chassis123 (Some (Lab.card "123B"));
          CallSign (bpb.GetBootstrapDataResponse.mk
                      (Some (bpb.BootstrapDataSigned.mk responses "N1")) [] [] "")
                   Lab.chassis123 "123A"])
  ∧ result (Service.GetBootstrapData
              (Lab.env bpb.BootMode_BOOT_MODE_INSECURE ["123A"; "123B"] false)
              (Some (Lab.request ["123A"; "123B"] "N1")) Service.New 1000%Z)
    = Return (None, Some (StatusError codes.Internal "failed to sign bootz response")).
Proof.
  intros responses signed. split; [|split].
  - apply (GetBootstrapData_signs_iff_nonce
             (Lab.env bpb.BootMode_BOOT_MODE_INSECURE ["123A"; "123B"] true)
             (Lab.request ["123A"; "123B"] "") Service.New 1000%Z).
    reflexivity.
  - refine (proj2 (proj2 (GetBootstrapData_signs_iff_nonce
             (Lab.env bpb.BootMode_BOOT_MODE_INSECURE ["123A"; "123B"] true)
             (Lab.request ["123A"; "123B"] "N1") Service.New 1000%Z)) _
             (bpb.ChassisDescriptor.mk "Cisco" "123" (Lab.cards ["123A"; "123B"]))
             (ChassisEntity.mk bpb.BootMode_BOOT_MODE_INSECURE) 1000%Z
             [Fetch.mk (Some (Lab.card "123A")) 1000 (Some (Lab.bootdata "123A")) None;
              Fetch.mk (Some (Lab.card "123B")) 1001 (Some (Lab.bootdata "123B")) None]
             1002%Z signed None 1002%Z _ _ _ _ _ _);
      [discriminate|reflexivity|discriminate|reflexivity|reflexivity| |reflexivity].
    repeat constructor.
  - refine (proj1 (proj2 (proj2 (GetBootstrapData_signs_iff_nonce
             (Lab.env bpb.BootMode_BOOT_MODE_INSECURE ["123A"; "123B"] false)
             (Lab.request ["123A"; "123B"] "N1") Service.New 1000%Z)) _
             (bpb.ChassisDescriptor.mk "Cisco" "123" (Lab.cards ["123A"; "123B"]))
             (ChassisEntity.mk bpb.BootMode_BOOT_MODE_INSECURE) 1000%Z
             [Fetch.mk (Some (Lab.card "123A")) 1000 (Some (Lab.bootdata "123A")) None;
              Fetch.mk (Some (Lab.card "123B")) 1001 (Some (Lab.bootdata "123B")) None]
             1002%Z
             (bpb.GetBootstrapDataResponse.mk
                (Some (bpb.BootstrapDataSigned.mk responses "N1")) [] [] "")
             (Some (StatusError codes.NotFound "no ownership voucher")) 1002%Z
             _ _ _ _ _ _));
      [discriminate|reflexivity|discriminate|reflexivity|reflexivity| |reflexivity].
    repeat constructor.
Defined.

(** Two control cards of one serial, the first of which the inventory does
    not have: there is one boot log for the two, that of the second, and the
    error of the first is in no boot log. *)
Lemma no_fail_fast_same_serial :
  let run := Service.GetBootstrapData (Lab.envOf (Lab.byPart ["P2"])) (Some twins)
               Service.New 1000%Z in
  result run = Return (None, Some (ErrorList [Lab.notInInventory]))
  ∧ Service.activeBoots (ledger run)
    = {["123A" := bootLog.mk bpb.BootMode_BOOT_MODE_INSECURE 1001 0 []
                    bpb.ControlCardState_CONTROL_CARD_STATUS_UNSPECIFIED
                    (Some (Lab.bootdata "123A")) (Some twins) None]}.
Proof. split; vm_compute; reflexivity. Qed.

(** C2, amended. A request names two control cards, of different serials, on
    a chassis that resolves and passes the boot-mode check; the fetch succeeds
    for one card and fails for the other, in either order, with an error that
    is not an aggregate of no error.  Then both cards have been fetched and
    both have a boot log in [activeBoots]: it has the boot mode of the
    chassis, the time at which the card was taken up, the request, what the
    fetch returned as response, and the error of the fetch if it failed.  The
    call returns no response and the aggregate of the one error: of the errors
    it holds if it is an aggregate itself. *)
Theorem GetBootstrapData_no_fail_fast {W} (E : Env W)
    (req : ptr bpb.GetBootstrapDataRequest.t) (cd : bpb.ChassisDescriptor.t)
    (c1 c2 : bpb.ControlCard.t) (ch : ChassisEntity.t) (s : Service.t)
    (w w1 w2 w3 w4 w5 : W) (t1 t2 : Z)
    (r1 r2 : option bpb.BootstrapDataResponse.t) (e1 e2 : option error) (e : error) :
  bpb.GetBootstrapDataRequest.ChassisDescriptor (pointee req) = Some cd →
  bpb.ChassisDescriptor.ControlCards cd = [Some c1; Some c2] →
  bpb.ControlCard.SerialNumber c1 ≠ bpb.ControlCard.SerialNumber c2 →
  EntityManager.ResolveChassis (em E) (lookup_of cd) (bpb.ControlCard.SerialNumber c1) w
  = ((Some ch, None), w1) →
  ¬ (ChassisEntity.BootMode ch = bpb.BootMode_BOOT_MODE_SECURE
     ∧ bpb.GetBootstrapDataRequest.Nonce (pointee req) = "") →
  UnixMilli E w1 = (t1, w2) →
  EntityManager.GetBootstrapData (em E) (lookup_of cd) (Some c1) w2 = ((r1, e1), w3) →
  UnixMilli E w3 = (t2, w4) →
  EntityManager.GetBootstrapData (em E) (lookup_of cd) (Some c2) w4 = ((r2, e2), w5) →
  (e1 = None ∧ e2 = Some e) ∨ (e1 = Some e ∧ e2 = None) →
  e ≠ ErrorList [] →
  ∃ s',
    Service.GetBootstrapData E (Some req) s w
    = (Return (None, Some (ErrorList (match e with
                                      | ErrorList es => es
                                      | _ => [e]
                                      end))), s', w5)
    ∧ Service.activeBoots s' !! bpb.ControlCard.SerialNumber c1
      = Some (bootLog.mk (ChassisEntity.BootMode ch) (uint64 t1) 0 []
                bpb.ControlCardState_CONTROL_CARD_STATUS_UNSPECIFIED r1 (Some req) e1)
    ∧ Service.activeBoots s' !! bpb.ControlCard.SerialNumber c2
      = Some (bootLog.mk (ChassisEntity.BootMode ch) (uint64 t2) 0 []
                bpb.ControlCardState_CONTROL_CARD_STATUS_UNSPECIFIED r2 (Some req) e2).
Proof.
  intros Hcd Hcards Hne Hres Hpolicy Ht1 Hf1 Ht2 Hf2 Hone Hheld.
  assert (Hfs : fetchEach E (lookup_of cd) (bpb.ChassisDescriptor.ControlCards cd) w1
                = ([Fetch.mk (Some c1) t1 r1 e1; Fetch.mk (Some c2) t2 r2 e2], w5)).
  { rewrite Hcards. cbn. rewrite Ht1, Hf1. cbn. by rewrite Ht2, Hf2. }
  assert (Hcs : bpb.ChassisDescriptor.ControlCards cd ≠ []) by (by rewrite Hcards).
  assert (Hres' : EntityManager.ResolveChassis (em E) (lookup_of cd) (ccSerial_of cd) w
                  = ((Some ch, None), w1)).
  { unfold ccSerial_of. by rewrite Hcards. }
  rewrite (GetBootstrapData_fetches E req cd ch s w w1 _ w5 Hcd Hcs Hres' Hpolicy Hfs).
  cbn [existsb Fetch.stuck Fetch.card orb].
  eexists. split_and!.
  - unfold respond. rewrite collectErrors_held.
    assert (Herrs : errlist.zero
                    ++ concat (map held (omap Fetch.failure
                         [Fetch.mk (Some c1) t1 r1 e1; Fetch.mk (Some c2) t2 r2 e2]))
                    = match e with ErrorList es => es | _ => [e] end).
    { destruct Hone as [[-> ->]|[-> ->]]; cbn; by rewrite app_nil_r. }
    rewrite Herrs, errlist_Err_Some; [reflexivity|].
    destruct e as [| |[|e0 es]]; done.
  - cbn. unfold bootOf, Fetch.serial, cardSerial, Fetch.stuck. cbn.
    rewrite lookup_insert_ne by done. by rewrite lookup_insert_eq.
  - cbn. unfold bootOf, Fetch.serial, cardSerial, Fetch.stuck. cbn.
    by rewrite lookup_insert_eq.
Qed.

Lemma GetBootstrapData_no_fail_fast_witness :
  ∃ s',
    Service.GetBootstrapData
      (Lab.env bpb.BootMode_BOOT_MODE_INSECURE ["123A"] true)
      (Some (Lab.request ["123A"; "123B"] "")) Service.New 1000%Z
    = (Return (None, Some (ErrorList [StatusError codes.NotFound
                                        "control card not in inventory"])),
       s', 1002%Z)
    ∧ Service.activeBoots s' !! "123A"
      = Some (bootLog.mk bpb.BootMode_BOOT_MODE_INSECURE (uint64 1000) 0 []
                bpb.ControlCardState_CONTROL_CARD_STATUS_UNSPECIFIED
                (Some (Lab.bootdata "123A"))
                (Some (Lab.request ["123A"; "123B"] "")) None)
    ∧ Service.activeBoots s' !! "123B"
      = Some (bootLog.mk bpb.BootMode_BOOT_MODE_INSECURE (uint64 1001) 0 []
                bpb.ControlCardState_CONTROL_CARD_STATUS_UNSPECIFIED
                None (Some (Lab.request ["123A"; "123B"] ""))
                (Some (StatusError codes.NotFound "control card not in inventory"))).
Proof.
  apply (GetBootstrapData_no_fail_fast
           (Lab.env bpb.BootMode_BOOT_MODE_INSECURE ["123A"] true)
           (Lab.request ["123A"; "123B"] "")
           (bpb.ChassisDescriptor.mk "Cisco" "123" (Lab.cards ["123A"; "123B"]))
           (Lab.card "123A") (Lab.card "123B")
           (ChassisEntity.mk bpb.BootMode_BOOT_MODE_INSECURE) Service.New
           1000%Z 1000%Z 1001%Z 1001%Z 1002%Z 1002%Z 1000%Z 1001%Z
           (Some (Lab.bootdata "123A")) None None
           (Some (StatusError codes.NotFound "control card not in inventory"))
           (StatusError codes.NotFound "control card not in inventory"));
    try reflexivity.
  - discriminate.
  - intros [? _]. discriminate.
  - left. split; reflexivity.
  - discriminate.
Defined.

(** C1. The contract of [ReportStatus] is the inverse of the usual one.  When
    [SetStatus] returns no error, [ReportStatus] returns no response and, as
    its error, what [SetStatus] returned; the ledger is as it was.  When
    [SetStatus] returns an error, every reported state is there and its card
    has a boot log, [ReportStatus] returns the empty response and no error,
    and each reported status, in the order of the report, has been appended to
    the history of the boot log of its card and made its last status, the end
    timestamp of that boot log being set when, and only when, the status is
    INITIALIZED: the boot logs are those of [applyStates], and for each card
    the history has grown by the statuses reported for it, the last status is
    the last of them, the end timestamp is a reading of the clock if
    INITIALIZED is among them and what it was if not, and nothing else in the
    boot log differs. *)
Theorem ReportStatus_inverted_contract {W} (E : Env W)
    (req : option bpb.ReportStatusRequest.t) (s : Service.t) (w w1 : W)
    (err : option error) :
  EntityManager.SetStatus (em E) req w = (err, w1) →
  (err = None →
   Service.ReportStatus E req s w = (Return (None, err), s, w1))
  ∧ (is_Some err →
     ∀ sts,
       statesOf req = map Some sts →
       Forall (logged (Service.activeBoots s)) sts →
       ∃ s' w',
         Service.ReportStatus E req s w
         = (Return (Some bpb.EmptyResponse.mk, None), s', w')
         ∧ (Service.activeBoots s', w') = applyStates E sts (Service.activeBoots s) w1
         ∧ Service.connectedChassis s' = Service.connectedChassis s
         ∧ Service.failedRequest s' = Service.failedRequest s
         ∧ ∀ k b,
             Service.activeBoots s !! k = Some b →
             ∃ b',
               Service.activeBoots s' !! k = Some b'
               ∧ bootLog.Status b' = bootLog.Status b ++ reported k sts
               ∧ bootLog.LastStatus b'
                 = List.last (reported k sts) (bootLog.LastStatus b)
               ∧ (bpb.ControlCardState_CONTROL_CARD_STATUS_INITIALIZED
                  ∉ reported k sts →
                  bootLog.EndTimeStamp b' = bootLog.EndTimeStamp b)
               ∧ (bpb.ControlCardState_CONTROL_CARD_STATUS_INITIALIZED
                  ∈ reported k sts →
                  ∃ w0, bootLog.EndTimeStamp b' = uint64 (fst (UnixMilli E w0)))
               ∧ same_boot b b').
Proof.
  intros Hset. unfold Service.ReportStatus. unfold_M. rewrite Hset. split.
  - by intros ->.
  - intros [e ->] sts Hstates Hall.
    change (bpb.ReportStatusRequest.GetStates req) with (statesOf req).
    rewrite Hstates, reportLoop_all_logged by done. eexists _, _. split_and!.
    + reflexivity.
    + cbn. by destruct (applyStates E _ _ w1).
    + done.
    + done.
    + intros k b Hb. cbn. by apply applyStates_lookup.
Qed.

Lemma ReportStatus_inverted_contract_witness :
  let E := Lab.env bpb.BootMode_BOOT_MODE_INSECURE ["123A"] true in
  let initialized := bpb.ControlCardState_CONTROL_CARD_STATUS_INITIALIZED in
  Service.ReportStatus E (Lab.report "123A" initialized) ledger_123A_123C 2000%Z
  = (Return (None, None), ledger_123A_123C, 2000%Z)
  ∧ ∃ s' w',
      Service.ReportStatus E (Lab.report "123C" initialized) ledger_123A_123C 2000%Z
      = (Return (Some bpb.EmptyResponse.mk, None), s', w')
      ∧ (Service.activeBoots s', w')
        = applyStates E [bpb.ControlCardState.mk "123C" initialized]
            (Service.activeBoots ledger_123A_123C) 2000%Z.
Proof.
  intros E initialized. split.
  - apply (proj1 (ReportStatus_inverted_contract E (Lab.report "123A" initialized)
                    ledger_123A_123C 2000%Z 2000%Z None eq_refl)).
    reflexivity.
  - destruct (proj2 (ReportStatus_inverted_contract E (Lab.report "123C" initialized)
                       ledger_123A_123C 2000%Z 2000%Z
                       (Some (StatusError codes.NotFound "control card not in inventory"))
                       eq_refl))
      with (sts := [bpb.ControlCardState.mk "123C" initialized])
      as (s' & w' & Hrun & Hboots & _).
    + eauto.
    + reflexivity.
    + constructor; [|constructor]. vm_compute. eauto.
    + exists s', w'. split; assumption.
Defined.

(** The scenario of the specification, on that ledger: once card 123C has
    reported INITIALIZED at time 2000, its boot log has that last status, that
    one status in its history, and the end timestamp 2000. *)
Example report_initialized :
  let E := Lab.env bpb.BootMode_BOOT_MODE_INSECURE ["123A"] true in
  let run := Service.ReportStatus E
               (Lab.report "123C" bpb.ControlCardState_CONTROL_CARD_STATUS_INITIALIZED)
               ledger_123A_123C 2000%Z in
  result run = Return (Some bpb.EmptyResponse.mk, None)
  ∧ Service.GetBootStatus (ledger run) "123C"
    = (bootLog.mk bpb.BootMode_BOOT_MODE_INSECURE 1001 2000
         [bpb.ControlCardState_CONTROL_CARD_STATUS_INITIALIZED]
         bpb.ControlCardState_CONTROL_CARD_STATUS_INITIALIZED
         None (Some (Lab.request ["123A"; "123C"] ""))
         (Some (StatusError codes.NotFound "control card not in inventory")),
       None).
Proof. split; vm_compute; reflexivity. Qed.

(** C7. When [SetStatus] returns an error, [ReportStatus] panics if and only
    if some reported state is nil or names a card without boot log in
    [activeBoots]: the loop writes through the pointer the map gives without
    looking at it, so it is safe only when every reported serial has a boot
    log.  It panics at the first state under whose serial there is no boot
    log, the states before it applied. *)
Theorem ReportStatus_nil_boot_log {W} (E : Env W)
    (req : option bpb.ReportStatusRequest.t) (s : Service.t) (w w1 : W) (e : error) :
  EntityManager.SetStatus (em E) req w = (Some e, w1) →
  (result (Service.ReportStatus E req s w) = Panic
   ↔ Exists (λ stat, match stat with
                     | Some st =>
                         Service.activeBoots s !! bpb.ControlCardState.SerialNumber st
                         = None
                     | None => True
                     end)
            (statesOf req))
  ∧ (∀ pre stat post,
       statesOf req = map Some pre ++ stat :: post →
       Forall (logged (Service.activeBoots s)) pre →
       Service.activeBoots s !! names stat = None →
       Service.ReportStatus E req s w
       = (Panic,
          Service.set_activeBoots (λ boots, fst (applyStates E pre boots w1)) s,
          snd (applyStates E pre (Service.activeBoots s) w1))).
Proof.
  intros Hset. split.
  - transitivity (result (Service.reportLoop E (statesOf req) s w1) = Panic).
    { unfold Service.ReportStatus. unfold_M. rewrite Hset.
      change (bpb.ReportStatusRequest.GetStates req) with (statesOf req).
      by destruct (Service.reportLoop E _ s w1) as [[[[]|] s'] w']. }
    rewrite reportLoop_panics_iff, !Exists_exists.
    split; intros (x & Hx & Hbad); exists x; (split; [done|]);
      destruct x as [st|]; cbn in *.
    + by destruct Hbad.
    + done.
    + by right.
    + by left.
  - intros pre stat post Hstates Hpre Hstat.
    unfold Service.ReportStatus. unfold_M. rewrite Hset.
    change (bpb.ReportStatusRequest.GetStates req) with (statesOf req).
    rewrite Hstates. by rewrite reportLoop_first_missing.
Qed.

Lemma ReportStatus_nil_boot_log_witness :
  result (Service.ReportStatus
            (Lab.env bpb.BootMode_BOOT_MODE_INSECURE ["123A"] true)
            (Lab.report "123C" bpb.ControlCardState_CONTROL_CARD_STATUS_INITIALIZED)
            Service.New 2000%Z)
  = Panic.
Proof.
  apply (proj1 (ReportStatus_nil_boot_log
                  (Lab.env bpb.BootMode_BOOT_MODE_INSECURE ["123A"] true)
                  (Lab.report "123C" bpb.ControlCardState_CONTROL_CARD_STATUS_INITIALIZED)
                  Service.New 2000%Z 2000%Z
                  (StatusError codes.NotFound "control card not in inventory")
                  eq_refl)).
  apply Exists_cons_hd. reflexivity.
Defined.

(** * More of the service *)

(** ** The boot logs of the fetches *)

Lemma fetchEach_serials {W} (E : Env W) lookup cards w k :
  k ∈ map Fetch.serial (fst (fetchEach E lookup cards w)) → k ∈ map cardSerial cards.
Proof.
  destruct (fetchEach_cards E lookup cards w) as [[post Hcards] _].
  intros (f & -> & Hf)%list_elem_of_fmap. rewrite Hcards, map_app.
  apply elem_of_app. left. apply list_elem_of_fmap. exists (Fetch.card f).
  split; [done|]. apply list_elem_of_fmap. eauto.
Qed.

Lemma logFetches_app req ch pre post boots :
  logFetches req ch (pre ++ post) boots
  = logFetches req ch post (logFetches req ch pre boots).
Proof. unfold logFetches. apply foldl_app. Qed.

(** A serial none of the fetches is for keeps what it had. *)
Lemma logFetches_lookup_other req ch fs boots k :
  k ∉ map Fetch.serial fs → logFetches req ch fs boots !! k = boots !! k.
Proof.
  revert boots. induction fs as [|f fs IH]; intros boots Hk; [done|].
  cbn in Hk. apply not_elem_of_cons in Hk as [Hne Hk].
  change (logFetches req ch (f :: fs) boots)
    with (logFetches req ch fs (<[Fetch.serial f := bootOf req ch f]> boots)).
  rewrite IH by done. by rewrite lookup_insert_ne.
Qed.

(** A serial has the boot log of the last fetch that is for it. *)
Lemma logFetches_lookup_last req ch pre f post boots :
  Fetch.serial f ∉ map Fetch.serial post →
  logFetches req ch (pre ++ f :: post) boots !! Fetch.serial f
  = Some (bootOf req ch f).
Proof.
  intros Hpost. rewrite logFetches_app.
  change (logFetches req ch (f :: post) ?m)
    with (logFetches req ch post (<[Fetch.serial f := bootOf req ch f]> m)).
  rewrite logFetches_lookup_other by done. apply lookup_insert_eq.
Qed.

(** The last fetch for a serial that some fetch is for. *)
Lemma last_fetch_for (fs : list Fetch.t) (k : string) :
  k ∈ map Fetch.serial fs →
  ∃ pre f post, fs = pre ++ f :: post
                ∧ Fetch.serial f = k
                ∧ k ∉ map Fetch.serial post.
Proof.
  induction fs as [|g fs IH]; intros Hin; [by apply elem_of_nil in Hin|].
  destruct (decide (k ∈ map Fetch.serial fs)) as [Hlater|Hlater].
  - destruct (IH Hlater) as (pre & f & post & -> & Hser & Hpost).
    by exists (g :: pre), f, post.
  - cbn in Hin. apply elem_of_cons in Hin as [->|Hin]; [|contradiction].
    by exists [], g, fs.
Qed.

Lemma logFetches_is_Some req ch fs boots k :
  is_Some (boots !! k) → is_Some (logFetches req ch fs boots !! k).
Proof.
  revert boots. induction fs as [|f fs IH]; intros boots Hk; [done|].
  change (logFetches req ch (f :: fs) boots)
    with (logFetches req ch fs (<[Fetch.serial f := bootOf req ch f]> boots)).
  apply IH. rewrite lookup_insert_is_Some.
  destruct (decide (Fetch.serial f = k)); [by left|by right].
Qed.

(** The ledger a run leaves: the one it found; or that with the error of the
    request recorded; or that with the chassis connected; or that with the
    chassis connected and the boot logs of the fetches stored. *)
Lemma GetBootstrapData_ledger {W} (E : Env W) req s w :
  ledger (Service.GetBootstrapData E (Some req) s w) = s
  ∨ (∃ e, ledger (Service.GetBootstrapData E (Some req) s w)
          = Service.set_failedRequest (<[addr req := e]>) s)
  ∨ ∃ cd,
      bpb.GetBootstrapDataRequest.ChassisDescriptor (pointee req) = Some cd
      ∧ (ledger (Service.GetBootstrapData E (Some req) s w) = connect cd s
         ∨ ∃ ch w1,
             ledger (Service.GetBootstrapData E (Some req) s w)
             = Service.set_activeBoots
                 (logFetches req ch
                    (fst (fetchEach E (lookup_of cd)
                            (bpb.ChassisDescriptor.ControlCards cd) w1)))
                 (connect cd s)).
Proof.
  destruct (GetBootstrapData_path E req s w)
    as [ Hcd | cd Hcd Hcards | cd ch err w1 Hcd Hcards Hres
       | cd w1 Hcd Hcards Hres
       | cd ch w1 Hcd Hcards Hres Hmode Hnonce
       | cd ch w1 fs w2 Hcd Hcards Hres Hpolicy Hfs Hstuck
       | cd ch w1 fs w2 Hcd Hcards Hres Hpolicy Hfs Hstuck ].
  - by left.
  - right; left. by eexists.
  - right; left. by eexists.
  - right; right. exists cd. split; [done|]. by left.
  - right; right. exists cd. split; [done|]. by left.
  - right; right. exists cd. split; [done|]. right. exists ch, w1. by rewrite Hfs.
  - right; right. exists cd. split; [done|]. right. exists ch, w1.
    rewrite Hfs. apply respond_ledger.
Qed.



(** X2. A request whose chassis does not resolve fails with InvalidArgument,
    whether or not a chassis came with the error: the error is recorded for
    the request in the failed-request ledger, the chassis is not marked
    connected, the active boots are what they were, and the resolution is the
    only call the entity manager has received. *)
Theorem GetBootstrapData_unresolved_frame {W} (E : Env W)
    (req : ptr bpb.GetBootstrapDataRequest.t) (cd : bpb.ChassisDescriptor.t)
    (ch : option ChassisEntity.t) (err : error) (s : Service.t) (w w1 : W) :
  bpb.GetBootstrapDataRequest.ChassisDescriptor (pointee req) = Some cd →
  bpb.ChassisDescriptor.ControlCards cd ≠ [] →
  EntityManager.ResolveChassis (em E) (lookup_of cd) (ccSerial_of cd) w
  = ((ch, Some err), w1) →
  ∃ e s',
    Service.GetBootstrapData E (Some req) s w = (Return (None, Some e), s', w1)
    ∧ status.Code e = codes.InvalidArgument
    ∧ Service.failedRequest s' = <[addr req := e]> (Service.failedRequest s)
    ∧ Service.connectedChassis s' = Service.connectedChassis s
    ∧ Service.activeBoots s' = Service.activeBoots s
    ∧ calls (Service.GetBootstrapData (traced E) (Some req) s (w, []))
      = [CallResolveChassis (lookup_of cd) (ccSerial_of cd)].
Proof.
  intros Hcd Hcards Hres.
  eexists _, _. split_and!.
  - by eapply GetBootstrapData_unresolved.
  - done.
  - done.
  - done.
  - done.
  - rewrite (GetBootstrapData_unresolved (traced E) req cd ch err s _ _
               Hcd Hcards (traced_ResolveChassis E _ _ _ [] _ _ Hres)).
    reflexivity.
Qed.

Lemma GetBootstrapData_unresolved_frame_witness :
  let E := Lab.env bpb.BootMode_BOOT_MODE_INSECURE ["123A"] true in
  let req := Ptr 7%positive
               (bpb.GetBootstrapDataRequest.mk
                  (Some (bpb.ChassisDescriptor.mk "Cisco" "999" (Lab.cards ["123A"])))
                  None "") in
  ∃ e s',
    Service.GetBootstrapData E (Some req) Service.New 1000%Z
    = (Return (None, Some e), s', 1000%Z)
    ∧ status.Code e = codes.InvalidArgument
    ∧ Service.failedRequest s' = <[7%positive := e]> (Service.failedRequest Service.New)
    ∧ Service.connectedChassis s' = Service.connectedChassis Service.New
    ∧ Service.activeBoots s' = Service.activeBoots Service.New
    ∧ calls (Service.GetBootstrapData (traced E) (Some req) Service.New (1000%Z, []))
      = [CallResolveChassis (EntityLookup.mk "Cisco" "999") "123A"].
Proof.
  intros E req.
  apply (GetBootstrapData_unresolved_frame E req
           (bpb.ChassisDescriptor.mk "Cisco" "999" (Lab.cards ["123A"])) None
           (StatusError codes.NotFound "chassis not in inventory")
           Service.New 1000%Z 1000%Z); [reflexivity|discriminate|reflexivity].
Defined.

(** X3. [GetBootstrapData], of a service that [New] made and on an entity
    manager whose methods return, panics in four cases and no other: the
    request is nil; the request has no chassis descriptor; the descriptor
    lists a control card and [ResolveChassis] returns a nil chassis with a nil
    error; or, the chassis resolved and past the boot-mode check, the fetch
    for a nil element of the control cards returns an error, of which line 155
    then reads the serial through the nil element. *)
Theorem GetBootstrapData_panics_iff {W} (E : Env W)
    (req : option (ptr bpb.GetBootstrapDataRequest.t)) (s : Service.t) (w : W) :
  result (Service.GetBootstrapData E req s w) = Panic
  ↔ req = None
    ∨ ∃ r,
        req = Some r
        ∧ (bpb.GetBootstrapDataRequest.ChassisDescriptor (pointee r) = None
           ∨ ∃ cd w1,
               bpb.GetBootstrapDataRequest.ChassisDescriptor (pointee r) = Some cd
               ∧ bpb.ChassisDescriptor.ControlCards cd ≠ []
               ∧ (EntityManager.ResolveChassis (em E) (lookup_of cd) (ccSerial_of cd) w
                  = ((None, None), w1)
                  ∨ ∃ ch f,
                      EntityManager.ResolveChassis (em E) (lookup_of cd)
                        (ccSerial_of cd) w = ((Some ch, None), w1)
                      ∧ ¬ (ChassisEntity.BootMode ch = bpb.BootMode_BOOT_MODE_SECURE
                           ∧ bpb.GetBootstrapDataRequest.Nonce (pointee r) = "")
                      ∧ f ∈ fst (fetchEach E (lookup_of cd)
                                   (bpb.ChassisDescriptor.ControlCards cd) w1)
                      ∧ Fetch.card f = None
                      ∧ is_Some (Fetch.failure f))).
Proof.
  destruct req as [r|]; [|by split; [left|]].
  split.
  - intros Hpanic. right. exists r. split; [done|].
    destruct (GetBootstrapData_path E r s w)
      as [ Hcd | cd Hcd Hcards | cd ch err w1 Hcd Hcards Hres
         | cd w1 Hcd Hcards Hres
         | cd ch w1 Hcd Hcards Hres Hmode Hnonce
         | cd ch w1 fs w2 Hcd Hcards Hres Hpolicy Hfs Hstuck
         | cd ch w1 fs w2 Hcd Hcards Hres Hpolicy Hfs Hstuck ];
      try discriminate.
    + by left.
    + right. exists cd, w1. split_and!; [done..|]. by left.
    + right. exists cd, w1. split_and!; [done..|]. right.
      apply existsb_exists in Hstuck as (f & Hf & [Hcard Hfail]%stuck_iff).
      exists ch, f. split_and!; try done. rewrite Hfs. by apply list_elem_of_In.
    + by apply respond_returns in Hpanic.
  - intros [?|(r' & [= <-] & [Hcd|(cd & w1 & Hcd & Hcards & Hcase)])]; [done| |].
    + by rewrite GetBootstrapData_nil_descriptor.
    + destruct Hcase as [Hres|(ch & f & Hres & Hpolicy & Hf & Hcard & Hfail)].
      * by erewrite GetBootstrapData_nil_chassis.
      * destruct (fetchEach E (lookup_of cd) (bpb.ChassisDescriptor.ControlCards cd) w1)
          as [fs w2] eqn:Hfs.
        rewrite (GetBootstrapData_fetches E r cd ch s w w1 fs w2) by done.
        assert (Hstuck : existsb Fetch.stuck fs = true).
        { apply existsb_exists. exists f. split; [by apply list_elem_of_In|].
          by apply stuck_iff. }
        by rewrite Hstuck.
Qed.

Lemma GetBootstrapData_panics_iff_witness :
  result (Service.GetBootstrapData (Lab.envOf (Lab.byPart ["P2"]))
            (Some (Lab.requestFor [Some (bpb.ControlCard.mk "123A" "P2"); None;
                                   Some (bpb.ControlCard.mk "123B" "P2")] ""))
            Service.New 1000%Z)
  = Panic.
Proof.
  apply (proj2 (GetBootstrapData_panics_iff (Lab.envOf (Lab.byPart ["P2"]))
                  (Some (Lab.requestFor [Some (bpb.ControlCard.mk "123A" "P2"); None;
                                         Some (bpb.ControlCard.mk "123B" "P2")] ""))
                  Service.New 1000%Z)).
  right. eexists. split; [reflexivity|]. right.
  exists (bpb.ChassisDescriptor.mk "Cisco" "123"
            [Some (bpb.ControlCard.mk "123A" "P2"); None;
             Some (bpb.ControlCard.mk "123B" "P2")]), 1000%Z.
  split_and!; [reflexivity|discriminate|]. right.
  exists (ChassisEntity.mk bpb.BootMode_BOOT_MODE_INSECURE),
    (Fetch.mk None 1001 None (Some Lab.notInInventory)).
  split_and!; [reflexivity|by intros [? _]| |reflexivity|by eexists].
  cbn. apply elem_of_cons. right. apply elem_of_cons. by left.
Defined.

(** The run of that request: the first card has been fetched and has its
    boot log, the nil element has been fetched and the log under the empty
    serial has the error of the fetch and no data, and the third card has not
    been fetched. *)
Example nil_card_run :
  let req := Lab.requestFor [Some (bpb.ControlCard.mk "123A" "P2"); None;
                             Some (bpb.ControlCard.mk "123B" "P2")] "" in
  let run := Service.GetBootstrapData (traced (Lab.envOf (Lab.byPart ["P2"])))
               (Some req) Service.New (1000%Z, []) in
  result run = Panic
  ∧ calls run = [CallResolveChassis Lab.chassis123 "123A";
                 CallGetBootstrapData Lab.chassis123
                   (Some (bpb.ControlCard.mk "123A" "P2"));
                 CallGetBootstrapData Lab.chassis123 None]
  ∧ Service.activeBoots (ledger run) !! ""
    = Some (bootLog.mk bpb.BootMode_BOOT_MODE_INSECURE 1001 0 []
              bpb.ControlCardState_CONTROL_CARD_STATUS_UNSPECIFIED
              None (Some req) (Some Lab.notInInventory))
  ∧ Service.activeBoots (ledger run) !! "123B" = None.
Proof. split_and!; vm_compute; reflexivity. Qed.

(** X4. Whatever happens in a call of [GetBootstrapData], also when it fails
    or panics, the ledger only grows.  A chassis that was connected is
    connected, and the only chassis that may have become connected is that of
    the descriptor.  A serial that had a boot log has one, and the boot log of
    a serial that is not the serial of a control card of the request is what
    it was.  The failed requests recorded for other request pointers are what
    they were. *)
Theorem GetBootstrapData_ledger_grows {W} (E : Env W)
    (req : ptr bpb.GetBootstrapDataRequest.t) (s : Service.t) (w : W) :
  (∀ lookup, Service.IsChassisConnected s lookup = true →
             Service.IsChassisConnected
               (ledger (Service.GetBootstrapData E (Some req) s w)) lookup = true)
  ∧ (∀ lookup,
       Service.IsChassisConnected
         (ledger (Service.GetBootstrapData E (Some req) s w)) lookup = true →
       Service.IsChassisConnected s lookup = true
       ∨ ∃ cd, bpb.GetBootstrapDataRequest.ChassisDescriptor (pointee req) = Some cd
               ∧ lookup = lookup_of cd)
  ∧ (∀ serial, is_Some (Service.activeBoots s !! serial) →
               is_Some (Service.activeBoots
                          (ledger (Service.GetBootstrapData E (Some req) s w))
                        !! serial))
  ∧ (∀ serial,
       (∀ cd, bpb.GetBootstrapDataRequest.ChassisDescriptor (pointee req) = Some cd →
              serial ∉ map cardSerial (bpb.ChassisDescriptor.ControlCards cd)) →
       Service.activeBoots (ledger (Service.GetBootstrapData E (Some req) s w)) !! serial
       = Service.activeBoots s !! serial)
  ∧ (∀ a, a ≠ addr req →
          Service.failedRequest (ledger (Service.GetBootstrapData E (Some req) s w)) !! a
          = Service.failedRequest s !! a).
Proof.
  assert (Hconn : ∀ cd lookup,
            Service.IsChassisConnected s lookup = true →
            Service.IsChassisConnected (connect cd s) lookup = true).
  { intros cd lookup. unfold Service.IsChassisConnected, connect. cbn.
    destruct (decide (lookup_of cd = lookup)) as [->|Hne].
    - by rewrite lookup_insert_eq.
    - by rewrite lookup_insert_ne. }
  assert (Hconn' : ∀ cd lookup,
            Service.IsChassisConnected (connect cd s) lookup = true →
            Service.IsChassisConnected s lookup = true ∨ lookup = lookup_of cd).
  { intros cd lookup. unfold Service.IsChassisConnected, connect. cbn.
    destruct (decide (lookup_of cd = lookup)) as [->|Hne].
    - by right.
    - rewrite lookup_insert_ne by done. by left. }
  destruct (GetBootstrapData_ledger E req s w)
    as [->|[[e ->]|(cd & Hcd & [->|(ch & w1 & ->)])]].
  - split_and!; try done. intros lookup Hl. by left.
  - split_and!; try done.
    + intros lookup Hl. by left.
    + intros a Ha. cbn. by rewrite lookup_insert_ne.
  - split_and!; try done.
    + apply Hconn.
    + intros lookup Hl. apply Hconn' in Hl as [Hl|Hl]; [by left|right; eauto].
  - split_and!; try done.
    + apply Hconn.
    + intros lookup Hl. apply Hconn' in Hl as [Hl|Hl]; [by left|right; eauto].
    + intros serial Hs. cbn. by apply logFetches_is_Some.
    + intros serial Hs. cbn. apply logFetches_lookup_other.
      intros Hin%fetchEach_serials. by apply (Hs cd).
Qed.

(** X5. From [GetBootstrapData] to [GetBootStatus].  Once the chassis of a
    request has resolved and passed the boot-mode check, and unless the loop
    over the control cards panics at a fetch, every element of the control
    cards of the request has a boot log under its serial, whether its fetch,
    the fetch of another card or the signing failed or not: [GetBootStatus]
    returns without error a boot log with the boot mode of the chassis, the
    request, a start timestamp that fits 64 bits, no status history, the
    unspecified last status and no end timestamp. *)
Theorem GetBootStatus_after_GetBootstrapData {W} (E : Env W)
    (req : ptr bpb.GetBootstrapDataRequest.t) (cd : bpb.ChassisDescriptor.t)
    (ch : ChassisEntity.t) (s : Service.t) (w w1 : W)
    (c : option bpb.ControlCard.t) :
  bpb.GetBootstrapDataRequest.ChassisDescriptor (pointee req) = Some cd →
  c ∈ bpb.ChassisDescriptor.ControlCards cd →
  EntityManager.ResolveChassis (em E) (lookup_of cd) (ccSerial_of cd) w
  = ((Some ch, None), w1) →
  ¬ (ChassisEntity.BootMode ch = bpb.BootMode_BOOT_MODE_SECURE
     ∧ bpb.GetBootstrapDataRequest.Nonce (pointee req) = "") →
  existsb Fetch.stuck
    (fst (fetchEach E (lookup_of cd) (bpb.ChassisDescriptor.ControlCards cd) w1))
  = false →
  ∃ b,
    Service.GetBootStatus (ledger (Service.GetBootstrapData E (Some req) s w))
      (cardSerial c) = (b, None)
    ∧ bootLog.BootMode b = ChassisEntity.BootMode ch
    ∧ bootLog.BootRequest b = Some req
    ∧ (0 ≤ bootLog.StartTimeStamp b < 2 ^ 64)%Z
    ∧ bootLog.Status b = []
    ∧ bootLog.LastStatus b = bpb.ControlCardState_CONTROL_CARD_STATUS_UNSPECIFIED
    ∧ bootLog.EndTimeStamp b = 0%Z.
Proof.
  intros Hcd Hc Hres Hpolicy Hstuck.
  assert (Hcards : bpb.ChassisDescriptor.ControlCards cd ≠ []).
  { intros Hnil. rewrite Hnil in Hc. by apply elem_of_nil in Hc. }
  destruct (fetchEach E (lookup_of cd) (bpb.ChassisDescriptor.ControlCards cd) w1)
    as [fs w2] eqn:Hfs.
  rewrite (GetBootstrapData_fetches E req cd ch s w w1 fs w2) by done.
  cbn in Hstuck. rewrite Hstuck, respond_ledger.
  destruct (last_fetch_for fs (cardSerial c))
    as (pre & f & post & Hsplit & Hser & Hpost).
  { pose proof (fetchEach_cards E (lookup_of cd)
                  (bpb.ChassisDescriptor.ControlCards cd) w1) as [_ Hall].
    rewrite Hfs in Hall. cbn in Hall. specialize (Hall Hstuck).
    apply list_elem_of_fmap. rewrite <- Hall in Hc.
    apply list_elem_of_fmap in Hc as (f & -> & Hf). by exists f. }
  exists (bootOf req ch f). unfold Service.GetBootStatus. cbn.
  rewrite Hsplit, <- Hser, logFetches_lookup_last by (by rewrite Hser).
  split_and!; try done; cbn; unfold uint64.
  - apply Z.mod_pos_bound. done.
  - apply Z.mod_pos_bound. done.
Qed.

Lemma GetBootStatus_after_GetBootstrapData_witness :
  ∃ b,
    Service.GetBootStatus
      (ledger (Service.GetBootstrapData
                 (Lab.env bpb.BootMode_BOOT_MODE_INSECURE ["123A"] false)
                 (Some (Lab.request ["123A"; "123C"] "N1")) Service.New 1000%Z))
      "123C" = (b, None)
    ∧ bootLog.BootMode b = bpb.BootMode_BOOT_MODE_INSECURE
    ∧ bootLog.BootRequest b = Some (Lab.request ["123A"; "123C"] "N1")
    ∧ (0 ≤ bootLog.StartTimeStamp b < 2 ^ 64)%Z
    ∧ bootLog.Status b = []
    ∧ bootLog.LastStatus b = bpb.ControlCardState_CONTROL_CARD_STATUS_UNSPECIFIED
    ∧ bootLog.EndTimeStamp b = 0%Z.
Proof.
  apply (GetBootStatus_after_GetBootstrapData
           (Lab.env bpb.BootMode_BOOT_MODE_INSECURE ["123A"] false)
           (Lab.request ["123A"; "123C"] "N1")
           (bpb.ChassisDescriptor.mk "Cisco" "123" (Lab.cards ["123A"; "123C"]))
           (ChassisEntity.mk bpb.BootMode_BOOT_MODE_INSECURE)
           Service.New 1000%Z 1000%Z (Some (Lab.card "123C"))).
  - reflexivity.
  - cbn. apply elem_of_cons. right. apply elem_of_cons. by left.
  - reflexivity.
  - intros [? _]. discriminate.
  - reflexivity.
Defined.

(** X6. How the fetches make the result.  For a request whose chassis has
    resolved and passed the boot-mode check, and unless the loop panics, the
    elements of the control cards are fetched one after the other, all of
    them.  If a fetch returned an error that is not an aggregate of no error,
    the call returns no response and the aggregate of what the errors of the
    fetches hold, in the order of the cards: the errors themselves when none
    of them is an aggregate; [Sign] is not called.  If every fetch returned no
    error, or an aggregate of no error, and the request has no nonce, the call
    returns the envelope whose responses are what the fetches returned, one
    per element and in their order. *)
Theorem GetBootstrapData_result_of_fetches {W} (E : Env W)
    (req : ptr bpb.GetBootstrapDataRequest.t) (cd : bpb.ChassisDescriptor.t)
    (ch : ChassisEntity.t) (s : Service.t) (w w1 w2 : W) (fs : list Fetch.t) :
  bpb.GetBootstrapDataRequest.ChassisDescriptor (pointee req) = Some cd →
  bpb.ChassisDescriptor.ControlCards cd ≠ [] →
  EntityManager.ResolveChassis (em E) (lookup_of cd) (ccSerial_of cd) w
  = ((Some ch, None), w1) →
  ¬ (ChassisEntity.BootMode ch = bpb.BootMode_BOOT_MODE_SECURE
     ∧ bpb.GetBootstrapDataRequest.Nonce (pointee req) = "") →
  fetchEach E (lookup_of cd) (bpb.ChassisDescriptor.ControlCards cd) w1 = (fs, w2) →
  existsb Fetch.stuck fs = false →
  map Fetch.card fs = bpb.ChassisDescriptor.ControlCards cd
  ∧ (∀ f e,
       f ∈ fs → Fetch.failure f = Some e → e ≠ ErrorList [] →
       ∃ es,
         es ≠ []
         ∧ result (Service.GetBootstrapData E (Some req) s w)
           = Return (None, Some (ErrorList es))
         ∧ es = concat (map held (omap Fetch.failure fs))
         ∧ ((∀ g es1, g ∈ fs → Fetch.failure g ≠ Some (ErrorList es1)) →
            es = omap Fetch.failure fs)
         ∧ ∀ resp lookup serial,
             CallSign resp lookup serial
             ∉ calls (Service.GetBootstrapData (traced E) (Some req) s (w, [])))
  ∧ (Forall (λ f, Fetch.failure f = None ∨ Fetch.failure f = Some (ErrorList [])) fs →
     bpb.GetBootstrapDataRequest.Nonce (pointee req) = "" →
     result (Service.GetBootstrapData E (Some req) s w)
     = Return (Some (bpb.GetBootstrapDataResponse.mk
                       (Some (bpb.BootstrapDataSigned.mk (map Fetch.data fs) ""))
                       [] [] ""), None)
     ∧ length (map Fetch.data fs)
       = length (bpb.ChassisDescriptor.ControlCards cd)).
Proof.
  intros Hcd Hcards Hres Hpolicy Hfs Hstuck.
  assert (Hall : map Fetch.card fs = bpb.ChassisDescriptor.ControlCards cd).
  { pose proof (fetchEach_cards E (lookup_of cd)
                  (bpb.ChassisDescriptor.ControlCards cd) w1) as [_ Hall].
    rewrite Hfs in Hall. by apply Hall. }
  split_and!.
  - done.
  - intros f e Hf He Hheld.
    exists (collectErrors errlist.zero fs).
    assert (Herrs : collectErrors errlist.zero fs ≠ []).
    { intros [_ Hnil]%collectErrors_nil. rewrite Forall_forall in Hnil.
      destruct (Hnil f Hf) as [?|?]; congruence. }
    split_and!.
    + done.
    + rewrite (GetBootstrapData_fetches E req cd ch s w w1 fs w2) by done.
      rewrite Hstuck. unfold respond. by rewrite errlist_Err_Some.
    + by rewrite collectErrors_held.
    + intros Hplain. rewrite collectErrors_held. cbn.
      clear -Hplain. induction fs as [|g fs IH]; [done|]. cbn.
      pose proof (Hplain g) as Hg.
      destruct (Fetch.failure g) as [e|]; cbn.
      * destruct e as [c msg|msg|es]; cbn.
        -- f_equal. apply IH. intros g' es1 Hg'. apply Hplain. by apply elem_of_cons; right.
        -- f_equal. apply IH. intros g' es1 Hg'. apply Hplain. by apply elem_of_cons; right.
        -- exfalso. eapply Hg; [|done]. apply elem_of_cons. by left.
      * apply IH. intros g' es1 Hg'. apply Hplain. by apply elem_of_cons; right.
    + intros resp lookup serial.
      rewrite (GetBootstrapData_fetches_calls E req cd ch s w w1 fs w2) by done.
      rewrite Hstuck. unfold signing. rewrite errlist_Err_Some by done.
      rewrite app_nil_r.
      intros Hin. apply elem_of_cons in Hin as [Hin|Hin]; [discriminate|].
      apply elem_of_fetches in Hin as (v & Hv & _). discriminate.
  - intros Hnone Hnonce. split.
    + rewrite (GetBootstrapData_fetches E req cd ch s w w1 fs w2) by done.
      rewrite Hstuck. unfold respond.
      assert (Herrs : collectErrors errlist.zero fs = [])
        by (by apply collectErrors_nil).
      rewrite Herrs. cbn. destruct (decide _); [done|contradiction].
    + by rewrite <- Hall, !length_map.
Qed.

Lemma GetBootstrapData_result_of_fetches_witness :
  let notFound := StatusError codes.NotFound "control card not in inventory" in
  ∃ es,
    result (Service.GetBootstrapData
              (Lab.env bpb.BootMode_BOOT_MODE_INSECURE ["123A"] true)
              (Some (Lab.request ["123B"; "123A"; "123C"] "N1")) Service.New 1000%Z)
    = Return (None, Some (ErrorList es))
    ∧ es = [notFound; notFound].
Proof.
  intros notFound.
  destruct (GetBootstrapData_result_of_fetches
              (Lab.env bpb.BootMode_BOOT_MODE_INSECURE ["123A"] true)
              (Lab.request ["123B"; "123A"; "123C"] "N1")
              (bpb.ChassisDescriptor.mk "Cisco" "123"
                 (Lab.cards ["123B"; "123A"; "123C"]))
              (ChassisEntity.mk bpb.BootMode_BOOT_MODE_INSECURE)
              Service.New 1000%Z 1000%Z 1003%Z
              [Fetch.mk (Some (Lab.card "123B")) 1000 None (Some notFound);
               Fetch.mk (Some (Lab.card "123A")) 1001 (Some (Lab.bootdata "123A")) None;
               Fetch.mk (Some (Lab.card "123C")) 1002 None (Some notFound)])
    as (_ & Hfail & _).
  - reflexivity.
  - discriminate.
  - reflexivity.
  - intros [? _]. discriminate.
  - reflexivity.
  - reflexivity.
  - destruct (Hfail (Fetch.mk (Some (Lab.card "123B")) 1000 None (Some notFound)) notFound)
      as (es & _ & Hrun & Herrs & _).
    + apply elem_of_cons. by left.
    + reflexivity.
    + discriminate.
    + exists es. split; [exact Hrun|]. rewrite Herrs. reflexivity.
Defined.

(** An inventory whose fetches all come with an aggregate of no error: the
    aggregate of the call stays empty, and the call returns the response. *)
Example hollow_errors_do_not_fail :
  result (Service.GetBootstrapData (Lab.envOf Lab.hollow)
            (Some (Lab.request ["123A"; "123B"] "")) Service.New 1000%Z)
  = Return (Some (bpb.GetBootstrapDataResponse.mk
                    (Some (bpb.BootstrapDataSigned.mk
                             [Some (Lab.bootdata "123A"); Some (Lab.bootdata "123B")] ""))
                    [] [] ""), None).
Proof. vm_compute. reflexivity. Qed.

(** X7. Control cards of the same serial share one boot log, and the last
    one has it.  For a request whose chassis has resolved and passed the
    boot-mode check, the boot log under the serial of a fetch at which the
    loop has not panicked is that of the last such fetch for that serial: it
    has the time at which that card was taken up, what its fetch returned as
    bootstrap data, and the error of its fetch if it failed.  So when no later
    card has its serial, a card has its own boot log. *)
Theorem GetBootstrapData_last_card_has_boot_log {W} (E : Env W)
    (req : ptr bpb.GetBootstrapDataRequest.t) (cd : bpb.ChassisDescriptor.t)
    (ch : ChassisEntity.t) (s : Service.t) (w w1 : W)
    (pre post : list Fetch.t) (f : Fetch.t) :
  bpb.GetBootstrapDataRequest.ChassisDescriptor (pointee req) = Some cd →
  EntityManager.ResolveChassis (em E) (lookup_of cd) (ccSerial_of cd) w
  = ((Some ch, None), w1) →
  ¬ (ChassisEntity.BootMode ch = bpb.BootMode_BOOT_MODE_SECURE
     ∧ bpb.GetBootstrapDataRequest.Nonce (pointee req) = "") →
  fst (fetchEach E (lookup_of cd) (bpb.ChassisDescriptor.ControlCards cd) w1)
  = pre ++ f :: post →
  Fetch.stuck f = false →
  cardSerial (Fetch.card f) ∉ map (λ g, cardSerial (Fetch.card g)) post →
  Service.activeBoots (ledger (Service.GetBootstrapData E (Some req) s w))
  !! cardSerial (Fetch.card f)
  = Some (bootLog.mk (ChassisEntity.BootMode ch) (uint64 (Fetch.time f)) 0 []
            bpb.ControlCardState_CONTROL_CARD_STATUS_UNSPECIFIED
            (Fetch.data f) (Some req) (Fetch.failure f)).
Proof.
  intros Hcd Hres Hpolicy Hsplit Hf Hpost.
  assert (Hcards : bpb.ChassisDescriptor.ControlCards cd ≠ []).
  { intros Hnil. rewrite Hnil in Hsplit. cbn in Hsplit. by destruct pre. }
  destruct (fetchEach E (lookup_of cd) (bpb.ChassisDescriptor.ControlCards cd) w1)
    as [fs w2] eqn:Hfs.
  cbn in Hsplit. subst fs.
  assert (Hledger : ledger (Service.GetBootstrapData E (Some req) s w)
                    = Service.set_activeBoots (logFetches req ch (pre ++ f :: post))
                        (connect cd s)).
  { rewrite (GetBootstrapData_fetches E req cd ch s w w1 _ w2) by done.
    destruct (existsb Fetch.stuck _); [done|apply respond_ledger]. }
  rewrite Hledger. cbn [Service.activeBoots Service.set_activeBoots].
  change (cardSerial (Fetch.card f)) with (Fetch.serial f).
  rewrite logFetches_lookup_last by done. unfold bootOf. by rewrite Hf.
Qed.

Lemma GetBootstrapData_last_card_has_boot_log_witness :
  let req := Ptr 3%positive
               (bpb.GetBootstrapDataRequest.mk
                  (Some (bpb.ChassisDescriptor.mk "Cisco" "123"
                           [Some (bpb.ControlCard.mk "123A" "P1");
                            Some (bpb.ControlCard.mk "123A" "P2")]))
                  None "") in
  Service.activeBoots
    (ledger (Service.GetBootstrapData
               (Lab.env bpb.BootMode_BOOT_MODE_INSECURE ["123A"] true)
               (Some req) Service.New 1000%Z))
  !! "123A"
  = Some (bootLog.mk bpb.BootMode_BOOT_MODE_INSECURE (uint64 1001) 0 []
            bpb.ControlCardState_CONTROL_CARD_STATUS_UNSPECIFIED
            (Some (Lab.bootdata "123A")) (Some req) None).
Proof.
  intros req.
  apply (GetBootstrapData_last_card_has_boot_log
           (Lab.env bpb.BootMode_BOOT_MODE_INSECURE ["123A"] true) req
           (bpb.ChassisDescriptor.mk "Cisco" "123"
              [Some (bpb.ControlCard.mk "123A" "P1");
               Some (bpb.ControlCard.mk "123A" "P2")])
           (ChassisEntity.mk bpb.BootMode_BOOT_MODE_INSECURE)
           Service.New 1000%Z 1000%Z
           [Fetch.mk (Some (bpb.ControlCard.mk "123A" "P1")) 1000
              (Some (Lab.bootdata "123A")) None]
           []
           (Fetch.mk (Some (bpb.ControlCard.mk "123A" "P2")) 1001
              (Some (Lab.bootdata "123A")) None)).
  - reflexivity.
  - reflexivity.
  - intros [? _]. discriminate.
  - reflexivity.
  - reflexivity.
  - apply not_elem_of_nil.
Defined.

(** The traced run of a request whose chassis resolves and passes the
    boot-mode check panics exactly when a fetch is stuck. *)
Lemma GetBootstrapData_traced_panics {W} (E : Env W) req cd ch s w w1 fs w2 :
  bpb.GetBootstrapDataRequest.ChassisDescriptor (pointee req) = Some cd →
  bpb.ChassisDescriptor.ControlCards cd ≠ [] →
  EntityManager.ResolveChassis (em E) (lookup_of cd) (ccSerial_of cd) w
  = ((Some ch, None), w1) →
  ¬ (ChassisEntity.BootMode ch = bpb.BootMode_BOOT_MODE_SECURE
     ∧ bpb.GetBootstrapDataRequest.Nonce (pointee req) = "") →
  fetchEach E (lookup_of cd) (bpb.ChassisDescriptor.ControlCards cd) w1 = (fs, w2) →
  existsb Fetch.stuck fs = true →
  result (Service.GetBootstrapData (traced E) (Some req) s (w, [])) = Panic.
Proof.
  intros Hcd Hcards Hres Hpolicy Hfs Hstuck.
  rewrite (GetBootstrapData_fetches (traced E) req cd ch s (w, [])
             (w1, [] ++ [CallResolveChassis (lookup_of cd) (ccSerial_of cd)])
             fs
             (w2, ([] ++ [CallResolveChassis (lookup_of cd) (ccSerial_of cd)])
                  ++ fetches (lookup_of cd) (map Fetch.card fs))
             Hcd Hcards (traced_ResolveChassis E _ _ _ _ _ _ Hres) Hpolicy).
  - by rewrite Hstuck.
  - rewrite fetchEach_traced. by rewrite Hfs.
Qed.

(** A loop that panics has made its last fetch for a nil element. *)
Lemma fetchEach_stuck_shape {W} (E : Env W) lookup cards w :
  existsb Fetch.stuck (fst (fetchEach E lookup cards w)) = true →
  ∃ pre, map Fetch.card (fst (fetchEach E lookup cards w)) = pre ++ [None].
Proof.
  intros (f & Hf & Hstuck)%existsb_exists.
  apply list_elem_of_In, list_elem_of_split in Hf as (fs1 & fs2 & Hsplit).
  pose proof (fetchEach_stuck_last E lookup cards w fs1 f fs2 Hsplit Hstuck) as ->.
  exists (map Fetch.card fs1). rewrite Hsplit, map_app. cbn.
  by apply stuck_iff in Hstuck as [-> _].
Qed.

(** X8. The calls [GetBootstrapData] makes on the entity manager, in every
    run.  It makes none, or it first resolves the chassis of the descriptor,
    with the serial of the first control card, and then: nothing more; or one
    fetch for each of the first elements of the control cards of the request,
    in their order, the last of them for a nil element, and the run panics; or
    one fetch for each element of the control cards, in their order; or these
    fetches and then, for a request with a nonce, one call of [Sign] for the
    chassis of the descriptor and the serial of the control-card state.  It
    never calls [SetStatus]. *)
Theorem GetBootstrapData_call_protocol {W} (E : Env W)
    (req : option (ptr bpb.GetBootstrapDataRequest.t)) (s : Service.t) (w : W) :
  (calls (Service.GetBootstrapData (traced E) req s (w, [])) = []
   ∨ ∃ r cd rest,
       req = Some r
       ∧ bpb.GetBootstrapDataRequest.ChassisDescriptor (pointee r) = Some cd
       ∧ bpb.ChassisDescriptor.ControlCards cd ≠ []
       ∧ calls (Service.GetBootstrapData (traced E) req s (w, []))
         = CallResolveChassis (lookup_of cd) (ccSerial_of cd) :: rest
       ∧ (rest = []
          ∨ (∃ pre,
               (pre ++ [None]) `prefix_of` bpb.ChassisDescriptor.ControlCards cd
               ∧ rest = fetches (lookup_of cd) (pre ++ [None])
               ∧ result (Service.GetBootstrapData (traced E) req s (w, [])) = Panic)
          ∨ rest = fetches (lookup_of cd) (bpb.ChassisDescriptor.ControlCards cd)
          ∨ (bpb.GetBootstrapDataRequest.Nonce (pointee r) ≠ ""
             ∧ ∃ resp,
                 rest = fetches (lookup_of cd) (bpb.ChassisDescriptor.ControlCards cd)
                        ++ [CallSign resp (lookup_of cd)
                              (match bpb.GetBootstrapDataRequest.ControlCardState
                                       (pointee r) with
                               | Some st => bpb.ControlCardState.SerialNumber st
                               | None => ""
                               end)])))
  ∧ ∀ report,
      CallSetStatus report ∉ calls (Service.GetBootstrapData (traced E) req s (w, [])).
Proof.
  assert (Hshape :
    calls (Service.GetBootstrapData (traced E) req s (w, [])) = []
    ∨ ∃ r cd rest,
        req = Some r
        ∧ bpb.GetBootstrapDataRequest.ChassisDescriptor (pointee r) = Some cd
        ∧ bpb.ChassisDescriptor.ControlCards cd ≠ []
        ∧ calls (Service.GetBootstrapData (traced E) req s (w, []))
          = CallResolveChassis (lookup_of cd) (ccSerial_of cd) :: rest
        ∧ (rest = []
           ∨ (∃ pre,
                (pre ++ [None]) `prefix_of` bpb.ChassisDescriptor.ControlCards cd
                ∧ rest = fetches (lookup_of cd) (pre ++ [None])
                ∧ result (Service.GetBootstrapData (traced E) req s (w, [])) = Panic)
           ∨ rest = fetches (lookup_of cd) (bpb.ChassisDescriptor.ControlCards cd)
           ∨ (bpb.GetBootstrapDataRequest.Nonce (pointee r) ≠ ""
              ∧ ∃ resp,
                  rest = fetches (lookup_of cd) (bpb.ChassisDescriptor.ControlCards cd)
                         ++ [CallSign resp (lookup_of cd)
                               (match bpb.GetBootstrapDataRequest.ControlCardState
                                        (pointee r) with
                                | Some st => bpb.ControlCardState.SerialNumber st
                                | None => ""
                                end)]))).
  { destruct req as [r|]; [|by left].
    destruct (GetBootstrapData_calls E r s w)
      as [Hnone|(cd & Hcd & Hcards & [Hone|(ch & w1 & fs & w2 & Hres & Hfs & Hall)])].
    - by left.
    - right. exists r, cd, []. split_and!; [done..|by left].
    - right. exists r, cd, (fetches (lookup_of cd) (map Fetch.card fs)
         ++ (if existsb Fetch.stuck fs then []
             else signing r cd (collectErrors errlist.zero fs) (map Fetch.data fs))).
      split_and!; [done..|].
      pose proof (fetchEach_cards E (lookup_of cd)
                    (bpb.ChassisDescriptor.ControlCards cd) w1) as [Hpre Hfull].
      rewrite Hfs in Hpre, Hfull. cbn in Hpre, Hfull.
      destruct (existsb Fetch.stuck fs) eqn:Hstuck.
      + right; left.
        destruct (fetchEach_stuck_shape E (lookup_of cd)
                    (bpb.ChassisDescriptor.ControlCards cd) w1) as [pre Hshape].
        { by rewrite Hfs. }
        rewrite Hfs in Hshape. cbn in Hshape. exists pre.
        rewrite app_nil_r, <- Hshape. split_and!; [done|done|].
        destruct (decide (ChassisEntity.BootMode ch = bpb.BootMode_BOOT_MODE_SECURE
                          ∧ bpb.GetBootstrapDataRequest.Nonce (pointee r) = ""))
          as [[Hmode Hnonce]|Hpolicy].
        * exfalso.
          rewrite (GetBootstrapData_secure_no_nonce (traced E) r cd ch s _ _
                     Hcd Hcards (traced_ResolveChassis E _ _ _ [] _ _ Hres)
                     Hmode Hnonce) in Hall.
          unfold calls in Hall. cbn in Hall. injection Hall as Hall.
          rewrite app_nil_r in Hall. destruct fs; [done|discriminate].
        * by eapply GetBootstrapData_traced_panics.
      + rewrite (Hfull eq_refl). right; right. unfold signing.
        destruct (errlist.Err _).
        { left. by rewrite app_nil_r. }
        destruct (decide _) as [|Hn].
        { left. by rewrite app_nil_r. }
        right. split; [done|]. by eexists. }
  split; [exact Hshape|].
  intros report Hin.
  destruct Hshape as [Hnone|(r & cd & rest & -> & Hcd & Hcards & Htr & Hrest)].
  { rewrite Hnone in Hin. by apply elem_of_nil in Hin. }
  rewrite Htr in Hin. apply elem_of_cons in Hin as [Hin|Hin]; [discriminate|].
  destruct Hrest as [->|[(pre & _ & -> & _)|[->|(_ & resp & ->)]]].
  - by apply elem_of_nil in Hin.
  - apply elem_of_fetches in Hin as (v & Hv & _). discriminate.
  - apply elem_of_fetches in Hin as (v & Hv & _). discriminate.
  - apply elem_of_app in Hin as [Hin|Hin].
    + apply elem_of_fetches in Hin as (v & Hv & _). discriminate.
    + apply list_elem_of_singleton in Hin. discriminate.
Qed.

(** X9. The one call [ReportStatus] makes on the entity manager, in every
    run, is [SetStatus] with the report. *)
Theorem ReportStatus_calls_SetStatus_once {W} (E : Env W)
    (req : option bpb.ReportStatusRequest.t) (s : Service.t) (w : W) :
  calls (Service.ReportStatus (traced E) req s (w, [])) = [CallSetStatus req].
Proof.
  unfold Service.ReportStatus. unfold_M. cbn.
  destruct (EntityManager.SetStatus (em E) req w) as [[e|] w1]; [|done].
  rewrite reportLoop_traced.
  by destruct (Service.reportLoop E _ s w1) as [[[[]|] s'] w2].
Qed.

(** The boot logs the report loop leaves are those that the states it got
    through left, but for the last status of the boot log under the empty
    serial, if it panicked at a nil state. *)
Lemma reportLoop_ledger {W} (E : Env W) states s w :
  ∃ pre post,
    states = map Some pre ++ post
    ∧ (ledger (Service.reportLoop E states s w)
       = Service.set_activeBoots
           (λ _, fst (applyStates E pre (Service.activeBoots s) w)) s
       ∨ (None ∈ post
          ∧ ledger (Service.reportLoop E states s w)
            = Service.set_activeBoots
                (λ _, alter (bootLog.set_LastStatus
                               bpb.ControlCardState_CONTROL_CARD_STATUS_UNSPECIFIED) ""
                            (fst (applyStates E pre (Service.activeBoots s) w))) s)).
Proof.
  destruct (states_split (Service.activeBoots s) states)
    as [(sts & -> & Hall)|(pre & bad & post & -> & Hpre & Hbad)].
  - exists sts, []. rewrite app_nil_r. split; [done|]. left.
    by rewrite reportLoop_all_logged.
  - exists pre, (bad :: post). split; [done|].
    destruct (Service.activeBoots s !! names bad) as [b|] eqn:Hk.
    + destruct Hbad as [->|Hbad]; [|done]. right. split.
      * apply elem_of_cons. by left.
      * rewrite reportLoop_first_nil; [done|done|]. cbn in Hk. by rewrite Hk.
    + left. by rewrite reportLoop_first_missing.
Qed.

(** X10. Whatever happens in a call of [ReportStatus], also when it panics,
    it leaves the connected chassis and the failed requests as they were, and
    it neither makes nor drops a boot log.  The boot log of a serial that the
    report does not name is what it was, and the boot log of any serial
    differs from what it was at most by a longer status history, of which the
    old one is the beginning, the last status and the end timestamp. *)
Theorem ReportStatus_frame {W} (E : Env W)
    (req : option bpb.ReportStatusRequest.t) (s : Service.t) (w : W) :
  Service.connectedChassis (ledger (Service.ReportStatus E req s w))
  = Service.connectedChassis s
  ∧ Service.failedRequest (ledger (Service.ReportStatus E req s w))
    = Service.failedRequest s
  ∧ (∀ serial,
       is_Some (Service.activeBoots (ledger (Service.ReportStatus E req s w)) !! serial)
       ↔ is_Some (Service.activeBoots s !! serial))
  ∧ (∀ serial,
       serial ∉ map names (statesOf req) →
       Service.activeBoots (ledger (Service.ReportStatus E req s w)) !! serial
       = Service.activeBoots s !! serial)
  ∧ (∀ serial b,
       Service.activeBoots s !! serial = Some b →
       ∃ b',
         Service.activeBoots (ledger (Service.ReportStatus E req s w)) !! serial
         = Some b'
         ∧ bootLog.Status b `prefix_of` bootLog.Status b'
         ∧ same_boot b b').
Proof.
  assert (Hsame : ∀ b, same_boot b b) by (by intros b; unfold same_boot).
  rewrite ReportStatus_ledger.
  destruct (EntityManager.SetStatus (em E) req w) as [[e|] w1].
  2:{ split_and!; try done. intros serial b Hb. exists b. by split_and!. }
  destruct (reportLoop_ledger E (statesOf req) s w1)
    as (pre & post & Hstates & [Hl|[Hnil Hl]]); rewrite Hl; cbn.
  - split_and!; try done.
    + intros serial. apply applyStates_is_Some.
    + intros serial Hk. apply applyStates_lookup_other.
      intros Hin. apply Hk. rewrite Hstates, map_app. apply elem_of_app. left.
      by rewrite map_map.
    + intros serial b Hb.
      destruct (applyStates_lookup E pre (Service.activeBoots s) w1 serial b Hb)
        as (b' & Hb' & Hhist & _ & _ & _ & Hs).
      exists b'. split_and!; [done| |done].
      rewrite Hhist. by apply prefix_app_r.
  - split_and!; try done.
    + intros serial. rewrite lookup_alter_is_Some. apply applyStates_is_Some.
    + intros serial Hk.
      assert (Hne : "" ≠ serial).
      { intros <-. apply Hk. rewrite Hstates, map_app. apply elem_of_app. right.
        apply list_elem_of_fmap. by exists None. }
      rewrite lookup_alter_ne by done. apply applyStates_lookup_other.
      intros Hin. apply Hk. rewrite Hstates, map_app. apply elem_of_app. left.
      by rewrite map_map.
    + intros serial b Hb.
      destruct (applyStates_lookup E pre (Service.activeBoots s) w1 serial b Hb)
        as (b' & Hb' & Hhist & _ & _ & _ & Hs).
      destruct (decide ("" = serial)) as [<-|Hne].
      * exists (bootLog.set_LastStatus
                  bpb.ControlCardState_CONTROL_CARD_STATUS_UNSPECIFIED b').
        rewrite lookup_alter_eq, Hb'. split_and!; [done| |done].
        cbn [bootLog.set_LastStatus bootLog.Status].
        rewrite Hhist. by apply prefix_app_r.
      * exists b'. rewrite lookup_alter_ne by done. split_and!; [done| |done].
        rewrite Hhist. by apply prefix_app_r.
Qed.

(** After a run that got through the control cards, each of their elements
    has a boot log under its serial. *)
Lemma GetBootstrapData_cards_logged {W} (E : Env W) req cd ch s w w1 c :
  bpb.GetBootstrapDataRequest.ChassisDescriptor (pointee req) = Some cd →
  c ∈ bpb.ChassisDescriptor.ControlCards cd →
  EntityManager.ResolveChassis (em E) (lookup_of cd) (ccSerial_of cd) w
  = ((Some ch, None), w1) →
  ¬ (ChassisEntity.BootMode ch = bpb.BootMode_BOOT_MODE_SECURE
     ∧ bpb.GetBootstrapDataRequest.Nonce (pointee req) = "") →
  existsb Fetch.stuck
    (fst (fetchEach E (lookup_of cd) (bpb.ChassisDescriptor.ControlCards cd) w1))
  = false →
  is_Some (Service.activeBoots (ledger (Service.GetBootstrapData E (Some req) s w))
           !! cardSerial c).
Proof.
  intros Hcd Hc Hres Hpolicy Hstuck.
  assert (Hcards : bpb.ChassisDescriptor.ControlCards cd ≠ []).
  { intros Hnil. rewrite Hnil in Hc. by apply elem_of_nil in Hc. }
  destruct (fetchEach E (lookup_of cd) (bpb.ChassisDescriptor.ControlCards cd) w1)
    as [fs w2] eqn:Hfs.
  rewrite (GetBootstrapData_fetches E req cd ch s w w1 fs w2) by done.
  cbn in Hstuck. rewrite Hstuck, respond_ledger.
  destruct (last_fetch_for fs (cardSerial c))
    as (pre & f & post & Hsplit & Hser & Hpost).
  { pose proof (fetchEach_cards E (lookup_of cd)
                  (bpb.ChassisDescriptor.ControlCards cd) w1) as [_ Hall].
    rewrite Hfs in Hall. cbn in Hall. specialize (Hall Hstuck).
    apply list_elem_of_fmap. rewrite <- Hall in Hc.
    apply list_elem_of_fmap in Hc as (f & -> & Hf). by exists f. }
  cbn [Service.activeBoots Service.set_activeBoots].
  rewrite Hsplit, <- Hser, logFetches_lookup_last by (by rewrite Hser). eauto.
Qed.

(** X11. From [GetBootstrapData] to [ReportStatus].  After a request whose
    chassis has resolved and passed the boot-mode check, and whose loop over
    the control cards has not panicked, a status report of which every state
    is there and has the serial of an element of the control cards of that
    request does not panic, whatever the entity manager then says of it.  A
    report that holds a nil state panics when [SetStatus] returns an error,
    whatever boot logs there are. *)
Theorem ReportStatus_after_GetBootstrapData_is_safe {W} (E : Env W)
    (req : ptr bpb.GetBootstrapDataRequest.t) (cd : bpb.ChassisDescriptor.t)
    (ch : ChassisEntity.t) (s : Service.t) (w w1 w2 : W)
    (report : option bpb.ReportStatusRequest.t) :
  bpb.GetBootstrapDataRequest.ChassisDescriptor (pointee req) = Some cd →
  EntityManager.ResolveChassis (em E) (lookup_of cd) (ccSerial_of cd) w
  = ((Some ch, None), w1) →
  ¬ (ChassisEntity.BootMode ch = bpb.BootMode_BOOT_MODE_SECURE
     ∧ bpb.GetBootstrapDataRequest.Nonce (pointee req) = "") →
  existsb Fetch.stuck
    (fst (fetchEach E (lookup_of cd) (bpb.ChassisDescriptor.ControlCards cd) w1))
  = false →
  (Forall (λ stat, ∃ st c,
             stat = Some st
             ∧ c ∈ bpb.ChassisDescriptor.ControlCards cd
             ∧ bpb.ControlCardState.SerialNumber st = cardSerial c)
          (statesOf report) →
   result (Service.ReportStatus E report
             (ledger (Service.GetBootstrapData E (Some req) s w)) w2) ≠ Panic)
  ∧ (∀ e w3,
       None ∈ statesOf report →
       EntityManager.SetStatus (em E) report w2 = (Some e, w3) →
       result (Service.ReportStatus E report
                 (ledger (Service.GetBootstrapData E (Some req) s w)) w2) = Panic).
Proof.
  intros Hcd Hres Hpolicy Hstuck.
  assert (Hloop : ∀ s0 e w3,
    EntityManager.SetStatus (em E) report w2 = (Some e, w3) →
    result (Service.ReportStatus E report s0 w2) = Panic
    ↔ result (Service.reportLoop E (statesOf report) s0 w3) = Panic).
  { intros s0 e w3 Hset. unfold Service.ReportStatus. unfold_M. rewrite Hset.
    change (bpb.ReportStatusRequest.GetStates report) with (statesOf report).
    by destruct (Service.reportLoop E _ s0 w3) as [[[[]|] s'] w']. }
  split.
  - intros Hnames.
    destruct (EntityManager.SetStatus (em E) report w2) as [[e|] w3] eqn:Hset.
    2:{ unfold Service.ReportStatus. unfold_M. by rewrite Hset. }
    rewrite (Hloop _ e w3 eq_refl), reportLoop_panics_iff, Exists_exists.
    intros (x & Hx & Hbad). rewrite Forall_forall in Hnames.
    destruct (Hnames x Hx) as (st & c & -> & Hc & Hser).
    destruct Hbad as [?|Hnone]; [done|]. cbn in Hnone. rewrite Hser in Hnone.
    pose proof (GetBootstrapData_cards_logged E req cd ch s w w1 c
                  Hcd Hc Hres Hpolicy Hstuck) as [b Hb].
    congruence.
  - intros e w3 Hnil Hset.
    rewrite (Hloop _ e w3 Hset), reportLoop_panics_iff, Exists_exists.
    exists None. split; [done|by left].
Qed.

Lemma ReportStatus_after_GetBootstrapData_is_safe_witness :
  let E := Lab.env bpb.BootMode_BOOT_MODE_INSECURE ["123A"] true in
  result (Service.ReportStatus E
            (Lab.report "123C" bpb.ControlCardState_CONTROL_CARD_STATUS_INITIALIZED)
            (ledger (Service.GetBootstrapData E (Some (Lab.request ["123A"; "123C"] ""))
                       Service.New 1000%Z))
            2000%Z)
  ≠ Panic.
Proof.
  intros E.
  apply (ReportStatus_after_GetBootstrapData_is_safe E
           (Lab.request ["123A"; "123C"] "")
           (bpb.ChassisDescriptor.mk "Cisco" "123" (Lab.cards ["123A"; "123C"]))
           (ChassisEntity.mk bpb.BootMode_BOOT_MODE_INSECURE)
           Service.New 1000%Z 1000%Z 2000%Z).
  - reflexivity.
  - reflexivity.
  - intros [? _]. discriminate.
  - reflexivity.
  - constructor; [|constructor].
    exists (bpb.ControlCardState.mk "123C"
              bpb.ControlCardState_CONTROL_CARD_STATUS_INITIALIZED),
      (Some (Lab.card "123C")).
    split_and!; [reflexivity| |reflexivity].
    cbn. apply elem_of_cons. right. apply elem_of_cons. by left.
Defined.

(** A report with a nil state, for which [SetStatus] returns an error, on a
    ledger in which the empty serial has a boot log: the first write goes
    through, and the run panics at the second. *)
Example nil_state_run :
  let b := bootLog.set_LastStatus
             bpb.ControlCardState_CONTROL_CARD_STATUS_INITIALIZED bootLog.zero in
  Service.ReportStatus (Lab.env bpb.BootMode_BOOT_MODE_INSECURE ["123A"] true)
    (Some (bpb.ReportStatusRequest.mk [None])) (Service.mk ∅ {["" := b]} ∅) 2000%Z
  = (Panic, Service.mk ∅ {["" := bootLog.zero]} ∅, 2000%Z).
Proof. vm_compute. reflexivity. Qed.

(** X12. From [ResetStatus] to [GetBootStatus] and [ReportStatus].  After a
    reset no serial has a boot status; and a status report that holds a state
    and for which [SetStatus] returns an error panics at its first state,
    with the ledger still empty. *)
Theorem ResetStatus_forgets_boot_logs {W} (E : Env W)
    (s : Service.t) (arg : EntityLookup.t)
    (req : option bpb.ReportStatusRequest.t) (e : error) (w w1 : W) :
  EntityManager.SetStatus (em E) req w = (Some e, w1) →
  statesOf req ≠ [] →
  Service.ReportStatus E req (Service.ResetStatus s arg) w
  = (Panic, Service.ResetStatus s arg, w1)
  ∧ ∀ serial,
      Service.GetBootStatus (Service.ResetStatus s arg) serial
      = (bootLog.zero,
         Some (FmtError (String.append "no boot log found for controller card " serial))).
Proof.
  intros Hset Hstates. split.
  - unfold Service.ReportStatus. unfold_M. rewrite Hset.
    change (bpb.ReportStatusRequest.GetStates req) with (statesOf req).
    destruct (statesOf req) as [|stat states]; [done|].
    rewrite reportLoop_not_logged; [done|].
    unfold Service.ResetStatus. cbn. by rewrite lookup_empty.
  - intros serial. unfold Service.GetBootStatus, Service.ResetStatus. cbn.
    by rewrite lookup_empty.
Qed.

Lemma ResetStatus_forgets_boot_logs_witness :
  let E := Lab.env bpb.BootMode_BOOT_MODE_INSECURE ["123A"] true in
  let report := Lab.report "123C" bpb.ControlCardState_CONTROL_CARD_STATUS_INITIALIZED in
  Service.ReportStatus E report
    (Service.ResetStatus ledger_123A_123C Lab.chassis123) 2000%Z
  = (Panic, Service.ResetStatus ledger_123A_123C Lab.chassis123, 2000%Z)
  ∧ ∀ serial,
      Service.GetBootStatus (Service.ResetStatus ledger_123A_123C Lab.chassis123) serial
      = (bootLog.zero,
         Some (FmtError (String.append "no boot log found for controller card " serial))).
Proof.
  intros E report.
  apply (ResetStatus_forgets_boot_logs E ledger_123A_123C Lab.chassis123 report
           (StatusError codes.NotFound "control card not in inventory")
           2000%Z 2000%Z).
  - reflexivity.
  - discriminate.
Defined.

(** * The server program *)

(** ** Addresses *)

Lemma Split_not_nil s sep : Strings.Split s sep ≠ [].
Proof.
  destruct s as [|c s]; [done|]. cbn.
  destruct (Ascii.eqb c sep); [done|]. by destruct (Strings.Split s sep).
Qed.

(** There is one piece more than there are separators. *)
Lemma Split_length s sep :
  length (Strings.Split s sep) = S (length (filter (λ c, c = sep) (bytes s))).
Proof.
  induction s as [|c s IH]; [done|]. cbn [Strings.Split bytes].
  destruct (Ascii.eqb_spec c sep) as [->|Hne].
  - rewrite filter_cons_True by done. cbn. by rewrite IH.
  - rewrite filter_cons_False by done. rewrite <- IH.
    pose proof (Split_not_nil s sep). by destruct (Strings.Split s sep).
Qed.

Lemma Split_one s sep : length (Strings.Split s sep) = 1 ↔ sep ∉ bytes s.
Proof.
  rewrite Split_length. split.
  - intros [= Hlen] Hin. apply length_zero_iff_nil in Hlen.
    assert (Hmem : sep ∈ filter (λ c, c = sep) (bytes s))
      by (by apply list_elem_of_filter).
    rewrite Hlen in Hmem. by apply elem_of_nil in Hmem.
  - intros Hnot. f_equal. apply length_zero_iff_nil.
    destruct (filter (λ c, c = sep) (bytes s)) as [|c l] eqn:Hf; [done|].
    assert (Hc : c ∈ filter (λ c, c = sep) (bytes s)).
    { rewrite Hf. apply elem_of_cons. by left. }
    apply list_elem_of_filter in Hc as [-> Hc]. contradiction.
Qed.

(** The pieces, joined by the separator, are the string. *)
Lemma Split_concat s sep :
  String.concat (String sep EmptyString) (Strings.Split s sep) = s.
Proof.
  induction s as [|c s IH]; [done|]. cbn [Strings.Split].
  pose proof (Split_not_nil s sep) as Hnn.
  destruct (Ascii.eqb_spec c sep) as [->|Hne].
  - destruct (Strings.Split s sep) as [|piece pieces] eqn:Hs; [done|].
    change (String.concat (String sep EmptyString) (EmptyString :: piece :: pieces))
      with (String sep (String.concat (String sep EmptyString) (piece :: pieces))).
    by rewrite IH.
  - destruct (Strings.Split s sep) as [|piece pieces] eqn:Hs; [done|].
    destruct pieces as [|piece' pieces].
    + cbn in *. by rewrite IH.
    + change (String.concat (String sep EmptyString) (String c piece :: piece' :: pieces))
        with (String c (String.concat (String sep EmptyString) (piece :: piece' :: pieces))).
      by rewrite IH.
Qed.

Lemma bytes_append s1 s2 : bytes (String.append s1 s2) = bytes s1 ++ bytes s2.
Proof. induction s1 as [|c s1 IH]; [done|]. simpl. f_equal. exact IH. Qed.

Lemma convertAddress_colon (addr : string) :
  colon ∈ bytes addr → Main.convertAddress addr = addr.
Proof.
  intros Hc. unfold Main.convertAddress.
  destruct (decide _) as [Hone|]; [|done]. by apply Split_one in Hone.
Qed.

Lemma convertAddress_no_colon (addr : string) :
  colon ∉ bytes addr → Main.convertAddress addr = String.append "localhost:" addr.
Proof.
  intros Hc. unfold Main.convertAddress.
  destruct (decide _) as [|Hone]; [done|]. exfalso. apply Hone. by apply Split_one.
Qed.

(** X13. [convertAddress] leaves an address with a colon as it is and puts
    "localhost:" before an address without, the empty one too. *)
Theorem convertAddress_spec (addr : string) :
  (colon ∈ bytes addr → Main.convertAddress addr = addr)
  ∧ (colon ∉ bytes addr →
     Main.convertAddress addr = String.append "localhost:" addr).
Proof. split; [apply convertAddress_colon|apply convertAddress_no_colon]. Qed.

Lemma convertAddress_spec_witness :
  Main.convertAddress "127.0.0.1:8008" = "127.0.0.1:8008"
  ∧ Main.convertAddress "8008" = "localhost:8008".
Proof.
  split.
  - apply (proj1 (convertAddress_spec "127.0.0.1:8008")).
    apply (bool_decide_unpack _). vm_compute. exact I.
  - apply (proj2 (convertAddress_spec "8008")).
    apply (bool_decide_unpack _). vm_compute. exact I.
Defined.

(** X14. What [convertAddress] returns has a colon, and converting it again
    changes nothing. *)
Theorem convertAddress_idempotent (addr : string) :
  colon ∈ bytes (Main.convertAddress addr)
  ∧ Main.convertAddress (Main.convertAddress addr) = Main.convertAddress addr.
Proof.
  assert (Hhas : colon ∈ bytes (Main.convertAddress addr)).
  { destruct (decide (colon ∈ bytes addr)) as [Hc|Hc].
    - by rewrite (convertAddress_colon addr Hc).
    - rewrite (convertAddress_no_colon addr Hc), bytes_append.
      apply elem_of_app. left. apply (bool_decide_unpack _). vm_compute. exact I. }
  split; [done|]. by apply convertAddress_colon.
Qed.

(** The address [main] starts the server on has no port: it is taken for a
    port, and the server is asked to listen on "localhost:127.0.0.1". *)
Example main_listen_address :
  Main.convertAddress "127.0.0.1" = "localhost:127.0.0.1".
Proof. reflexivity. Qed.

(** ** Strings *)

Lemma str_length_app (a b : string) :
  String.length (String.append a b) = String.length a + String.length b.
Proof. induction a as [|c a IH]; [done|]. simpl. by rewrite IH. Qed.

Lemma substring_app_l (a b : string) :
  String.substring 0 (String.length a) (String.append a b) = a.
Proof.
  induction a as [|c a IH]; simpl.
  - by destruct b.
  - by rewrite IH.
Qed.

Lemma substring_all (s : string) : String.substring 0 (String.length s) s = s.
Proof. induction s as [|c s IH]; simpl; [done|]. by rewrite IH. Qed.

Lemma substring_app_r (a b : string) :
  String.substring (String.length a) (String.length b) (String.append a b) = b.
Proof. induction a as [|c a IH]; simpl; [apply substring_all|exact IH]. Qed.

Lemma HasPrefix_app (p x : string) : Strings.HasPrefix (String.append p x) p = true.
Proof.
  unfold Strings.HasPrefix. rewrite str_length_app, substring_app_l.
  rewrite String.eqb_refl, andb_true_r. apply Nat.leb_le. lia.
Qed.

Lemma TrimPrefix_app (p x : string) : Strings.TrimPrefix (String.append p x) p = x.
Proof.
  unfold Strings.TrimPrefix. rewrite HasPrefix_app, str_length_app.
  replace (String.length p + String.length x - String.length p)
    with (String.length x) by lia.
  apply substring_app_r.
Qed.

Lemma TrimSuffix_app (x suf : string) :
  Strings.TrimSuffix (String.append x suf) suf = x.
Proof.
  unfold Strings.TrimSuffix, Strings.HasSuffix. rewrite str_length_app.
  replace (String.length x + String.length suf - String.length suf)
    with (String.length x) by lia.
  rewrite substring_app_r, String.eqb_refl, andb_true_r.
  replace (String.length suf <=? String.length x + String.length suf)%nat with true
    by (symmetry; apply Nat.leb_le; lia).
  apply substring_app_l.
Qed.

(** ** Artifacts *)

Section ArtifactFacts.
Context {Certificate : Type} (D : Disk Certificate) (dir : string).

(** A file named after a serial gives the voucher of that serial. *)
Lemma ovKey_named (serial : string) :
  Main.ovKey (String.append "ov_" (String.append serial ".txt")) = serial
  ∧ Strings.HasPrefix (String.append "ov_" (String.append serial ".txt")) "ov" = true.
Proof.
  split.
  - unfold Main.ovKey. by rewrite TrimPrefix_app, TrimSuffix_app.
  - apply (HasPrefix_app "ov" (String "_" (String.append serial ".txt"))).
Qed.

Lemma readOVFiles_app pre post ovs :
  Main.readOVFiles D dir (pre ++ post) ovs
  = match Main.readOVFiles D dir pre ovs with
    | inl ovs' => Main.readOVFiles D dir post ovs'
    | inr err => inr err
    end.
Proof.
  revert ovs. induction pre as [|f pre IH]; intros ovs; [done|].
  cbn [app Main.readOVFiles]. destruct (Strings.HasPrefix f "ov"); [|apply IH].
  destruct (ReadFile D _); [apply IH|done].
Qed.

(** The loop fails when, and only when, it comes to a voucher file that
    cannot be read, and then with the error of the first such file. *)
Lemma readOVFiles_inr files ovs err :
  Main.readOVFiles D dir files ovs = inr err
  ↔ ∃ pre f post,
      files = pre ++ f :: post
      ∧ Strings.HasPrefix f "ov" = true
      ∧ ReadFile D (Join D dir f) = inr err
      ∧ ∀ g, g ∈ pre → Strings.HasPrefix g "ov" = true →
             ∃ content, ReadFile D (Join D dir g) = inl content.
Proof.
  revert ovs. induction files as [|f files IH]; intros ovs.
  - cbn. split; [done|]. intros (pre & f & post & Hnil & _). by destruct pre.
  - cbn [Main.readOVFiles].
    destruct (Strings.HasPrefix f "ov") eqn:Hov.
    + destruct (ReadFile D (Join D dir f)) as [content|err'] eqn:Hread.
      * rewrite IH. split.
        -- intros (pre & g & post & -> & Hg & Hgr & Hpre).
           exists (f :: pre), g, post. split_and!; try done.
           intros h Hh Hhov. apply elem_of_cons in Hh as [->|Hh]; [eauto|eauto].
        -- intros (pre & g & post & Hfiles & Hg & Hgr & Hpre).
           destruct pre as [|f' pre]; cbn in Hfiles; injection Hfiles as <- ->.
           { congruence. }
           exists pre, g, post. split_and!; try done.
           intros h Hh. apply Hpre. apply elem_of_cons. by right.
      * split.
        -- intros [= ->]. exists [], f, files. split_and!; try done.
           intros g Hg. by apply elem_of_nil in Hg.
        -- intros (pre & g & post & Hfiles & Hg & Hgr & Hpre).
           destruct pre as [|f' pre]; cbn in Hfiles; injection Hfiles as <- ->.
           { congruence. }
           destruct (Hpre f) as [content Hc]; [apply elem_of_cons; by left|done|].
           congruence.
    + rewrite IH. split.
      * intros (pre & g & post & -> & Hg & Hgr & Hpre).
        exists (f :: pre), g, post. split_and!; try done.
        intros h Hh Hhov. apply elem_of_cons in Hh as [->|Hh]; [congruence|eauto].
      * intros (pre & g & post & Hfiles & Hg & Hgr & Hpre).
        destruct pre as [|f' pre]; cbn in Hfiles; injection Hfiles as <- ->.
        { congruence. }
        exists pre, g, post. split_and!; try done.
        intros h Hh. apply Hpre. apply elem_of_cons. by right.
Qed.

(** Where the vouchers of the loop come from. *)
Lemma readOVFiles_lookup files ovs ovs' k v :
  Main.readOVFiles D dir files ovs = inl ovs' →
  ovs' !! k = Some v →
  ovs !! k = Some v
  ∨ ∃ f, f ∈ files ∧ Strings.HasPrefix f "ov" = true ∧ Main.ovKey f = k
         ∧ ReadFile D (Join D dir f) = inl v.
Proof.
  revert ovs. induction files as [|f files IH]; intros ovs Hrun Hk.
  - injection Hrun as <-. by left.
  - cbn [Main.readOVFiles] in Hrun.
    destruct (Strings.HasPrefix f "ov") eqn:Hov.
    + destruct (ReadFile D (Join D dir f)) as [content|err] eqn:Hread; [|done].
      destruct (IH _ Hrun Hk) as [Hin|(g & Hg & Hgov & Hgk & Hgr)].
      * destruct (decide (Main.ovKey f = k)) as [Heq|Hne].
        -- rewrite Heq, lookup_insert_eq in Hin. injection Hin as ->.
           right. exists f. split_and!; try done. apply elem_of_cons. by left.
        -- rewrite lookup_insert_ne in Hin by done. by left.
      * right. exists g. split_and!; try done. apply elem_of_cons. by right.
    + destruct (IH _ Hrun Hk) as [Hin|(g & Hg & Hgov & Hgk & Hgr)]; [by left|].
      right. exists g. split_and!; try done. apply elem_of_cons. by right.
Qed.

(** The loop ends without a voucher only if it began without one and found
    no voucher file. *)
Lemma readOVFiles_empty files ovs ovs' :
  Main.readOVFiles D dir files ovs = inl ovs' →
  (ovs' = ∅ ↔ ovs = ∅ ∧ ∀ f, f ∈ files → Strings.HasPrefix f "ov" = false).
Proof.
  revert ovs. induction files as [|f files IH]; intros ovs Hrun.
  - injection Hrun as <-. split; [|by intros [? _]].
    intros ->. split; [done|]. intros f Hf. by apply elem_of_nil in Hf.
  - cbn [Main.readOVFiles] in Hrun.
    destruct (Strings.HasPrefix f "ov") eqn:Hov.
    + destruct (ReadFile D (Join D dir f)) as [content|err] eqn:Hread; [|done].
      rewrite (IH _ Hrun). split.
      * intros [Habs _]. by apply insert_non_empty in Habs.
      * intros [_ Hnone]. specialize (Hnone f). rewrite Hov in Hnone.
        discriminate Hnone. apply elem_of_cons. by left.
    + rewrite (IH _ Hrun). split.
      * intros [-> Hnone]. split; [done|]. intros g Hg.
        apply elem_of_cons in Hg as [->|Hg]; [done|by apply Hnone].
      * intros [-> Hnone]. split; [done|]. intros g Hg. apply Hnone.
        apply elem_of_cons. by right.
Qed.

(** The voucher of a key is the content of the last file with that key. *)
Lemma readOVFiles_last pre f post ovs ovs' v :
  Main.readOVFiles D dir (pre ++ f :: post) ovs = inl ovs' →
  Strings.HasPrefix f "ov" = true →
  ReadFile D (Join D dir f) = inl v →
  (∀ g, g ∈ post → Strings.HasPrefix g "ov" = true → Main.ovKey g ≠ Main.ovKey f) →
  ovs' !! Main.ovKey f = Some v.
Proof.
  rewrite readOVFiles_app.
  destruct (Main.readOVFiles D dir pre ovs) as [ovs1|]; [|done].
  cbn [Main.readOVFiles]. intros Hrun Hov Hread Hpost. rewrite Hov, Hread in Hrun.
  assert (Hkeep : ∀ files m m',
            Main.readOVFiles D dir files m = inl m' →
            (∀ g, g ∈ files → Strings.HasPrefix g "ov" = true →
                  Main.ovKey g ≠ Main.ovKey f) →
            m' !! Main.ovKey f = m !! Main.ovKey f).
  { clear. induction files as [|g files IH]; intros m m' Hrun Hne.
    - by injection Hrun as <-.
    - cbn [Main.readOVFiles] in Hrun.
      destruct (Strings.HasPrefix g "ov") eqn:Hov.
      + destruct (ReadFile D (Join D dir g)) as [content|err]; [|done].
        rewrite (IH _ _ Hrun).
        * apply lookup_insert_ne. apply Hne; [apply elem_of_cons; by left|done].
        * intros h Hh. apply Hne. apply elem_of_cons. by right.
      + apply (IH _ _ Hrun). intros h Hh. apply Hne. apply elem_of_cons. by right. }
  rewrite (Hkeep _ _ _ Hrun Hpost). apply lookup_insert_eq.
Qed.

End ArtifactFacts.

Lemma readOVs_cases {Certificate} (D : Disk Certificate) (dir : string) :
  (∃ ovs, Main.readOVs D dir = (Some ovs, None))
  ∨ (∃ err, Main.readOVs D dir = (None, Some err)).
Proof.
  unfold Main.readOVs. destruct (ReadDir D dir); [|right; by eexists].
  destruct (Main.readOVFiles D dir _ ∅); [|right; by eexists].
  destruct (decide _); [right|left]; by eexists.
Qed.

(** X15. The vouchers [readOVs] returns are never none at all, and each is
    the content of a file of the directory whose name begins with "ov",
    under the name of the file without a leading "ov_" and without a
    trailing ".txt". *)
Theorem readOVs_sound {Certificate} (D : Disk Certificate) (dir : string)
    (ovs : gmap string string) :
  Main.readOVs D dir = (Some ovs, None) →
  ovs ≠ ∅
  ∧ ∀ k v, ovs !! k = Some v →
      ∃ files f,
        ReadDir D dir = inl files
        ∧ f ∈ files
        ∧ Strings.HasPrefix f "ov" = true
        ∧ k = Strings.TrimSuffix (Strings.TrimPrefix f "ov_") ".txt"
        ∧ ReadFile D (Join D dir f) = inl v.
Proof.
  unfold Main.readOVs.
  destruct (ReadDir D dir) as [files|err]; [|done].
  destruct (Main.readOVFiles D dir files ∅) as [ovs'|err] eqn:Hloop; [|done].
  destruct (decide (size ovs' = 0)) as [|Hsize]; [done|].
  intros [= ->]. split.
  - intros ->. by rewrite map_size_empty in Hsize.
  - intros k v Hk.
    destruct (readOVFiles_lookup D dir files ∅ ovs k v Hloop Hk)
      as [Hempty|(f & Hf & Hov & Hkey & Hread)].
    + by rewrite lookup_empty in Hempty.
    + exists files, f. by split_and!.
Qed.

Lemma readOVs_sound_witness :
  let ovs : gmap string string :=
    <["123B" := "VOUCHER B"]> (<["123A" := "VOUCHER A"]> ∅) in
  ovs ≠ ∅
  ∧ ∀ k v, ovs !! k = Some v →
      ∃ files f,
        ReadDir LabDisk.disk "../testdata/" = inl files
        ∧ f ∈ files
        ∧ Strings.HasPrefix f "ov" = true
        ∧ k = Strings.TrimSuffix (Strings.TrimPrefix f "ov_") ".txt"
        ∧ ReadFile LabDisk.disk (Join LabDisk.disk "../testdata/" f) = inl v.
Proof.
  intros ovs. apply (readOVs_sound LabDisk.disk "../testdata/" ovs).
  vm_compute. reflexivity.
Defined.

(** X16. [readOVs] returns vouchers or an error, never both or neither, and
    it returns an error in three cases and no other: the directory cannot be
    listed; a file whose name begins with "ov" cannot be read; no name in the
    directory begins with "ov".  A file with another name is not read. *)
Theorem readOVs_fails_iff {Certificate} (D : Disk Certificate) (dir : string) :
  ((∃ ovs, Main.readOVs D dir = (Some ovs, None))
   ∨ (∃ err, Main.readOVs D dir = (None, Some err)))
  ∧ ((∃ err, Main.readOVs D dir = (None, Some err))
     ↔ (∃ err, ReadDir D dir = inr err)
       ∨ ∃ files,
           ReadDir D dir = inl files
           ∧ ((∃ f err, f ∈ files ∧ Strings.HasPrefix f "ov" = true
                        ∧ ReadFile D (Join D dir f) = inr err)
              ∨ ∀ f, f ∈ files → Strings.HasPrefix f "ov" = false)).
Proof.
  unfold Main.readOVs.
  destruct (ReadDir D dir) as [files|err].
  2:{ split; [right; by eexists|]. split; [intros _; left; by eexists|by eexists]. }
  destruct (Main.readOVFiles D dir files ∅) as [ovs|err] eqn:Hloop.
  - pose proof (readOVFiles_empty D dir files ∅ ovs Hloop) as Hempty.
    destruct (decide (size ovs = 0)) as [Hsize|Hsize].
    + split; [right; by eexists|]. split; [|by eexists].
      intros _. right. exists files. split; [done|]. right.
      apply map_size_empty_iff in Hsize. by apply Hempty.
    + split; [left; by eexists|]. split; [by intros [? ?]|].
      intros [[err Herr]|(files' & [= <-] & [(f & err & Hf & Hov & Hread)|Hnone])].
      * done.
      * exfalso.
        assert (Hok : ∀ g, g ∈ files → Strings.HasPrefix g "ov" = true →
                  ∃ content, ReadFile D (Join D dir g) = inl content).
        { intros g Hg Hgov.
          destruct (ReadFile D (Join D dir g)) as [content|err'] eqn:Hr; [by eexists|].
          exfalso. apply list_elem_of_split in Hg as (l1 & l2 & ->).
          clear Hf Hempty. revert Hloop. generalize (∅ : gmap string string).
          induction l1 as [|h l1 IH]; intros m; cbn [app Main.readOVFiles].
          - by rewrite Hgov, Hr.
          - destruct (Strings.HasPrefix h "ov"); [|apply IH].
            destruct (ReadFile D (Join D dir h)); [apply IH|done]. }
        destruct (Hok f Hf Hov) as [content Hc]. congruence.
      * exfalso. apply Hsize. apply map_size_empty_iff. by apply Hempty.
  - split; [right; by eexists|]. split; [|by eexists].
    intros _. right. exists files. split; [done|]. left.
    apply readOVFiles_inr in Hloop as (pre & f & post & -> & Hov & Hread & _).
    exists f, err. split_and!; try done.
    apply elem_of_app. right. apply elem_of_cons. by left.
Qed.

(** X17. From the file of a serial to its voucher.  When the directory can be
    listed, every file in it whose name begins with "ov" can be read, and the
    file "ov_" serial ".txt" is the last that gives the key [serial], then
    [readOVs] returns vouchers, and the voucher of [serial] is the content of
    that file. *)
Theorem readOVs_finds_voucher {Certificate} (D : Disk Certificate) (dir : string)
    (pre post : list string) (serial content : string) :
  let name := String.append "ov_" (String.append serial ".txt") in
  ReadDir D dir = inl (pre ++ name :: post) →
  (∀ f, f ∈ pre ++ name :: post → Strings.HasPrefix f "ov" = true →
        ∃ c, ReadFile D (Join D dir f) = inl c) →
  ReadFile D (Join D dir name) = inl content →
  (∀ g, g ∈ post → Strings.HasPrefix g "ov" = true →
        Strings.TrimSuffix (Strings.TrimPrefix g "ov_") ".txt" ≠ serial) →
  ∃ ovs, Main.readOVs D dir = (Some ovs, None) ∧ ovs !! serial = Some content.
Proof.
  intros name Hdir Hreadable Hread Hpost.
  destruct (ovKey_named serial) as [Hkey Hov]. fold name in Hkey, Hov.
  unfold Main.readOVs. rewrite Hdir.
  destruct (Main.readOVFiles D dir (pre ++ name :: post) ∅) as [ovs|err] eqn:Hloop.
  - assert (Hfound : ovs !! serial = Some content).
    { rewrite <- Hkey.
      apply (readOVFiles_last D dir pre name post ∅ ovs content Hloop Hov Hread).
      intros g Hg Hgov. rewrite Hkey. by apply Hpost. }
    destruct (decide (size ovs = 0)) as [Hsize|Hsize].
    + apply map_size_empty_iff in Hsize. rewrite Hsize, lookup_empty in Hfound. done.
    + by exists ovs.
  - apply readOVFiles_inr in Hloop as (l1 & f & l2 & Hfiles & Hfov & Hfread & _).
    destruct (Hreadable f) as [c Hc]; [|done|congruence].
    rewrite Hfiles. apply elem_of_app. right. apply elem_of_cons. by left.
Qed.

Lemma readOVs_finds_voucher_witness :
  ∃ ovs, Main.readOVs LabDisk.disk "../testdata/" = (Some ovs, None)
         ∧ ovs !! "123A" = Some "VOUCHER A".
Proof.
  apply (readOVs_finds_voucher LabDisk.disk "../testdata/"
           ["inventory.prototxt"; "oc_priv.pem"; "oc_pub.pem"]
           ["ov_123B.txt"; "pdc_priv.pem"; "pdc_pub.pem";
            "vendorca_priv.pem"; "vendorca_pub.pem"]
           "123A" "VOUCHER A").
  - reflexivity.
  - intros f Hf Hov.
    repeat (apply elem_of_cons in Hf as [->|Hf];
            [first [discriminate Hov | by eexists]|]).
    by apply elem_of_nil in Hf.
  - reflexivity.
  - intros g Hg Hov.
    repeat (apply elem_of_cons in Hg as [->|Hg];
            [first [discriminate Hov | by vm_compute]|]).
    by apply elem_of_nil in Hg.
Defined.

(** [readKeypair] gives a key pair exactly when both files can be read. *)
Lemma readKeypair_ok {Certificate} (D : Disk Certificate) (dir name : string) kp :
  Main.readKeypair D dir name = (kp, None)
  ↔ ∃ cert key,
      ReadFile D (Join D dir (String.append name "_pub.pem")) = inl cert
      ∧ ReadFile D (Join D dir (String.append name "_priv.pem")) = inl key
      ∧ kp = Some (KeyPair.mk cert key).
Proof.
  unfold Main.readKeypair.
  destruct (ReadFile D (Join D dir (String.append name "_pub.pem"))) as [cert|e1].
  - destruct (ReadFile D (Join D dir (String.append name "_priv.pem"))) as [key|e2].
    + split.
      * intros [= <-]. by exists cert, key.
      * intros (c & k & [= <-] & [= <-] & ->). done.
    + split; [done|]. by intros (c & k & _ & ? & _).
  - split; [done|]. by intros (c & k & ? & _).
Qed.

Lemma readKeypair_cases {Certificate} (D : Disk Certificate) (dir name : string) :
  (∃ kp, Main.readKeypair D dir name = (Some kp, None))
  ∨ (∃ err, Main.readKeypair D dir name = (None, Some err)).
Proof.
  unfold Main.readKeypair.
  destruct (ReadFile D _); [|right; by eexists].
  destruct (ReadFile D _); [left|right]; by eexists.
Qed.

(** X18. [parseSecurityArtifacts] returns the artifacts or an error, never
    both or neither, and it does not panic.  It returns the artifacts exactly
    when the certificate and the key of oc, pdc and vendorca can be read,
    [readOVs] returns vouchers, and the certificate and key of pdc make a TLS
    key pair; the artifacts are then these texts, these vouchers and that
    TLS key pair. *)
Theorem parseSecurityArtifacts_ok_iff {Certificate} (D : Disk Certificate)
    (dir : string) :
  ((∃ sa, Main.parseSecurityArtifacts D dir = Return (Some sa, None))
   ∨ (∃ err, Main.parseSecurityArtifacts D dir = Return (None, Some err)))
  ∧ ∀ sa,
      Main.parseSecurityArtifacts D dir = Return (Some sa, None)
      ↔ ∃ ocCert ocKey pdcCert pdcKey caCert caKey ovs tlsCert,
          ReadFile D (Join D dir "oc_pub.pem") = inl ocCert
          ∧ ReadFile D (Join D dir "oc_priv.pem") = inl ocKey
          ∧ ReadFile D (Join D dir "pdc_pub.pem") = inl pdcCert
          ∧ ReadFile D (Join D dir "pdc_priv.pem") = inl pdcKey
          ∧ ReadFile D (Join D dir "vendorca_pub.pem") = inl caCert
          ∧ ReadFile D (Join D dir "vendorca_priv.pem") = inl caKey
          ∧ Main.readOVs D dir = (Some ovs, None)
          ∧ X509KeyPair D pdcCert pdcKey = inl tlsCert
          ∧ sa = SecurityArtifacts.mk
                   (Some (KeyPair.mk ocCert ocKey)) (Some (KeyPair.mk pdcCert pdcKey))
                   (Some (KeyPair.mk caCert caKey)) ovs (Some tlsCert).
Proof.
  pose proof (readOVs_cases D dir) as Hovs.
  unfold Main.parseSecurityArtifacts.
  destruct (readKeypair_cases D dir "oc") as [[oc Hoc]|[e Hoc]]; rewrite Hoc.
  2:{ split; [right; by eexists|]. intros sa. split; [done|].
      intros (a & b & c & d & e' & f & g & h & Ha & Hb & _).
      pose proof (proj2 (readKeypair_ok D dir "oc" (Some (KeyPair.mk a b)))) as Hk.
      rewrite Hoc in Hk. discriminate Hk. by exists a, b. }
  apply readKeypair_ok in Hoc as (ocCert & ocKey & Hoc1 & Hoc2 & [= ->]).
  destruct (readKeypair_cases D dir "pdc") as [[pdc Hpdc]|[e Hpdc]]; rewrite Hpdc.
  2:{ split; [right; by eexists|]. intros sa. split; [done|].
      intros (a & b & c & d & e' & f & g & h & _ & _ & Hc & Hd & _).
      pose proof (proj2 (readKeypair_ok D dir "pdc" (Some (KeyPair.mk c d)))) as Hk.
      rewrite Hpdc in Hk. discriminate Hk. by exists c, d. }
  apply readKeypair_ok in Hpdc as (pdcCert & pdcKey & Hpdc1 & Hpdc2 & [= ->]).
  destruct (readKeypair_cases D dir "vendorca") as [[ca Hca]|[e Hca]]; rewrite Hca.
  2:{ split; [right; by eexists|]. intros sa. split; [done|].
      intros (a & b & c & d & e' & f & g & h & _ & _ & _ & _ & He & Hf & _).
      pose proof (proj2 (readKeypair_ok D dir "vendorca" (Some (KeyPair.mk e' f)))) as Hk.
      rewrite Hca in Hk. discriminate Hk. by exists e', f. }
  apply readKeypair_ok in Hca as (caCert & caKey & Hca1 & Hca2 & [= ->]).
  cbv [String.append] in Hoc1, Hoc2, Hpdc1, Hpdc2, Hca1, Hca2.
  destruct Hovs as [[ovs Hov]|[e Hov]]; rewrite Hov.
  2:{ split; [right; by eexists|]. intros sa. split; [done|].
      by intros (a & b & c & d & e' & f & g & h & _ & _ & _ & _ & _ & _ & ? & _). }
  cbn.
  destruct (X509KeyPair D pdcCert pdcKey) as [tlsCert|e] eqn:Htls.
  2:{ split; [right; by eexists|]. intros sa. split; [done|].
      intros (a & b & c & d & e' & f & g & h & _ & _ & Hc & Hd & _ & _ & _ & Hh & _).
      congruence. }
  split; [left; by eexists|]. intros sa. split.
  - intros [= <-]. exists ocCert, ocKey, pdcCert, pdcKey, caCert, caKey, ovs, tlsCert.
    by split_and!.
  - intros (a & b & c & d & e' & f & g & h & Ha & Hb & Hc & Hd & He & Hf & Hg & Hh & ->).
    congruence.
Qed.

(** The artifacts of the test directory. *)
Example parseSecurityArtifacts_testdata :
  Main.parseSecurityArtifacts LabDisk.disk "../testdata/"
  = Return (Some (SecurityArtifacts.mk
                    (Some (KeyPair.mk "OC CERT" "OC KEY"))
                    (Some (KeyPair.mk "PDC CERT" "PDC KEY"))
                    (Some (KeyPair.mk "VENDOR CERT" "VENDOR KEY"))
                    (<["123B" := "VOUCHER B"]> (<["123A" := "VOUCHER A"]> ∅))
                    (Some "PDC CERTPDC KEY")), None).
Proof. vm_compute. reflexivity. Qed.

(** ** The server *)

Lemma parseSecurityArtifacts_shape {Certificate} (D : Disk Certificate) (dir : string) :
  (∃ err, Main.parseSecurityArtifacts D dir = Return (None, Some err))
  ∨ (∃ sa pdc cert,
       Main.parseSecurityArtifacts D dir = Return (Some sa, None)
       ∧ SecurityArtifacts.PDC sa = Some pdc
       ∧ SecurityArtifacts.TLSKeypair sa = Some cert).
Proof.
  unfold Main.parseSecurityArtifacts.
  destruct (readKeypair_cases D dir "oc") as [[oc ->]|[e ->]]; [|left; by eexists].
  destruct (readKeypair_cases D dir "pdc") as [[pdc ->]|[e ->]]; [|left; by eexists].
  destruct (readKeypair_cases D dir "vendorca") as [[ca ->]|[e ->]]; [|left; by eexists].
  destruct (readOVs_cases D dir) as [[ovs ->]|[e ->]]; [|left; by eexists].
  cbn. destruct (X509KeyPair D _ _) as [cert|e]; [|left; by eexists].
  right. by eexists _, _, _.
Qed.

Section ServerFacts.
Context {W G L Certificate : Type} (H : Main.Host W G L Certificate).
Implicit Types (s : Main.server.t G L) (w : W) (config : Main.ServerConfig.t).

(** What [Start] does, case by case. *)
Lemma Start_cases addr config s w :
  (∃ err w',
     (Main.ServerConfig.ArtifactDirectory config = "" ∨ addr ≠ "")
     ∧ Main.Start H addr config s w
       = (Main.Returned ("Failure", Some err), Main.server.set_status "Failure" s, w'))
  ∨ (Main.ServerConfig.ArtifactDirectory config ≠ "" ∧ addr = ""
     ∧ Main.Start H addr config s w
       = (Main.Exited, Main.server.set_status "Failure" s, w))
  ∨ (∃ g l w',
       Main.ServerConfig.ArtifactDirectory config ≠ "" ∧ addr ≠ ""
       ∧ Main.Start H addr config s w
         = (Main.Returned ("Running", None),
            Main.server.mk (Some g) (Some l) "Running" (Main.server.config s), w')).
Proof.
  unfold Main.Start.
  destruct (decide (Main.ServerConfig.ArtifactDirectory config = "")) as [|Hdir].
  { left. eexists _, _. split; [by left|done]. }
  destruct (decide (addr = "")) as [->|Haddr].
  { right; left. by split_and!. }
  destruct (parseSecurityArtifacts_shape (Main.disk H) (Main.artifactDirectory H))
    as [[err ->]|(sa & pdc & cert & -> & Hpdc & Htls)].
  { left. eexists _, _. split; [by right|done]. }
  destruct (Main.newEntityManager H _ w) as [[err|] w1].
  { left. eexists _, _. split; [by right|done]. }
  rewrite Hpdc.
  destruct (Main.AppendCertsFromPEM H (KeyPair.Cert pdc)); cbn.
  2:{ left. eexists _, _. split; [by right|done]. }
  rewrite Htls. destruct (Main.NewServer H cert w1) as [g w2].
  destruct (Main.Listen H _ w2) as [[l|err] w3].
  - right; right. by eexists _, _, _.
  - left. eexists _, _. split; [by right|done].
Qed.

(** X19. How [Start] ends.  It dereferences no nil pointer: the artifacts it
    reads through are there whenever [parseSecurityArtifacts] returned no
    error.  The process exits in it exactly when the artifact directory of the
    configuration is not empty and the address is.  When it returns, the
    status it returns is the status of the server: "Running" with no error,
    the server then having a grpc server and a listener; or "Failure" with an
    error, the grpc server and the listener of the server then being what they
    were.  It leaves the configuration of the server as it was: the
    configuration it is given is not stored. *)
Theorem Start_outcome (addr : string) config s w :
  (Main.ended (Main.Start H addr config s w) = Main.Exited
   ↔ Main.ServerConfig.ArtifactDirectory config ≠ "" ∧ addr = "")
  ∧ Main.ended (Main.Start H addr config s w) ≠ Main.Panicked
  ∧ Main.server.config (Main.serverAfter (Main.Start H addr config s w))
    = Main.server.config s
  ∧ ∀ st err,
      Main.ended (Main.Start H addr config s w) = Main.Returned (st, err) →
      st = Main.server.status (Main.serverAfter (Main.Start H addr config s w))
      ∧ ((st = "Running" ∧ err = None
          ∧ is_Some (Main.server.serv (Main.serverAfter (Main.Start H addr config s w)))
          ∧ is_Some (Main.server.lis (Main.serverAfter (Main.Start H addr config s w))))
         ∨ (st = "Failure" ∧ is_Some err
            ∧ Main.server.serv (Main.serverAfter (Main.Start H addr config s w))
              = Main.server.serv s
            ∧ Main.server.lis (Main.serverAfter (Main.Start H addr config s w))
              = Main.server.lis s)).
Proof.
  destruct (Start_cases addr config s w)
    as [(err & w' & Hwhy & ->)|[(Hdir & -> & ->)|(g & l & w' & Hdir & Haddr & ->)]];
    cbn; split_and!; try done.
  - split; [done|]. intros [Hdir Haddr]. by destruct Hwhy.
  - intros st e [= <- <-]. split; [done|]. right. by split_and!.
  - split; [done|]. by intros [_ ?].
  - intros st e [= <- <-]. split; [done|]. left. by split_and!.
Qed.

(** X20. [Reload] cannot bring the server back.  It starts the server with
    the configuration of the server, which [Start] does not store.  When that
    configuration has no artifact directory, as in the server that [main]
    makes: [Reload] of a server that has a grpc server and a listener stops
    the grpc server and returns the status "Failure" with the error of the
    missing artifact directory, without listening again; [Reload] of a server
    without listener panics and leaves the server as it was; and [Reload] and
    [Stop] leave the configuration as it was, so that a later [Reload] fares
    no better. *)
Theorem Reload_fails_without_config s w :
  Main.ServerConfig.ArtifactDirectory (Main.server.config s) = "" →
  (∀ g l, Main.server.serv s = Some g → Main.server.lis s = Some l →
          Main.Reload H s w
          = (Main.Returned ("Failure", Some Main.errNoArtifactDirectory),
             Main.server.set_status "Failure" s, Main.GracefulStop H g w))
  ∧ (Main.server.lis s = None → Main.Reload H s w = (Main.Panicked, s, w))
  ∧ Main.server.config (Main.serverAfter (Main.Reload H s w)) = Main.server.config s
  ∧ Main.server.config (Main.serverAfter (Main.Stop H s w)) = Main.server.config s.
Proof.
  intros Hdir. unfold Main.Reload, Main.Stop, Main.Start. split_and!.
  - intros g l -> ->. cbn. rewrite Hdir.
    destruct (decide _); [done|contradiction].
  - by intros ->.
  - destruct (Main.server.lis s); [|done].
    destruct (Main.server.serv s); [|done]. cbn. rewrite Hdir.
    by destruct (decide _).
  - by destruct (Main.server.serv s).
Qed.
End ServerFacts.

(** The server of [main], started on the lab host, runs; reloaded, it is
    stopped and fails. *)
Lemma Reload_fails_without_config_witness :
  let s := Main.serverAfter
             (Main.Start LabDisk.host "127.0.0.1" LabDisk.mainConfig Main.server.zero []) in
  Main.server.status s = "Running"
  ∧ Main.Reload LabDisk.host s ["inventory ../testdata/inventory_local.prototxt";
                                "listen localhost:127.0.0.1"]
    = (Main.Returned ("Failure", Some Main.errNoArtifactDirectory),
       Main.server.set_status "Failure" s,
       ["inventory ../testdata/inventory_local.prototxt"; "listen localhost:127.0.0.1"; "stop"]).
Proof.
  split; [vm_compute; reflexivity|].
  apply (proj1 (Reload_fails_without_config LabDisk.host
                  (Main.serverAfter
                     (Main.Start LabDisk.host "127.0.0.1" LabDisk.mainConfig
                        Main.server.zero []))
                  ["inventory ../testdata/inventory_local.prototxt"; "listen localhost:127.0.0.1"]
                  ltac:(vm_compute; reflexivity))
           "PDC CERTPDC KEY" "localhost:127.0.0.1");
    vm_compute; reflexivity.
Defined.
